(** * Off-net feasibility calculator: the cost simulator of [simulation.py]

    A shallow embedding of [OffNetSimulator] (its constructor,
    [adjust_dataset], [compute_aws_bandwidth] and [run_simulation]) and of
    the two records of [models.py], followed by the properties of the
    simulator.

    Python's numbers are embedded as follows.  The [int] fields
    ([time_horizon_days], [avg_num_users], [hardware_life_cycle_years]) and
    every loop index are [Z]; [%] on them is Python's floor modulo, which
    raises [ZeroDivisionError] on a zero divisor.  The [float] fields and
    the entries of the pandas columns are elements of a type [num] with the
    operations the code applies to them; an [int] field that the code uses
    as an operand of a float operation is converted, and the conversion
    raises [OverflowError] when the [int] is too large.  Two instances are
    given: IEEE binary64 (what CPython, numpy and pandas compute with) and
    the rationals [Qc] (exact arithmetic).  Everything proved about the
    structure of the simulation is proved for an arbitrary instance. *)

From Stdlib Require Import String ZArith List Bool Lia.
From Stdlib Require Import QArith Qcanon.
From Stdlib Require Import PrimFloat SpecFloat FloatOps FloatAxioms.
From Stdlib Require DecimalString.
Import ListNotations.

Set Implicit Arguments.
Local Open Scope Z_scope.

(** ** Numbers *)

(** The arithmetic the simulator uses on non-integer values: the value of a
    Python [int] that has one (the literals [30], [1_048_576], [1024],
    [24 * 60 * 60], the number of rows in a mean), whether an [int] has one
    (Python refuses, with [OverflowError], to convert an [int] that is too
    large), [+], [*], true division [/], the comparison [<], and the test for
    NaN by which pandas leaves missing entries out of its reductions. *)
Class Arith (num : Type) : Type := {
  of_int : Z -> num;
  fits : Z -> bool;
  add : num -> num -> num;
  mul : num -> num -> num;
  div : num -> num -> num;
  ltb : num -> num -> bool;
  isnan : num -> bool
}.

Declare Scope num_scope.
Delimit Scope num_scope with num.
Infix "+" := add : num_scope.
Infix "*" := mul : num_scope.
Infix "/" := div : num_scope.
Infix "<?" := ltb : num_scope.

(** Binary64.  An integer is converted by rounding to nearest, ties to even,
    as CPython and numpy do; the integers that Python refuses to convert are
    those that this rounding takes beyond the largest finite number, from
    [2 ** 1024 - 2 ** 970] on in absolute value.  numpy's division by zero
    yields an infinity or a NaN (with a warning), it does not raise. *)
Definition float_of_int (z : Z) : float :=
  SF2Prim (binary_normalize prec emax z 0 false).

Definition float_fits (z : Z) : bool :=
  match binary_normalize prec emax z 0 false with
  | S754_infinity _ => false
  | _ => true
  end.

(** [not np.isfinite(x)]: an infinity or a NaN. *)
Definition not_finite (x : float) : bool :=
  match Prim2SF x with
  | S754_infinity _ | S754_nan => true
  | _ => false
  end.

#[export] Instance float_arith : Arith float := {|
  of_int := float_of_int;
  fits := float_fits;
  add := PrimFloat.add;
  mul := PrimFloat.mul;
  div := PrimFloat.div;
  ltb := PrimFloat.ltb;
  isnan := PrimFloat.is_nan
|}.

(** Exact rational arithmetic.  [Qc]'s division is total ([x / 0 = 0]); the
    statements made in this instance keep every divisor away from zero. *)
#[export] Instance Qc_arith : Arith Qc := {|
  of_int := fun z => Q2Qc (inject_Z z);
  fits := fun _ => true;
  add := Qcplus;
  mul := Qcmult;
  div := Qcdiv;
  ltb := fun x y => match Qccompare x y with Lt => true | _ => false end;
  isnan := fun _ => false
|}.

(** ** Exceptions *)

(** The Python exceptions the modelled statements can raise. *)
Inductive exn : Type :=
| ZeroDivisionError   (* [%] with a zero right operand *)
| IndexError          (* [l[-1]] or [.iloc[-1]] on an empty sequence *)
| KeyError            (* [.loc] with a label that is not in the index *)
| ValueError          (* [pd.DataFrame] with columns of unequal length *)
| OverflowError.      (* an [int] too large to convert to [float] *)

Inductive result (A : Type) : Type :=
| Ok (a : A)
| Raise (e : exn).
Arguments Ok {A} a.
Arguments Raise {A} e.

Definition bind {A B : Type} (m : result A) (k : A -> result B) : result B :=
  match m with
  | Ok a => k a
  | Raise e => Raise e
  end.

Declare Scope py_scope.
Delimit Scope py_scope with py.
Notation "x <- m ;; k" := (bind m (fun x => k))
  (at level 100, m at next level, right associativity) : py_scope.
Notation "' p <- m ;; k" := (bind m (fun p => k))
  (at level 100, p pattern, m at next level, right associativity) : py_scope.
Local Open Scope py_scope.

(** ** Python and pandas primitives *)

(** An [int] as operand of a float operation ([n / x], [n * x]): it is
    converted first, and the conversion raises when [n] is too large. *)
Definition to_float {num} `{Arith num} (n : Z) : result num :=
  if fits n then Ok (of_int n) else Raise OverflowError.

(** [a % b] on [int]: the result has the sign of [b], like [Z.modulo]. *)
Definition py_mod (a b : Z) : result Z :=
  if b =? 0 then Raise ZeroDivisionError else Ok (a mod b).

(** [range(n)] and [range(a, b)]. *)
Definition range (n : Z) : list Z :=
  map Z.of_nat (seq 0 (Z.to_nat n)).

Definition range_from (a b : Z) : list Z :=
  map (fun i => a + Z.of_nat i) (seq 0 (Z.to_nat (b - a))).

(** [l[:n]]: the first [n] items, or all but the last [-n] when [n < 0]. *)
Definition slice_to {A : Type} (n : Z) (l : list A) : list A :=
  if 0 <=? n then firstn (Z.to_nat n) l
  else firstn (Z.to_nat (Z.of_nat (length l) + n)) l.

(** [l[-1] += x]. *)
Fixpoint add_to_last {num} `{Arith num} (x : num) (l : list num)
  : result (list num) :=
  match l with
  | [] => Raise IndexError
  | [a] => Ok [(a + x)%num]
  | a :: l' => l'' <- add_to_last x l' ;; Ok (a :: l'')
  end.

(** [s.iloc[-1]]. *)
Fixpoint iloc_last {A : Type} (l : list A) : result A :=
  match l with
  | [] => Raise IndexError
  | [a] => Ok a
  | _ :: l' => iloc_last l'
  end.

(** [df.loc[i, column]] on a frame with the default index [0 .. len - 1]. *)
Definition loc {A B : Type} (l : list A) (i : Z) (column : A -> B) : result B :=
  if i <? 0 then Raise KeyError
  else match nth_error l (Z.to_nat i) with
       | Some r => Ok (column r)
       | None => Raise KeyError
       end.

Section Numeric.

Context {num : Type} `{Arith num}.
Local Open Scope num_scope.

(** The entries a pandas reduction takes into account ([skipna=True]). *)
Definition dropna (l : list num) : list num :=
  filter (fun x => negb (isnan x)) l.

(** The column a pandas reduction hands to numpy: the NaN entries replaced
    by [0]. *)
Definition fillna (l : list num) : list num :=
  map (fun x => if isnan x then of_int 0 else x) l.

(** numpy adds the entries of a float column pairwise.  Fewer than eight
    entries are added left to right.  numpy starts that sum from [-0.0], the
    neutral element of binary64 addition, so that the result is the sum of
    the entries themselves: it is written here from the first entry on. *)
Definition short_sum (a : list num) : num :=
  match a with
  | [] => of_int 0
  | x :: a' => fold_left add a' x
  end.

(** [r[j] += a[j]] for the eight accumulators. *)
Definition add_columns (r a : list num) : list num :=
  map (fun xy => fst xy + snd xy) (combine r a).

(** The loop [for (i = 8; i < n - (n % 8); i += 8)] over the accumulators:
    [k] further blocks of eight entries, and the entries left over. *)
Fixpoint unrolled (k : nat) (r a : list num) : list num * list num :=
  match k with
  | O => (r, a)
  | S k' => unrolled k' (add_columns r (firstn 8 a)) (skipn 8 a)
  end.

(** From 8 to 128 entries: eight accumulators, each the sum of every eighth
    entry, are added as a tree, and the entries after the last whole block
    of eight are added to it one by one. *)
Definition block_sum (a : list num) : num :=
  let '(r, rest) := unrolled (length a / 8 - 1) (firstn 8 a) (skipn 8 a) in
  match r with
  | [r0; r1; r2; r3; r4; r5; r6; r7] =>
      fold_left add rest (((r0 + r1) + (r2 + r3)) + ((r4 + r5) + (r6 + r7)))
  | _ => of_int 0
  end.

(** More than 128 entries: the column is cut near the middle, at a multiple
    of eight, and the sums of the two parts are added.  Both parts are
    shorter than the column, so [fuel] at least the number of entries is
    never used up. *)
Fixpoint pairwise_sum (fuel : nat) (a : list num) : num :=
  let n := length a in
  if (n <? 8)%nat then short_sum a
  else if (n <=? 128)%nat then block_sum a
  else match fuel with
       | O => of_int 0
       | S fuel' =>
           let n2 := (n / 2)%nat in
           let n2 := (n2 - n2 mod 8)%nat in
           pairwise_sum fuel' (firstn n2 a) + pairwise_sum fuel' (skipn n2 a)
       end.

(** [s.sum()] on a float column: numpy's sum of the column with its NaN
    entries replaced by [0]; of a column without entries, [0.0]. *)
Definition sum (l : list num) : num :=
  match fillna l with
  | [] => of_int 0
  | a => pairwise_sum (length a) a
  end.

(** [s.mean()]: that sum over the number of entries that are not NaN; when
    there is none the result is NaN, here the quotient [0.0 / 0]. *)
Definition mean (l : list num) : num :=
  sum l / of_int (Z.of_nat (length (dropna l))).

(** [np.cumsum(l)]: running sums, the first one being the first item. *)
Fixpoint cumsum_from (acc : num) (l : list num) : list num :=
  match l with
  | [] => []
  | a :: l' => (acc + a) :: cumsum_from (acc + a) l'
  end.

Definition cumsum (l : list num) : list num :=
  match l with
  | [] => []
  | a :: l' => a :: cumsum_from a l'
  end.

(** ** Data model ([models.py]) *)

Record SimulationParameters : Type := {
  time_horizon_days : Z;
  avg_request_size_kb : num;
  avg_num_users : Z;
  off_net_bandwidth_cost_per_gb : num;
  on_net_bandwidth_cost_per_gb : num;
  hardware_cost_off_net_per_month : num;
  hardware_cost_on_net_per_month : num;
  upfront_hardware_cost_off_net : num;
  upfront_hardware_cost_on_net : num;
  hardware_life_cycle_years : Z;
  transfer_link_cost_per_gbps : num;
  sla_percentage : num
}.

(** One row of the traffic data frame; the frame is the list of its rows, in
    index order. *)
Record Row : Type := {
  num_users : num;
  num_requests : num
}.

(** The timeline data frame, by columns, as [pd.DataFrame] receives it. *)
Record Timeline : Type := {
  Day : list Z;
  On_Net_Cost : list num;
  Off_Net_Cost : list num;
  Sent_Requests : list num;
  Sent_Data_Volume_GB : list num;
  Active_Users : list num
}.

(** The recommendation text.  In Canvas mode it is one of two literals.  In
    AWS mode it is an f-string whose only variable parts are two numbers
    printed with [.2f]; it is kept as the pair of numbers it prints. *)
Inductive Recommendation : Type :=
| Text (s : string)
| Bandwidth_text (required_bandwidth transfer_link_cost : num).

Record SimulationResults : Type := {
  timeline : Timeline;
  final_recommendation : Recommendation;
  aws_transfer_link_cost : num;
  required_bandwidth_gbps : num
}.

(** ** [OffNetSimulator] *)

Record OffNetSimulator : Type := {
  params : SimulationParameters;
  user_data : list Row
}.

(** [adjust_dataset]: both columns are multiplied, item by item, by
    [avg_num_users / mean(num_users)].  The division has the [int]
    [avg_num_users] as its left operand. *)
Definition adjust_dataset (self : OffNetSimulator) : result OffNetSimulator :=
  let current_avg_users := mean (map num_users (user_data self)) in
  target <- to_float (avg_num_users (params self)) ;;
  let adjustment_factor := target / current_avg_users in
  Ok {| params := params self;
        user_data :=
          map (fun r => {| num_users := num_users r * adjustment_factor;
                           num_requests := num_requests r * adjustment_factor |})
              (user_data self) |}.

(** [__init__]. *)
Definition init (p : SimulationParameters) (data : list Row)
  : result OffNetSimulator :=
  adjust_dataset {| params := p; user_data := data |}.

(** [compute_aws_bandwidth]. *)
Definition compute_aws_bandwidth (self : OffNetSimulator) : num * num :=
  let total_requests := sum (map num_requests (user_data self)) in
  let requests_per_second := total_requests / of_int (24 * 60 * 60) in
  let data_volume_per_second_gbps :=
    requests_per_second *
    (avg_request_size_kb (params self) / of_int 1048576 / of_int 1024) in
  let required_bandwidth_gbps :=
    data_volume_per_second_gbps *
    (sla_percentage (params self) / of_int 100) in
  let transfer_link_cost_daily :=
    (required_bandwidth_gbps * transfer_link_cost_per_gbps (params self))
    / of_int 30 in
  (required_bandwidth_gbps, transfer_link_cost_daily).

(** [pd.DataFrame({...})]: the columns must have one length. *)
Definition DataFrame (day : list Z) (on_net off_net requests data users : list num)
  : result Timeline :=
  let n := length day in
  if (length on_net =? n)%nat && (length off_net =? n)%nat
     && (length requests =? n)%nat && (length data =? n)%nat
     && (length users =? n)%nat
  then Ok {| Day := day; On_Net_Cost := on_net; Off_Net_Cost := off_net;
             Sent_Requests := requests; Sent_Data_Volume_GB := data;
             Active_Users := users |}
  else Raise ValueError.

(** The variables [run_simulation] carries through its [for] loop: the
    simulator object the method reads ([self.params], [self.user_data]), the
    five lists it appends to and the local [required_bandwidth_gbps]
    ([bandwidth_gbps] here). *)
Record Frame : Type := {
  self_ : OffNetSimulator;
  on_net_costs : list num;
  off_net_costs : list num;
  sent_requests : list num;
  sent_data_gb : list num;
  active_users : list num;
  bandwidth_gbps : num
}.

(** The two branches of [if compute_aws:] in the loop: the new value of
    [required_bandwidth_gbps], [on_net_total_cost] and [off_net_total_cost]. *)
Definition day_costs (compute_aws : bool) (fr : Frame) (daily_data_volume : num)
  : num * num * num :=
  let p := params (self_ fr) in
  if compute_aws then
    let '(required_bandwidth_gbps, daily_transfer_link_cost) :=
      compute_aws_bandwidth (self_ fr) in
    let on_net_total_cost :=
      hardware_cost_on_net_per_month p / of_int 30 + daily_transfer_link_cost in
    let off_net_bandwidth_cost :=
      daily_data_volume * off_net_bandwidth_cost_per_gb p in
    let off_net_total_cost :=
      off_net_bandwidth_cost + hardware_cost_off_net_per_month p / of_int 30 in
    (required_bandwidth_gbps, on_net_total_cost, off_net_total_cost)
  else
    let on_net_bandwidth_cost :=
      daily_data_volume * on_net_bandwidth_cost_per_gb p in
    let on_net_total_cost :=
      on_net_bandwidth_cost + hardware_cost_on_net_per_month p / of_int 30 in
    let off_net_bandwidth_cost :=
      daily_data_volume * off_net_bandwidth_cost_per_gb p in
    let off_net_total_cost :=
      off_net_bandwidth_cost + hardware_cost_off_net_per_month p / of_int 30 in
    (bandwidth_gbps fr, on_net_total_cost, off_net_total_cost).

(** [if (day + 1) % hardware_life_cycle_days == 0:] and its two updates. *)
Definition lifecycle (hardware_life_cycle_days : Z) (fr : Frame) (day : Z)
  : result (list num * list num) :=
  let p := params (self_ fr) in
  r <- py_mod (day + 1)%Z hardware_life_cycle_days ;;
  if (r =? 0)%Z then
    on' <- add_to_last (upfront_hardware_cost_on_net p) (on_net_costs fr) ;;
    off' <- add_to_last (upfront_hardware_cost_off_net p) (off_net_costs fr) ;;
    Ok (on', off')
  else Ok (on_net_costs fr, off_net_costs fr).

(** One iteration of [for day in range(T_days):]. *)
Definition loop_body (compute_aws : bool) (avg_request_size_gb : num)
    (hardware_life_cycle_days : Z) (fr : Frame) (day : Z) : result Frame :=
  let data := user_data (self_ fr) in
  day_index <- py_mod day (Z.of_nat (length data)) ;;
  daily_users <- loc data day_index num_users ;;
  daily_requests <- loc data day_index num_requests ;;
  let daily_data_volume := daily_requests * avg_request_size_gb in
  let '(required, on_net_total_cost, off_net_total_cost) :=
    day_costs compute_aws fr daily_data_volume in
  '(on_costs, off_costs) <- lifecycle hardware_life_cycle_days fr day ;;
  Ok {| self_ := self_ fr;
        on_net_costs := on_costs ++ [on_net_total_cost];
        off_net_costs := off_costs ++ [off_net_total_cost];
        sent_requests := sent_requests fr ++ [daily_requests];
        sent_data_gb := sent_data_gb fr ++ [daily_data_volume];
        active_users := active_users fr ++ [daily_users];
        bandwidth_gbps := required |}.

(** A [for] loop whose body may raise. *)
Fixpoint for_each {S A : Type} (body : S -> A -> result S) (l : list A) (s : S)
  : result S :=
  match l with
  | [] => Ok s
  | a :: l' => s' <- body s a ;; for_each body l' s'
  end.

Definition off_net_text : string := "Off-net solution is more cost-effective.".
Definition on_net_text : string := "On-net solution is more cost-effective.".

(** The state of the locals when the loop is entered. *)
Definition initial_frame (self : OffNetSimulator) : Frame :=
  {| self_ := self;
     on_net_costs := [upfront_hardware_cost_on_net (params self)];
     off_net_costs := [upfront_hardware_cost_off_net (params self)];
     sent_requests := [];
     sent_data_gb := [];
     active_users := [];
     bandwidth_gbps := of_int 0 |}.

(** What follows the loop: the data frame, its last row, the recommendation
    and the results record. *)
Definition finish (compute_aws : bool) (T_days : Z) (fr : Frame)
  : result SimulationResults :=
  let p := params (self_ fr) in
  df <- DataFrame (range_from 1 (T_days + 1))
          (cumsum (slice_to T_days (on_net_costs fr)))
          (cumsum (slice_to T_days (off_net_costs fr)))
          (sent_requests fr) (sent_data_gb fr) (active_users fr) ;;
  total_on_net <- iloc_last (On_Net_Cost df) ;;
  total_off_net <- iloc_last (Off_Net_Cost df) ;;
  let '(transfer_link_cost, recommendation) :=
    if compute_aws then
      let transfer_link_cost :=
        bandwidth_gbps fr * transfer_link_cost_per_gbps p in
      (transfer_link_cost, Bandwidth_text (bandwidth_gbps fr) transfer_link_cost)
    else
      (of_int 0,
       Text (if total_off_net <? total_on_net then off_net_text
             else on_net_text)) in
  Ok {| timeline := df;
        final_recommendation := recommendation;
        aws_transfer_link_cost := transfer_link_cost;
        required_bandwidth_gbps := bandwidth_gbps fr |}.

(** The loop of [run_simulation], from the initial locals. *)
Definition simulate_days (self : OffNetSimulator) (compute_aws : bool)
  : result Frame :=
  let p := params self in
  let avg_request_size_gb := avg_request_size_kb p / of_int 1048576 in
  let hardware_life_cycle_days := (hardware_life_cycle_years p * 365)%Z in
  for_each (loop_body compute_aws avg_request_size_gb hardware_life_cycle_days)
           (range (time_horizon_days p)) (initial_frame self).

(** [run_simulation]. *)
Definition run_simulation (self : OffNetSimulator) (compute_aws : bool)
  : result SimulationResults :=
  fr <- simulate_days self compute_aws ;;
  finish compute_aws (time_horizon_days (params self)) fr.

End Numeric.

Arguments SimulationParameters num : clear implicits.
Arguments Row num : clear implicits.
Arguments Timeline num : clear implicits.
Arguments Recommendation num : clear implicits.
Arguments SimulationResults num : clear implicits.
Arguments OffNetSimulator num : clear implicits.
Arguments Frame num : clear implicits.

(** ** The same loop with the bandwidth figure computed once

    The specification evaluates the bandwidth-requirement sub-procedure once
    per run and reuses its pair for every day.  The next three definitions
    follow those words; they are compared with [run_simulation] below. *)

Section Hoisted.

Context {num : Type} `{Arith num}.
Local Open Scope num_scope.

(** The daily costs, from a bandwidth pair computed beforehand. *)
Definition day_costs_hoisted (compute_aws : bool) (aws : num * num)
    (fr : Frame num) (daily_data_volume : num) : num * num :=
  let p := params (self_ fr) in
  let off_net_total_cost :=
    daily_data_volume * off_net_bandwidth_cost_per_gb p
    + hardware_cost_off_net_per_month p / of_int 30 in
  if compute_aws then
    (hardware_cost_on_net_per_month p / of_int 30 + snd aws, off_net_total_cost)
  else
    (daily_data_volume * on_net_bandwidth_cost_per_gb p
     + hardware_cost_on_net_per_month p / of_int 30, off_net_total_cost).

Definition loop_body_hoisted (compute_aws : bool) (aws : num * num)
    (avg_request_size_gb : num) (hardware_life_cycle_days : Z)
    (fr : Frame num) (day : Z) : result (Frame num) :=
  let data := user_data (self_ fr) in
  day_index <- py_mod day (Z.of_nat (length data)) ;;
  daily_users <- loc data day_index num_users ;;
  daily_requests <- loc data day_index num_requests ;;
  let daily_data_volume := daily_requests * avg_request_size_gb in
  let '(on_net_total_cost, off_net_total_cost) :=
    day_costs_hoisted compute_aws aws fr daily_data_volume in
  '(on_costs, off_costs) <- lifecycle hardware_life_cycle_days fr day ;;
  Ok {| self_ := self_ fr;
        on_net_costs := on_costs ++ [on_net_total_cost];
        off_net_costs := off_costs ++ [off_net_total_cost];
        sent_requests := sent_requests fr ++ [daily_requests];
        sent_data_gb := sent_data_gb fr ++ [daily_data_volume];
        active_users := active_users fr ++ [daily_users];
        bandwidth_gbps := bandwidth_gbps fr |}.

(** The run with the sub-procedure evaluated before the loop (AWS mode). *)
Definition run_simulation_hoisted (self : OffNetSimulator num)
    (compute_aws : bool) : result (SimulationResults num) :=
  let p := params self in
  let avg_request_size_gb := avg_request_size_kb p / of_int 1048576 in
  let hardware_life_cycle_days := (hardware_life_cycle_years p * 365)%Z in
  let aws := compute_aws_bandwidth self in
  let fr0 :=
    {| self_ := self;
       on_net_costs := [upfront_hardware_cost_on_net p];
       off_net_costs := [upfront_hardware_cost_off_net p];
       sent_requests := [];
       sent_data_gb := [];
       active_users := [];
       bandwidth_gbps := if compute_aws then fst aws else of_int 0 |} in
  fr <- for_each
          (loop_body_hoisted compute_aws aws avg_request_size_gb
             hardware_life_cycle_days)
          (range (time_horizon_days p)) fr0 ;;
  finish compute_aws (time_horizon_days p) fr.

End Hoisted.

(** ** Closed forms of what one run computes *)

Section ClosedForms.

Context {num : Type} `{Arith num}.
Local Open Scope num_scope.

Variable self : OffNetSimulator num.
Variable compute_aws : bool.

Let p := params self.
Let data := user_data self.

(** The row read on day [d] (from 0): row [d mod len]. *)
Definition row_at (d : Z) : Row num :=
  nth (Z.to_nat (d mod Z.of_nat (length data))) data
      {| num_users := of_int 0; num_requests := of_int 0 |}.

Definition daily_requests_at (d : Z) : num := num_requests (row_at d).
Definition daily_users_at (d : Z) : num := num_users (row_at d).

Definition daily_data_volume_at (d : Z) : num :=
  daily_requests_at d * (avg_request_size_kb p / of_int 1048576).

(** [on_net_total_cost] and [off_net_total_cost] of day [d] (from 0). *)
Definition on_net_daily_cost (d : Z) : num :=
  if compute_aws then
    hardware_cost_on_net_per_month p / of_int 30
    + snd (compute_aws_bandwidth self)
  else
    daily_data_volume_at d * on_net_bandwidth_cost_per_gb p
    + hardware_cost_on_net_per_month p / of_int 30.

Definition off_net_daily_cost (d : Z) : num :=
  daily_data_volume_at d * off_net_bandwidth_cost_per_gb p
  + hardware_cost_off_net_per_month p / of_int 30.

(** Item [d] of the cost lists as first written: the seed, then the daily
    cost of the day before. *)
Definition on_net_item (d : Z) : num :=
  if (d =? 0)%Z then upfront_hardware_cost_on_net p
  else on_net_daily_cost (d - 1).

Definition off_net_item (d : Z) : num :=
  if (d =? 0)%Z then upfront_hardware_cost_off_net p
  else off_net_daily_cost (d - 1).

(** The lifecycle test of day [d] (from 0), for a lifecycle of [L] days. *)
Definition refresh (L d : Z) : bool := ((d + 1) mod L =? 0)%Z.

(** Item [d] once day [d] has passed: with the upfront cost added again when
    the lifecycle test of that day holds. *)
Definition on_net_charged (L d : Z) : num :=
  if refresh L d then on_net_item d + upfront_hardware_cost_on_net p
  else on_net_item d.

Definition off_net_charged (L d : Z) : num :=
  if refresh L d then off_net_item d + upfront_hardware_cost_off_net p
  else off_net_item d.

(** The locals after [k] iterations. *)
Definition frame_after (L : Z) (k : nat) : Frame num :=
  {| self_ := self;
     on_net_costs :=
       map (on_net_charged L) (range (Z.of_nat k)) ++ [on_net_item (Z.of_nat k)];
     off_net_costs :=
       map (off_net_charged L) (range (Z.of_nat k)) ++ [off_net_item (Z.of_nat k)];
     sent_requests := map daily_requests_at (range (Z.of_nat k));
     sent_data_gb := map daily_data_volume_at (range (Z.of_nat k));
     active_users := map daily_users_at (range (Z.of_nat k));
     bandwidth_gbps :=
       if compute_aws && negb (k =? 0)%nat then fst (compute_aws_bandwidth self)
       else of_int 0 |}.

(** The timeline of a run that returns. *)
Definition timeline_of : Timeline num :=
  let T := time_horizon_days p in
  let L := (hardware_life_cycle_years p * 365)%Z in
  {| Day := range_from 1 (T + 1);
     On_Net_Cost := cumsum (map (on_net_charged L) (range T));
     Off_Net_Cost := cumsum (map (off_net_charged L) (range T));
     Sent_Requests := map daily_requests_at (range T);
     Sent_Data_Volume_GB := map daily_data_volume_at (range T);
     Active_Users := map daily_users_at (range T) |}.

(** The results of a run that returns, given the last row's two totals. *)
Definition results_of (total_on_net total_off_net : num) : SimulationResults num :=
  let bw := fst (compute_aws_bandwidth self) in
  {| timeline := timeline_of;
     final_recommendation :=
       if compute_aws
       then Bandwidth_text bw (bw * transfer_link_cost_per_gbps p)
       else Text (if total_off_net <? total_on_net then off_net_text
                  else on_net_text);
     aws_transfer_link_cost :=
       if compute_aws then bw * transfer_link_cost_per_gbps p else of_int 0;
     required_bandwidth_gbps := if compute_aws then bw else of_int 0 |}.

End ClosedForms.

(** ** Relations between runs, and the formulas of the specification *)

(** [<] never holds between a number and itself. *)
Class LtIrrefl (num : Type) `{Arith num} : Prop :=
  ltb_irrefl : forall x : num, ltb x x = false.
Arguments LtIrrefl num {_}.

(** Two computations agree up to [R]: both return, with results related by
    [R], or both raise the same exception. *)
Definition agree {A B : Type} (R : A -> B -> Prop) (x : result A) (y : result B)
  : Prop :=
  match x, y with
  | Ok a, Ok b => R a b
  | Raise e1, Raise e2 => e1 = e2
  | _, _ => False
  end.

Section Relations.

Context {num : Type} `{Arith num}.
Local Open Scope num_scope.

(** What the locals of an AWS-mode run and of a Canvas-mode run share. *)
Definition same_but_on_net (fr fr' : Frame num) : Prop :=
  self_ fr = self_ fr'
  /\ length (on_net_costs fr) = length (on_net_costs fr')
  /\ off_net_costs fr = off_net_costs fr'
  /\ sent_requests fr = sent_requests fr'
  /\ sent_data_gb fr = sent_data_gb fr'
  /\ active_users fr = active_users fr'.

(** What their timelines share. *)
Definition same_shared_columns (t t' : Timeline num) : Prop :=
  Day t = Day t'
  /\ Off_Net_Cost t = Off_Net_Cost t'
  /\ Sent_Requests t = Sent_Requests t'
  /\ Sent_Data_Volume_GB t = Sent_Data_Volume_GB t'
  /\ Active_Users t = Active_Users t'.

(** A frame with another value of the local [required_bandwidth_gbps]. *)
Definition with_bandwidth (fr : Frame num) (bw : num) : Frame num :=
  {| self_ := self_ fr;
     on_net_costs := on_net_costs fr;
     off_net_costs := off_net_costs fr;
     sent_requests := sent_requests fr;
     sent_data_gb := sent_data_gb fr;
     active_users := active_users fr;
     bandwidth_gbps := bw |}.

(** The cumulative cost the specification gives to the row of Day [k]: the
    upfront hardware cost plus the daily costs of days 1 to [k]. *)
Definition spec_cumulative_cost (upfront : num) (daily_cost : Z -> num) (k : Z)
  : num :=
  fold_left add (map daily_cost (range k)) upfront.

(** The required bandwidth as the specification computes it: requests per
    second, times the request size in GB ([avg_request_size_kb / 1,048,576]),
    times [sla_percentage / 100]. *)
Definition spec_required_bandwidth (self : OffNetSimulator num) : num :=
  sum (map num_requests (user_data self)) / of_int 86400
  * (avg_request_size_kb (params self) / of_int 1048576)
  * (sla_percentage (params self) / of_int 100).

End Relations.

(** ** Sample inputs *)

Section Samples.

Local Open Scope float_scope.

(** Parameters with requests of 1 MB ([1024] KB), a target of 150 users and
    prices that binary64 holds exactly. *)
Definition sample_params (T years : Z)
    (hardware_on upfront_on upfront_off link_cost sla : float)
  : SimulationParameters float :=
  {| time_horizon_days := T;
     avg_request_size_kb := 1024;
     avg_num_users := 150;
     off_net_bandwidth_cost_per_gb := 0.0625;
     on_net_bandwidth_cost_per_gb := 0.125;
     hardware_cost_off_net_per_month := 0;
     hardware_cost_on_net_per_month := hardware_on;
     upfront_hardware_cost_off_net := upfront_off;
     upfront_hardware_cost_on_net := upfront_on;
     hardware_life_cycle_years := years;
     transfer_link_cost_per_gbps := link_cost;
     sla_percentage := sla |}.

(** Three days of traffic with a mean of 150 users: normalizing to 150 users
    leaves them as they are. *)
Definition sample_data : list (Row float) :=
  [ {| num_users := 100; num_requests := 1024 |};
    {| num_users := 200; num_requests := 2048 |};
    {| num_users := 150; num_requests := 1536 |} ].

Definition sample (T years : Z) (hardware_on upfront_on upfront_off : float)
  : OffNetSimulator float :=
  {| params := sample_params T years hardware_on upfront_on upfront_off 0 0;
     user_data := sample_data |}.

(** Two days without users: a dataset whose mean user count is zero. *)
Definition idle_sample : OffNetSimulator float :=
  {| params := sample_params 2 5 3000 10000 20000 0 0;
     user_data := [ {| num_users := 0; num_requests := 5 |};
                    {| num_users := 0; num_requests := 0 |} ] |}.

(** One day of 88,473,600 requests of 1 MB: 1024 requests, that is 1 GB, per
    second. *)
Definition aws_sample : OffNetSimulator float :=
  {| params := sample_params 2 5 3000 10000 20000 30720 100;
     user_data := [ {| num_users := 150; num_requests := 88473600 |} ] |}.

(** The Canvas run of the sample with no hardware cost at all. *)
Definition free_hardware_results : SimulationResults float :=
  {| timeline :=
       {| Day := [1; 2; 3]%Z;
          On_Net_Cost := [0; 0.125; 0.375];
          Off_Net_Cost := [0; 0.0625; 0.1875];
          Sent_Requests := [1024; 2048; 1536];
          Sent_Data_Volume_GB := [1; 2; 1.5];
          Active_Users := [100; 200; 150] |};
     final_recommendation := Text off_net_text;
     aws_transfer_link_cost := 0;
     required_bandwidth_gbps := 0 |}.

End Samples.

(** Two days of traffic in exact arithmetic, with a mean of 150 users, to be
    normalized to 300. *)
Definition exact_sample : OffNetSimulator Qc :=
  {| params :=
       {| time_horizon_days := 2;
          avg_request_size_kb := of_int 1024;
          avg_num_users := 300;
          off_net_bandwidth_cost_per_gb := of_int 1;
          on_net_bandwidth_cost_per_gb := of_int 2;
          hardware_cost_off_net_per_month := of_int 0;
          hardware_cost_on_net_per_month := of_int 3000;
          upfront_hardware_cost_off_net := of_int 20000;
          upfront_hardware_cost_on_net := of_int 10000;
          hardware_life_cycle_years := 5;
          transfer_link_cost_per_gbps := of_int 0;
          sla_percentage := of_int 0 |};
     user_data := [ {| num_users := of_int 100; num_requests := of_int 1000 |};
                    {| num_users := of_int 200; num_requests := of_int 3000 |} ] |}.

(** The same two days behind a transfer link at 30 per Gbps, with an SLA of
    50 percent. *)
Definition exact_aws_sample : OffNetSimulator Qc :=
  {| params :=
       {| time_horizon_days := 2;
          avg_request_size_kb := of_int 1024;
          avg_num_users := 300;
          off_net_bandwidth_cost_per_gb := of_int 1;
          on_net_bandwidth_cost_per_gb := of_int 2;
          hardware_cost_off_net_per_month := of_int 0;
          hardware_cost_on_net_per_month := of_int 3000;
          upfront_hardware_cost_off_net := of_int 20000;
          upfront_hardware_cost_on_net := of_int 10000;
          hardware_life_cycle_years := 5;
          transfer_link_cost_per_gbps := of_int 30;
          sla_percentage := of_int 50 |};
     user_data := user_data exact_sample |}.

(** ** The same simulator with another horizon *)

Section Horizons.

Context {num : Type} `{Arith num}.

(** The parameters with [time_horizon_days] replaced, every other field and
    the dataset kept. *)
Definition with_horizon (self : OffNetSimulator num) (T_days : Z)
  : OffNetSimulator num :=
  let p := params self in
  {| params :=
       {| time_horizon_days := T_days;
          avg_request_size_kb := avg_request_size_kb p;
          avg_num_users := avg_num_users p;
          off_net_bandwidth_cost_per_gb := off_net_bandwidth_cost_per_gb p;
          on_net_bandwidth_cost_per_gb := on_net_bandwidth_cost_per_gb p;
          hardware_cost_off_net_per_month := hardware_cost_off_net_per_month p;
          hardware_cost_on_net_per_month := hardware_cost_on_net_per_month p;
          upfront_hardware_cost_off_net := upfront_hardware_cost_off_net p;
          upfront_hardware_cost_on_net := upfront_hardware_cost_on_net p;
          hardware_life_cycle_years := hardware_life_cycle_years p;
          transfer_link_cost_per_gbps := transfer_link_cost_per_gbps p;
          sla_percentage := sla_percentage p |};
     user_data := user_data self |}.

(** The rows with both entries multiplied by [f], which is what
    [adjust_dataset] does to them with its factor. *)
Definition scale_rows (f : num) (data : list (Row num)) : list (Row num) :=
  map (fun r => {| num_users := (num_users r * f)%num;
                   num_requests := (num_requests r * f)%num |}) data.

End Horizons.

(** ** Quantities and conditions of the exact statements *)

(** The number of days [1 .. k] on which the lifecycle test holds. *)
Definition refresh_count (L k : Z) : Z :=
  Z.of_nat (length (filter (refresh L) (range k))).

(** A column in which no row is below the row before it. *)
Definition nondecreasing (column : list Qc) : Prop :=
  forall (i : nat) (a b : Qc),
    nth_error column i = Some a -> nth_error column (S i) = Some b ->
    (a <= b)%Qc.

(** No price, size, percentage or request count is negative. *)
Definition nonnegative_inputs (self : OffNetSimulator Qc) : Prop :=
  let p := params self in
  (0 <= avg_request_size_kb p
   /\ 0 <= off_net_bandwidth_cost_per_gb p
   /\ 0 <= on_net_bandwidth_cost_per_gb p
   /\ 0 <= hardware_cost_off_net_per_month p
   /\ 0 <= hardware_cost_on_net_per_month p
   /\ 0 <= upfront_hardware_cost_off_net p
   /\ 0 <= upfront_hardware_cost_on_net p
   /\ 0 <= transfer_link_cost_per_gbps p
   /\ 0 <= sla_percentage p)%Qc
  /\ Forall (fun r => (0 <= num_requests r)%Qc) (user_data self).

(** * The monthly simulator of [simulation.py]

    The second [OffNetSimulator] of the file: user growth by the month, one
    cost row per month, and a break-even month. *)

(** Its arithmetic beside that of [Arith]: [-], and [**] with a Python [int]
    as exponent.  [x ** n] can raise: CPython computes it with the C
    library's [pow] and raises [OverflowError] when the result is out of
    range, and it raises [ZeroDivisionError] for zero to a negative power.
    Binary64 has no instance here, the roundings of the C library's [pow]
    being its own; what is proved for every instance holds of it too. *)
Class ArithMonthly (num : Type) : Type := {
  sub : num -> num -> num;
  pow : num -> Z -> result num
}.

(** In exact arithmetic no power is out of range. *)
#[export] Instance Qc_arith_monthly : ArithMonthly Qc := {|
  sub := Qcminus;
  pow := fun x n =>
    if (n <? 0)%Z then
      if Qeq_bool x 0 then Raise ZeroDivisionError
      else Ok (Qcinv (Qcpower x (Z.to_nat (- n))))
    else Ok (Qcpower x (Z.to_nat n))
|}.

(** [str(n)] of an [int]. *)
Definition show_int (n : Z) : string := DecimalString.NilZero.string_of_int (Z.to_int n).

(** [s.iloc[0]]. *)
Definition iloc_first {A : Type} (l : list A) : result A :=
  match l with
  | [] => Raise IndexError
  | a :: _ => Ok a
  end.

Module Monthly.

Section Model.

Context {num : Type} `{Arith num} `{ArithMonthly num}.
Local Open Scope num_scope.

Record SimulationParameters : Type := {
  time_horizon_months : Z;
  base_user_count : Z;
  monthly_user_growth_rate : num;
  on_net_bandwidth_cost_per_gb : num;
  off_net_bandwidth_cost_per_gb : num;
  hardware_cost_off_net_per_month : num;
  hardware_cost_on_net_per_month : num;
  avg_usage_per_user_gb_per_month : num;
  performance_requirement_improvement : num
}.

(** The timeline data frame, by columns. *)
Record Timeline : Type := {
  Month : list Z;
  On_Net_Cost : list num;
  Off_Net_Cost : list num
}.

Record SimulationResults : Type := {
  timeline : Timeline;
  break_even_month : option Z;
  final_recommendation : string
}.

Record OffNetSimulator : Type := {
  params : SimulationParameters
}.

(** [pd.DataFrame({...})] of the three columns. *)
Definition DataFrame (month : list Z) (on_net off_net : list num)
  : result Timeline :=
  if (length on_net =? length month)%nat && (length off_net =? length month)%nat
  then Ok {| Month := month; On_Net_Cost := on_net; Off_Net_Cost := off_net |}
  else Raise ValueError.

(** [user_count * ((1 + growth_rate) ** month)]: the power is computed
    first; the product then converts its [int] operand [user_count]. *)
Definition current_users (self : OffNetSimulator) (month : Z) : result num :=
  let p := params self in
  growth <- pow (of_int 1 + monthly_user_growth_rate p) month ;;
  user_count <- to_float (base_user_count p) ;;
  Ok (user_count * growth).

(** [on_net_total_cost] and [off_net_total_cost] of one iteration. *)
Definition month_costs (self : OffNetSimulator) (month : Z)
  : result (num * num) :=
  let p := params self in
  current_users <- current_users self month ;;
  let total_usage := current_users * avg_usage_per_user_gb_per_month p in
  let on_net_bandwidth_cost := total_usage * on_net_bandwidth_cost_per_gb p in
  let on_net_total_cost :=
    on_net_bandwidth_cost + hardware_cost_on_net_per_month p in
  let off_net_bandwidth_cost := total_usage * off_net_bandwidth_cost_per_gb p in
  let off_net_total_cost :=
    off_net_bandwidth_cost + hardware_cost_off_net_per_month p in
  Ok (on_net_total_cost, off_net_total_cost).

(** One iteration of [for month in range(T):], on the two lists. *)
Definition loop_body (self : OffNetSimulator) (lists : list num * list num)
    (month : Z) : result (list num * list num) :=
  '(on_net_total_cost, off_net_total_cost) <- month_costs self month ;;
  Ok (fst lists ++ [on_net_total_cost], snd lists ++ [off_net_total_cost]).

(** [a - b] on two columns of one frame. *)
Definition column_sub (a b : list num) : list num :=
  map (fun xy => sub (fst xy) (snd xy)) (combine a b).

(** [column[mask]]: the entries whose mask is [True]. *)
Definition select {A : Type} (mask : list bool) (column : list A) : list A :=
  map fst (filter snd (combine column mask)).

Definition never_text : string :=
  "Off-net solution never becomes cheaper within the given time horizon.".

Definition cheaper_text (break_even : Z) : string :=
  "Off-net solution becomes cheaper starting month " ++ show_int break_even.

(** [run_simulation]. *)
Definition run_simulation (self : OffNetSimulator) : result SimulationResults :=
  let T := time_horizon_months (params self) in
  '(on_net_costs, off_net_costs) <-
    for_each (loop_body self) (range T) ([], []) ;;
  df <- DataFrame (range_from 1 (T + 1)) on_net_costs off_net_costs ;;
  let diff := column_sub (On_Net_Cost df) (Off_Net_Cost df) in
  let below := map (fun d => d <? of_int 0) diff in
  if existsb (fun b => b) below then
    break_even <- iloc_first (select below (Month df)) ;;
    Ok {| timeline := df;
          break_even_month := Some break_even;
          final_recommendation := cheaper_text break_even |}
  else
    Ok {| timeline := df;
          break_even_month := None;
          final_recommendation := never_text |}.

(** The two costs of month [month] (from 0), when they are computed. *)
Definition costs_at (self : OffNetSimulator) (month : Z) : num * num :=
  match month_costs self month with
  | Ok costs => costs
  | Raise _ => (of_int 0, of_int 0)
  end.

(** Whether month [month] (from 0) has an on-net cost below its off-net
    cost, as the run tests it. *)
Definition below (self : OffNetSimulator) (month : Z) : bool :=
  match month_costs self month with
  | Ok (on_net_total_cost, off_net_total_cost) =>
      sub on_net_total_cost off_net_total_cost <? of_int 0
  | Raise _ => false
  end.

End Model.

Arguments SimulationParameters num : clear implicits.
Arguments Timeline num : clear implicits.
Arguments SimulationResults num : clear implicits.
Arguments OffNetSimulator num : clear implicits.

End Monthly.

(** * The earlier day simulator, [v1Offnets.py]

    The [OffNetSimulator] of [v1Offnets.py]: no upfront cost and no
    lifecycle, running sums over all the daily costs, and a timeline rounded
    to integers. *)

(** [n / d] rounded to the nearest integer, halves to the even one, for
    [d > 0]: what [round(0)] does. *)
Definition round_half_even (n d : Z) : Z :=
  let q := n / d in
  let r := n mod d in
  match 2 * r ?= d with
  | Lt => q
  | Gt => q + 1
  | Eq => if Z.even q then q else q + 1
  end.

(** One cell through [df.round(0).astype(int)]: the nearest integer, halves
    to even, or nothing for a cell that is NaN or infinite, on which pandas
    raises. *)
Class ArithRound (num : Type) : Type := {
  round_int : num -> option Z
}.

(** Binary64 to [int64].  A finite value beyond the [int64] range comes out
    of the cast as [-2 ** 63] (the x86-64 conversion; numpy does not check
    it). *)
Definition float_round_int (x : float) : option Z :=
  match Prim2SF x with
  | S754_zero _ => Some 0
  | S754_finite s m e =>
      let n := if 0 <=? e then Z.pos m * 2 ^ e
               else round_half_even (Z.pos m) (2 ^ (- e)) in
      let n := if s then - n else n in
      Some (if (- 2 ^ 63 <=? n) && (n <? 2 ^ 63) then n else - 2 ^ 63)
  | S754_infinity _ | S754_nan => None
  end.

#[export] Instance float_arith_round : ArithRound float := {|
  round_int := float_round_int
|}.

(** Exact arithmetic, with integers of any size. *)
#[export] Instance Qc_arith_round : ArithRound Qc := {|
  round_int := fun x : Qc =>
    Some (round_half_even (Qnum (this x)) (Z.pos (Qden (this x))))
|}.

(** A whole column through [round(0).astype(int)]: pandas raises its
    [IntCastingNaNError], a [ValueError], when a cell is not finite. *)
Definition round_column {num : Type} `{ArithRound num} (column : list num)
  : result (list Z) :=
  if forallb (fun x => match round_int x with Some _ => true | None => false end)
             column
  then Ok (map (fun x => match round_int x with Some n => n | None => 0%Z end)
               column)
  else Raise ValueError.

Module V1.

Section Model.

Context {num : Type} `{Arith num} `{ArithRound num}.
Local Open Scope num_scope.

Record SimulationParameters : Type := {
  time_horizon_days : Z;
  avg_request_size_kb : num;
  avg_num_users : Z;
  off_net_bandwidth_cost_per_gb : num;
  on_net_bandwidth_cost_per_gb : num;
  hardware_cost_off_net_per_month : num;
  hardware_cost_on_net_per_month : num;
  transfer_link_cost_per_gbps : num;
  sla_percentage : num
}.

(** The timeline data frame after [round(0).astype(int)], by columns. *)
Record Timeline : Type := {
  Day : list Z;
  On_Net_Cost : list Z;
  Off_Net_Cost : list Z;
  Sent_Requests : list Z;
  Sent_Data_Volume_GB : list Z;
  Active_Users : list Z
}.

(** The recommendation is kept as in the later simulator: a fixed sentence,
    or the two numbers its f-string prints with [.2f]. *)
Record SimulationResults : Type := {
  timeline : Timeline;
  final_recommendation : Recommendation num;
  aws_transfer_link_cost : num;
  required_bandwidth_gbps : num
}.

Record OffNetSimulator : Type := {
  params : SimulationParameters;
  user_data : list (Row num)
}.

(** [adjust_dataset]. *)
Definition adjust_dataset (self : OffNetSimulator) : result OffNetSimulator :=
  let current_avg_users := mean (map num_users (user_data self)) in
  target <- to_float (avg_num_users (params self)) ;;
  let adjustment_factor := target / current_avg_users in
  Ok {| params := params self;
        user_data :=
          map (fun r => {| num_users := num_users r * adjustment_factor;
                           num_requests := num_requests r * adjustment_factor |})
              (user_data self) |}.

(** [__init__]. *)
Definition init (p : SimulationParameters) (data : list (Row num))
  : result OffNetSimulator :=
  adjust_dataset {| params := p; user_data := data |}.

(** [compute_aws_bandwidth]; its local [total_data_volume_gb] is computed
    and not used. *)
Definition compute_aws_bandwidth (self : OffNetSimulator) : num * num :=
  let total_requests := sum (map num_requests (user_data self)) in
  let total_data_volume_gb :=
    total_requests * (avg_request_size_kb (params self) / of_int 1048576) in
  let requests_per_second := total_requests / of_int (24 * 60 * 60) in
  let data_volume_per_second_gbps :=
    requests_per_second *
    (avg_request_size_kb (params self) / of_int 1048576 / of_int 1024) in
  let required_bandwidth_gbps :=
    data_volume_per_second_gbps *
    (sla_percentage (params self) / of_int 100) in
  let transfer_link_cost_daily :=
    (required_bandwidth_gbps * transfer_link_cost_per_gbps (params self))
    / of_int 30 in
  (required_bandwidth_gbps, transfer_link_cost_daily).

(** The five lists the loop appends to. *)
Record Frame : Type := {
  on_net_costs : list num;
  off_net_costs : list num;
  sent_requests : list num;
  sent_data_gb : list num;
  active_users : list num
}.

(** The five empty lists before the loop. *)
Definition initial_frame : Frame :=
  {| on_net_costs := []; off_net_costs := []; sent_requests := [];
     sent_data_gb := []; active_users := [] |}.

(** [on_net_total_cost] and [off_net_total_cost] of one iteration. *)
Definition day_costs (compute_aws : bool) (self : OffNetSimulator)
    (daily_data_volume : num) : num * num :=
  let p := params self in
  if compute_aws then
    let '(required_bandwidth_gbps, daily_transfer_link_cost) :=
      compute_aws_bandwidth self in
    let on_net_total_cost :=
      hardware_cost_on_net_per_month p / of_int 30 + daily_transfer_link_cost in
    let off_net_bandwidth_cost :=
      daily_data_volume * off_net_bandwidth_cost_per_gb p in
    let off_net_total_cost :=
      off_net_bandwidth_cost + hardware_cost_off_net_per_month p / of_int 30 in
    (on_net_total_cost, off_net_total_cost)
  else
    let on_net_bandwidth_cost :=
      daily_data_volume * on_net_bandwidth_cost_per_gb p in
    let on_net_total_cost :=
      on_net_bandwidth_cost + hardware_cost_on_net_per_month p / of_int 30 in
    let off_net_bandwidth_cost :=
      daily_data_volume * off_net_bandwidth_cost_per_gb p in
    let off_net_total_cost :=
      off_net_bandwidth_cost + hardware_cost_off_net_per_month p / of_int 30 in
    (on_net_total_cost, off_net_total_cost).

(** One iteration of [for day in range(T_days):]. *)
Definition loop_body (compute_aws : bool) (self : OffNetSimulator)
    (avg_request_size_gb : num) (fr : Frame) (day : Z) : result Frame :=
  let data := user_data self in
  day_index <- py_mod day (Z.of_nat (length data)) ;;
  daily_users <- loc data day_index num_users ;;
  daily_requests <- loc data day_index num_requests ;;
  let daily_data_volume := daily_requests * avg_request_size_gb in
  let '(on_net_total_cost, off_net_total_cost) :=
    day_costs compute_aws self daily_data_volume in
  Ok {| on_net_costs := on_net_costs fr ++ [on_net_total_cost];
        off_net_costs := off_net_costs fr ++ [off_net_total_cost];
        sent_requests := sent_requests fr ++ [daily_requests];
        sent_data_gb := sent_data_gb fr ++ [daily_data_volume];
        active_users := active_users fr ++ [daily_users] |}.

(** [pd.DataFrame({...})], whose columns must have one length, and then
    [df.round(0).astype(int)] on it, column after column. *)
Definition rounded_frame (day : list Z)
    (on_net off_net requests data users : list num) : result Timeline :=
  let n := length day in
  if (length on_net =? n)%nat && (length off_net =? n)%nat
     && (length requests =? n)%nat && (length data =? n)%nat
     && (length users =? n)%nat
  then
    on_net' <- round_column on_net ;;
    off_net' <- round_column off_net ;;
    requests' <- round_column requests ;;
    data' <- round_column data ;;
    users' <- round_column users ;;
    Ok {| Day := day; On_Net_Cost := on_net'; Off_Net_Cost := off_net';
          Sent_Requests := requests'; Sent_Data_Volume_GB := data';
          Active_Users := users' |}
  else Raise ValueError.

Definition off_net_text : string :=
  "Off-net solution is more cost-effective over the time horizon.".
Definition on_net_text : string :=
  "On-net solution remains more cost-effective over the time horizon.".

(** [run_simulation]. *)
Definition run_simulation (self : OffNetSimulator) (compute_aws : bool)
  : result SimulationResults :=
  let p := params self in
  let T_days := time_horizon_days p in
  let avg_request_size_gb := avg_request_size_kb p / of_int 1048576 in
  fr <- for_each (loop_body compute_aws self avg_request_size_gb)
          (range T_days) initial_frame ;;
  df <- rounded_frame (range_from 1 (T_days + 1))
          (cumsum (on_net_costs fr)) (cumsum (off_net_costs fr))
          (sent_requests fr) (sent_data_gb fr) (active_users fr) ;;
  total_on_net <- iloc_last (On_Net_Cost df) ;;
  total_off_net <- iloc_last (Off_Net_Cost df) ;;
  if compute_aws then
    let '(required_bandwidth_gbps, transfer_link_cost) :=
      compute_aws_bandwidth self in
    Ok {| timeline := df;
          final_recommendation :=
            Bandwidth_text required_bandwidth_gbps
                           (transfer_link_cost * of_int 30);
          aws_transfer_link_cost := transfer_link_cost * of_int 30;
          required_bandwidth_gbps := required_bandwidth_gbps |}
  else
    Ok {| timeline := df;
          final_recommendation :=
            Text (if (total_off_net <? total_on_net)%Z then off_net_text
                  else on_net_text);
          aws_transfer_link_cost := of_int 0;
          required_bandwidth_gbps := of_int 0 |}.

(** The row read on day [d] (from 0), its data volume and the two daily
    costs of that day. *)
Definition row_at (self : OffNetSimulator) (d : Z) : Row num :=
  nth (Z.to_nat (d mod Z.of_nat (length (user_data self)))) (user_data self)
      {| num_users := of_int 0; num_requests := of_int 0 |}.

Definition daily_data_volume_at (self : OffNetSimulator) (d : Z) : num :=
  num_requests (row_at self d)
  * (avg_request_size_kb (params self) / of_int 1048576).

Definition on_net_daily_cost (compute_aws : bool) (self : OffNetSimulator)
    (d : Z) : num :=
  fst (day_costs compute_aws self (daily_data_volume_at self d)).

Definition off_net_daily_cost (compute_aws : bool) (self : OffNetSimulator)
    (d : Z) : num :=
  snd (day_costs compute_aws self (daily_data_volume_at self d)).

(** The lists after [k] iterations. *)
Definition frame_after (compute_aws : bool) (self : OffNetSimulator) (k : Z)
  : Frame :=
  {| on_net_costs := map (on_net_daily_cost compute_aws self) (range k);
     off_net_costs := map (off_net_daily_cost compute_aws self) (range k);
     sent_requests := map (fun d => num_requests (row_at self d)) (range k);
     sent_data_gb := map (daily_data_volume_at self) (range k);
     active_users := map (fun d => num_users (row_at self d)) (range k) |}.

End Model.

Arguments SimulationParameters num : clear implicits.
Arguments Timeline : clear implicits.
Arguments SimulationResults num : clear implicits.
Arguments OffNetSimulator num : clear implicits.
Arguments Frame num : clear implicits.

End V1.

(** The simulator of [simulation.py] over the parameters and dataset of one
    of [v1Offnets.py], the fields that are new in [models.py] at their
    defaults: no upfront cost and a lifecycle of five years. *)
Definition upgrade {num : Type} `{Arith num} (old : V1.OffNetSimulator num)
  : OffNetSimulator num :=
  let p := V1.params old in
  {| params :=
       {| time_horizon_days := V1.time_horizon_days p;
          avg_request_size_kb := V1.avg_request_size_kb p;
          avg_num_users := V1.avg_num_users p;
          off_net_bandwidth_cost_per_gb := V1.off_net_bandwidth_cost_per_gb p;
          on_net_bandwidth_cost_per_gb := V1.on_net_bandwidth_cost_per_gb p;
          hardware_cost_off_net_per_month :=
            V1.hardware_cost_off_net_per_month p;
          hardware_cost_on_net_per_month := V1.hardware_cost_on_net_per_month p;
          upfront_hardware_cost_off_net := of_int 0;
          upfront_hardware_cost_on_net := of_int 0;
          hardware_life_cycle_years := 5;
          transfer_link_cost_per_gbps := V1.transfer_link_cost_per_gbps p;
          sla_percentage := V1.sla_percentage p |};
     user_data := V1.user_data old |}.

(** ** Sample inputs of the other two simulators *)

Section More_samples.

Local Open Scope float_scope.

(** The three sample days for the earlier day simulator, with an on-net
    hardware cost of 3000 a month. *)
Definition v1_sample : V1.OffNetSimulator float :=
  {| V1.params :=
       {| V1.time_horizon_days := 3;
          V1.avg_request_size_kb := 1024;
          V1.avg_num_users := 150;
          V1.off_net_bandwidth_cost_per_gb := 0.0625;
          V1.on_net_bandwidth_cost_per_gb := 0.125;
          V1.hardware_cost_off_net_per_month := 0;
          V1.hardware_cost_on_net_per_month := 3000;
          V1.transfer_link_cost_per_gbps := 30720;
          V1.sla_percentage := 100 |};
     V1.user_data := sample_data |}.

(** The earlier day simulator over what normalization makes of two days
    without users. *)
Definition v1_idle_sample : V1.OffNetSimulator float :=
  {| V1.params := V1.params v1_sample;
     V1.user_data := [ {| num_users := nan; num_requests := infinity |};
                       {| num_users := nan; num_requests := nan |} ] |}.

End More_samples.

(** Three days over two rows, in exact arithmetic, for the earlier day
    simulator. *)
Definition v1_exact_sample : V1.OffNetSimulator Qc :=
  {| V1.params :=
       {| V1.time_horizon_days := 3;
          V1.avg_request_size_kb := of_int 1024;
          V1.avg_num_users := 150;
          V1.off_net_bandwidth_cost_per_gb := of_int 1;
          V1.on_net_bandwidth_cost_per_gb := of_int 2;
          V1.hardware_cost_off_net_per_month := of_int 0;
          V1.hardware_cost_on_net_per_month := of_int 3000;
          V1.transfer_link_cost_per_gbps := of_int 0;
          V1.sla_percentage := of_int 0 |};
     V1.user_data :=
       [ {| num_users := of_int 100; num_requests := of_int 1024 |};
         {| num_users := of_int 200; num_requests := of_int 3072 |} ] |}.

(** A year of months: 100 users growing by a tenth a month, on-net at 1 per
    GB and 300 a month, off-net at 2 per GB and 100 a month. *)
Definition monthly_sample : Monthly.OffNetSimulator Qc :=
  {| Monthly.params :=
       {| Monthly.time_horizon_months := 12;
          Monthly.base_user_count := 100;
          Monthly.monthly_user_growth_rate := Q2Qc (1 # 10);
          Monthly.on_net_bandwidth_cost_per_gb := of_int 1;
          Monthly.off_net_bandwidth_cost_per_gb := of_int 2;
          Monthly.hardware_cost_off_net_per_month := of_int 100;
          Monthly.hardware_cost_on_net_per_month := of_int 300;
          Monthly.avg_usage_per_user_gb_per_month := of_int 1;
          Monthly.performance_requirement_improvement := Q2Qc (1 # 2) |} |}.

(** ** Lemmas on the primitives *)

Section Primitives.

Context {num : Type} `{Arith num}.
Local Open Scope num_scope.

Lemma py_mod_nonzero (a b : Z) : b <> 0%Z -> py_mod a b = Ok (a mod b)%Z.
Proof.
  intros Hb. unfold py_mod.
  destruct (Z.eqb_spec b 0) as [E | _]; [contradiction | reflexivity].
Qed.

Lemma py_mod_zero (a : Z) : py_mod a 0 = Raise ZeroDivisionError.
Proof. reflexivity. Qed.

Lemma range_nonpositive (n : Z) : (n <= 0)%Z -> range n = [].
Proof.
  intros Hn. unfold range.
  replace (Z.to_nat n) with 0%nat by lia. reflexivity.
Qed.

Lemma range_S (k : nat) :
  range (Z.of_nat (S k)) = range (Z.of_nat k) ++ [Z.of_nat k].
Proof.
  unfold range. rewrite !Nat2Z.id, seq_S, map_app. reflexivity.
Qed.

Lemma length_range (n : Z) : length (range n) = Z.to_nat n.
Proof. unfold range. now rewrite length_map, length_seq. Qed.

Lemma length_range_from (a b : Z) : length (range_from a b) = Z.to_nat (b - a).
Proof. unfold range_from. now rewrite length_map, length_seq. Qed.

Lemma nth_error_range (n : Z) (i : nat) :
  (i < Z.to_nat n)%nat -> nth_error (range n) i = Some (Z.of_nat i).
Proof.
  intros Hi. unfold range.
  rewrite nth_error_map, nth_error_seq.
  destruct (Nat.ltb_spec i (Z.to_nat n)); [reflexivity | lia].
Qed.

Lemma nth_error_range_from (a b : Z) (i : nat) :
  (i < Z.to_nat (b - a))%nat ->
  nth_error (range_from a b) i = Some (a + Z.of_nat i)%Z.
Proof.
  intros Hi. unfold range_from.
  rewrite nth_error_map, nth_error_seq.
  destruct (Nat.ltb_spec i (Z.to_nat (b - a))); [reflexivity | lia].
Qed.

Lemma add_to_last_snoc (x a : num) (l : list num) :
  add_to_last x (l ++ [a]) = Ok (l ++ [a + x]).
Proof.
  induction l as [| b l IH]; [reflexivity |].
  cbn [app add_to_last]. rewrite IH.
  destruct (l ++ [a]) eqn:E; [now destruct l | reflexivity].
Qed.

Lemma add_to_last_length (x : num) (l l' : list num) :
  add_to_last x l = Ok l' -> length l' = length l.
Proof.
  destruct l as [| a l]; [discriminate |].
  destruct (@exists_last _ (a :: l)) as (l0 & b & ->); [discriminate |].
  rewrite add_to_last_snoc. intros [= <-]. now rewrite !length_app.
Qed.

Lemma add_to_last_raises (x : num) (l : list num) (e : exn) :
  add_to_last x l = Raise e -> l = [] /\ e = IndexError.
Proof.
  destruct l as [| a l]; [intros [= <-]; now split |].
  destruct (@exists_last _ (a :: l)) as (l0 & b & ->); [discriminate |].
  rewrite add_to_last_snoc. discriminate.
Qed.

Lemma iloc_last_snoc {A : Type} (a : A) (l : list A) :
  iloc_last (l ++ [a]) = Ok a.
Proof.
  induction l as [| b l IH]; [reflexivity |].
  cbn [app iloc_last]. rewrite IH.
  destruct (l ++ [a]) eqn:E; [now destruct l | reflexivity].
Qed.

Lemma iloc_last_nonempty {A : Type} (l : list A) :
  l <> [] -> exists a, iloc_last l = Ok a.
Proof.
  intros Hl. destruct (exists_last Hl) as (l' & a & ->).
  exists a. apply iloc_last_snoc.
Qed.

Lemma iloc_last_raises {A : Type} (l : list A) (e : exn) :
  iloc_last l = Raise e -> l = [] /\ e = IndexError.
Proof.
  intros E. destruct l as [| a l].
  - injection E as <-. now split.
  - destruct (@iloc_last_nonempty A (a :: l)) as [b Hb]; [discriminate |].
    congruence.
Qed.

(** The pairwise sum does not depend on its fuel, once that is the number of
    entries or more. *)
Lemma pairwise_sum_fuel (fuel fuel' : nat) (a : list num) :
  (length a <= fuel)%nat -> (length a <= fuel')%nat ->
  pairwise_sum fuel a = pairwise_sum fuel' a.
Proof.
  revert fuel' a. induction fuel as [| fuel IH]; intros fuel' a Ha Ha'.
  - destruct a; [| cbn [length] in Ha; lia]. now destruct fuel'.
  - destruct fuel' as [| fuel'].
    + destruct a; [reflexivity | cbn [length] in Ha'; lia].
    + cbn [pairwise_sum].
      destruct (length a <? 8)%nat; [reflexivity |].
      destruct (length a <=? 128)%nat eqn:H128; [reflexivity |].
      apply Nat.leb_gt in H128.
      set (n2 := (length a / 2 - (length a / 2) mod 8)%nat).
      assert (Hn2 : (1 <= n2 < length a)%nat).
      { subst n2.
        pose proof (Nat.mod_upper_bound (length a / 2) 8 ltac:(discriminate)).
        pose proof (Nat.div_mod_eq (length a) 2).
        pose proof (Nat.mod_upper_bound (length a) 2 ltac:(discriminate)).
        lia. }
      f_equal; apply IH; rewrite ?length_firstn, ?length_skipn; lia.
Qed.

Lemma length_cumsum_from (acc : num) (l : list num) :
  length (cumsum_from acc l) = length l.
Proof.
  revert acc. induction l as [| a l IH]; intros acc; cbn; [| rewrite IH]; reflexivity.
Qed.

Lemma length_cumsum (l : list num) : length (cumsum l) = length l.
Proof. destruct l; cbn; [| rewrite length_cumsum_from]; reflexivity. Qed.

Lemma slice_to_snoc {A : Type} (l : list A) (a : A) :
  slice_to (Z.of_nat (length l)) (l ++ [a]) = l.
Proof.
  unfold slice_to. destruct (Z.leb_spec 0 (Z.of_nat (length l))); [| lia].
  rewrite Nat2Z.id, firstn_app, Nat.sub_diag, firstn_all. cbn.
  apply app_nil_r.
Qed.

Lemma length_slice_to {A : Type} (n : Z) (l l' : list A) :
  length l = length l' -> length (slice_to n l) = length (slice_to n l').
Proof.
  intros E. unfold slice_to.
  destruct (0 <=? n)%Z; rewrite !length_firstn, E; reflexivity.
Qed.

Lemma slice_to_nonpositive {A : Type} (n : Z) (a : A) :
  (n <= 0)%Z -> slice_to n [a] = [].
Proof.
  intros Hn. unfold slice_to. destruct (Z.leb_spec 0 n).
  - replace n with 0%Z by lia. reflexivity.
  - cbn [length]. replace (Z.to_nat (Z.of_nat 1 + n)) with 0%nat by lia.
    reflexivity.
Qed.

Lemma for_each_app {S A : Type} (body : S -> A -> result S) (l1 l2 : list A)
    (s : S) :
  for_each body (l1 ++ l2) s = (s' <- for_each body l1 s ;; for_each body l2 s').
Proof.
  revert s. induction l1 as [| a l1 IH]; intros s; [reflexivity |].
  cbn [app for_each]. destruct (body s a) as [s' | e]; cbn [bind]; auto.
Qed.

Lemma loc_in_range {A B : Type} (l : list A) (i : Z) (column : A -> B) (d : A) :
  (0 <= i < Z.of_nat (length l))%Z ->
  loc l i column = Ok (column (nth (Z.to_nat i) l d)).
Proof.
  intros Hi. unfold loc. destruct (Z.ltb_spec i 0); [lia |].
  rewrite (nth_error_nth' l d) by lia. reflexivity.
Qed.

End Primitives.

(** ** The loop, iteration by iteration *)

Section Loop.

Context {num : Type} `{Arith num}.
Local Open Scope num_scope.

Variable self : OffNetSimulator num.
Variable compute_aws : bool.
Variable L : Z.

Hypothesis data_nonempty : user_data self <> [].
Hypothesis L_nonzero : L <> 0%Z.

Let gb : num := avg_request_size_kb (params self) / of_int 1048576.

Lemma day_index_in_range (d : Z) :
  (0 <= d mod Z.of_nat (length (user_data self))
   < Z.of_nat (length (user_data self)))%Z.
Proof.
  apply Z.mod_pos_bound.
  destruct (user_data self); [contradiction | cbn [length]; lia].
Qed.

Lemma item_S (k : nat) :
  on_net_item self compute_aws (Z.of_nat (S k))
  = on_net_daily_cost self compute_aws (Z.of_nat k)
  /\ off_net_item self (Z.of_nat (S k)) = off_net_daily_cost self (Z.of_nat k).
Proof.
  unfold on_net_item, off_net_item.
  destruct (Z.eqb_spec (Z.of_nat (S k)) 0); [lia |].
  replace (Z.of_nat (S k) - 1)%Z with (Z.of_nat k) by lia. now split.
Qed.

(** One iteration takes the locals after [k] days to those after [k + 1]. *)
Lemma loop_body_frame_after (k : nat) :
  loop_body compute_aws gb L (frame_after self compute_aws L k) (Z.of_nat k)
  = Ok (frame_after self compute_aws L (S k)).
Proof.
  unfold loop_body. cbn [self_ frame_after].
  rewrite py_mod_nonzero
    by (destruct (user_data self); [contradiction | cbn [length]; lia]).
  cbn [bind].
  rewrite !(loc_in_range _ _ {| num_users := of_int 0; num_requests := of_int 0 |})
    by apply day_index_in_range.
  cbn [bind].
  assert (Hlife :
    lifecycle L (frame_after self compute_aws L k) (Z.of_nat k)
    = Ok (map (on_net_charged self compute_aws L) (range (Z.of_nat k))
            ++ [on_net_charged self compute_aws L (Z.of_nat k)],
          map (off_net_charged self L) (range (Z.of_nat k))
            ++ [off_net_charged self L (Z.of_nat k)])).
  { unfold lifecycle. rewrite py_mod_nonzero by assumption. cbn [bind].
    unfold on_net_charged at 2, off_net_charged at 2, refresh.
    cbn [self_ on_net_costs off_net_costs frame_after].
    destruct ((Z.of_nat k + 1) mod L =? 0)%Z; [| reflexivity].
    rewrite !add_to_last_snoc. reflexivity. }
  destruct (item_S k) as [Eon Eoff].
  assert (Ecosts :
    day_costs compute_aws (frame_after self compute_aws L k)
      (num_requests (row_at self (Z.of_nat k)) * gb)
    = (bandwidth_gbps (frame_after self compute_aws L (S k)),
       on_net_daily_cost self compute_aws (Z.of_nat k),
       off_net_daily_cost self (Z.of_nat k))).
  { unfold day_costs, on_net_daily_cost, off_net_daily_cost,
      daily_data_volume_at, daily_requests_at.
    cbn [self_ bandwidth_gbps frame_after].
    destruct compute_aws; cbn [andb negb Nat.eqb].
    - destruct (compute_aws_bandwidth self) as [bw cost]. reflexivity.
    - reflexivity. }
  fold (row_at self (Z.of_nat k)).
  rewrite Ecosts, Hlife. cbn [bind].
  f_equal. unfold frame_after.
  cbn [sent_requests sent_data_gb active_users bandwidth_gbps].
  rewrite range_S, !map_app, Eon, Eoff. cbn [map].
  reflexivity.
Qed.

(** The locals after the first [k] iterations. *)
Lemma for_each_range (k : nat) :
  for_each (loop_body compute_aws gb L) (range (Z.of_nat k)) (initial_frame self)
  = Ok (frame_after self compute_aws L k).
Proof.
  induction k as [| k IH].
  - cbn. unfold frame_after, initial_frame. cbn.
    now rewrite andb_false_r.
  - rewrite range_S, for_each_app, IH. cbn [bind for_each].
    rewrite loop_body_frame_after. reflexivity.
Qed.

End Loop.

(** ** The whole run *)

Section Run.

Context {num : Type} `{Arith num}.
Local Open Scope num_scope.

Lemma DataFrame_same_length (day : list Z) (c1 c2 c3 c4 c5 : list num) :
  length c1 = length day -> length c2 = length day ->
  length c3 = length day -> length c4 = length day ->
  length c5 = length day ->
  DataFrame day c1 c2 c3 c4 c5
  = Ok {| Day := day; On_Net_Cost := c1; Off_Net_Cost := c2;
          Sent_Requests := c3; Sent_Data_Volume_GB := c4;
          Active_Users := c5 |}.
Proof.
  intros E1 E2 E3 E4 E5. unfold DataFrame.
  rewrite E1, E2, E3, E4, E5, Nat.eqb_refl. reflexivity.
Qed.

Variable self : OffNetSimulator num.
Variable compute_aws : bool.

Let p := params self.
Let T := time_horizon_days p.
Let L := (hardware_life_cycle_years p * 365)%Z.

Hypothesis data_nonempty : user_data self <> [].
Hypothesis years_nonzero : hardware_life_cycle_years p <> 0%Z.
Hypothesis horizon_positive : (1 <= T)%Z.

Lemma simulate_days_returns :
  simulate_days self compute_aws
  = Ok (frame_after self compute_aws L (Z.to_nat T)).
Proof.
  unfold simulate_days. fold p. fold T. fold L.
  assert (HL : L <> 0%Z) by (subst L; lia).
  rewrite <- (for_each_range self compute_aws data_nonempty HL).
  rewrite Z2Nat.id by lia. reflexivity.
Qed.

Lemma cumsum_nonempty (l : list num) : l <> [] -> cumsum l <> [].
Proof. destruct l; [contradiction | discriminate]. Qed.

Lemma range_T_nonempty (f : Z -> num) : map f (range T) <> [].
Proof.
  intros E. apply (f_equal (@length _)) in E.
  rewrite length_map, length_range in E. cbn in E. lia.
Qed.

(** A run over a non-empty dataset, with a horizon of at least one day and a
    lifecycle that is not zero, returns, and returns this. *)
Lemma run_simulation_returns :
  exists total_on_net total_off_net,
    iloc_last (On_Net_Cost (timeline_of self compute_aws)) = Ok total_on_net
    /\ iloc_last (Off_Net_Cost (timeline_of self compute_aws))
       = Ok total_off_net
    /\ run_simulation self compute_aws
       = Ok (results_of self compute_aws total_on_net total_off_net).
Proof.
  destruct (@iloc_last_nonempty _ (On_Net_Cost (timeline_of self compute_aws)))
    as [on Hon].
  { apply cumsum_nonempty, range_T_nonempty. }
  destruct (@iloc_last_nonempty _ (Off_Net_Cost (timeline_of self compute_aws)))
    as [off Hoff].
  { apply cumsum_nonempty, range_T_nonempty. }
  exists on, off. split; [exact Hon | split; [exact Hoff |]].
  unfold run_simulation. rewrite simulate_days_returns. cbn [bind].
  unfold finish. fold p. fold T.
  cbn [self_ on_net_costs off_net_costs sent_requests sent_data_gb
       active_users bandwidth_gbps frame_after].
  rewrite Z2Nat.id by lia.
  assert (Hslice : forall (f : Z -> num) (a : num),
             slice_to T (map f (range T) ++ [a]) = map f (range T)).
  { intros f a.
    replace T with (Z.of_nat (length (map f (range T)))) at 1
      by (rewrite length_map, length_range; lia).
    apply slice_to_snoc. }
  rewrite !Hslice.
  rewrite DataFrame_same_length;
    rewrite ?length_cumsum, ?length_map, ?length_range, ?length_range_from;
    try (f_equal; lia).
  cbn [bind On_Net_Cost Off_Net_Cost].
  change (cumsum (map (on_net_charged self compute_aws L) (range T)))
    with (On_Net_Cost (timeline_of self compute_aws)).
  change (cumsum (map (off_net_charged self L) (range T)))
    with (Off_Net_Cost (timeline_of self compute_aws)).
  rewrite Hon, Hoff. cbn [bind].
  unfold results_of. fold p.
  replace (negb (Z.to_nat T =? 0)%nat) with true
    by (destruct (Nat.eqb_spec (Z.to_nat T) 0); [lia | reflexivity]).
  rewrite andb_true_r.
  destruct compute_aws; reflexivity.
Qed.

End Run.

(** ** Lifecycle refresh and cyclic replay *)

Section Timeline_facts.

Context {num : Type} `{Arith num}.
Local Open Scope num_scope.

Lemma in_range (n d : Z) : In d (range n) -> (0 <= d < n)%Z.
Proof.
  unfold range. rewrite in_map_iff. intros (i & <- & Hi).
  apply in_seq in Hi. lia.
Qed.

Lemma in_range_from (a b d : Z) : In d (range_from a b) -> (a <= d < b)%Z.
Proof.
  unfold range_from. rewrite in_map_iff. intros (i & <- & Hi).
  apply in_seq in Hi. lia.
Qed.

Lemma filter_none {A : Type} (f : A -> bool) (l : list A) :
  (forall x, In x l -> f x = false) -> filter f l = [].
Proof.
  induction l as [| a l IH]; intros Hf; [reflexivity |].
  cbn [filter]. rewrite (Hf a) by now left.
  apply IH. intros x Hx. apply Hf. now right.
Qed.

Lemma cumsum_map_ext {A : Type} (f g : A -> num) (l : list A) :
  (forall d, In d l -> f d = g d) -> cumsum (map f l) = cumsum (map g l).
Proof. intros E. now rewrite (map_ext_in f g l E). Qed.

Lemma refresh_one_year (d : Z) :
  (0 <= d < 400)%Z -> refresh 365 d = (d =? 364)%Z.
Proof.
  intros Hd. unfold refresh.
  destruct (Z.eqb_spec d 364) as [-> | Hne]; [reflexivity |].
  apply Z.eqb_neq. intros E.
  destruct (Z_lt_le_dec (d + 1) 365).
  - rewrite Z.mod_small in E by lia. lia.
  - replace (d + 1)%Z with ((d + 1 - 365) + 1 * 365)%Z in E by lia.
    rewrite Z.mod_add, Z.mod_small in E by lia. lia.
Qed.

Lemma refresh_beyond_horizon (L n d : Z) :
  (n < L)%Z -> (0 <= d < n)%Z -> refresh L d = false.
Proof.
  intros HL Hd. unfold refresh. apply Z.eqb_neq.
  rewrite Z.mod_small by lia. lia.
Qed.

End Timeline_facts.

(** C4.  Over a non-empty dataset, with a horizon of at least one day, the
    two cost columns are the running sums of the items of the cost lists,
    and item [d] (the one the row of Day [d + 1] adds) carries the upfront
    hardware cost once more exactly when
    [(d + 1) mod (hardware_life_cycle_years * 365) = 0], on-net and off-net
    alike.  With a lifecycle of one year and a horizon of 400 days that is
    the case for [d + 1 = 365] and for no other day, so the only extra
    charge is in the row of Day 365.  When the lifecycle in days exceeds the
    horizon no item carries an extra charge. *)
Theorem lifecycle_refresh_schedule
    {num : Type} `{Arith num} (self : OffNetSimulator num) (compute_aws : bool) :
  let p := params self in
  let T := time_horizon_days p in
  let L := (hardware_life_cycle_years p * 365)%Z in
  user_data self <> [] ->
  hardware_life_cycle_years p <> 0%Z ->
  (1 <= T)%Z ->
  exists res,
    run_simulation self compute_aws = Ok res
    /\ Day (timeline res) = range_from 1 (T + 1)
    /\ On_Net_Cost (timeline res)
       = cumsum (map (fun d => if ((d + 1) mod L =? 0)%Z
                               then (on_net_item self compute_aws d
                                     + upfront_hardware_cost_on_net p)%num
                               else on_net_item self compute_aws d)
                     (range T))
    /\ Off_Net_Cost (timeline res)
       = cumsum (map (fun d => if ((d + 1) mod L =? 0)%Z
                               then (off_net_item self d
                                     + upfront_hardware_cost_off_net p)%num
                               else off_net_item self d)
                     (range T))
    /\ (hardware_life_cycle_years p = 1%Z -> T = 400%Z ->
        filter (fun day => (day mod L =? 0)%Z) (Day (timeline res)) = [365%Z]
        /\ On_Net_Cost (timeline res)
           = cumsum (map (fun d => if (d + 1 =? 365)%Z
                                   then (on_net_item self compute_aws d
                                         + upfront_hardware_cost_on_net p)%num
                                   else on_net_item self compute_aws d)
                         (range 400))
        /\ Off_Net_Cost (timeline res)
           = cumsum (map (fun d => if (d + 1 =? 365)%Z
                                   then (off_net_item self d
                                         + upfront_hardware_cost_off_net p)%num
                                   else off_net_item self d)
                         (range 400)))
    /\ ((T < L)%Z ->
        filter (fun day => (day mod L =? 0)%Z) (Day (timeline res)) = []
        /\ On_Net_Cost (timeline res)
           = cumsum (map (on_net_item self compute_aws) (range T))
        /\ Off_Net_Cost (timeline res)
           = cumsum (map (off_net_item self) (range T))).
Proof.
  intros p T L Hdata Hyears HT.
  destruct (run_simulation_returns self compute_aws Hdata Hyears HT)
    as (on & off & _ & _ & Hrun).
  eexists. split; [exact Hrun |].
  cbn [timeline results_of Day On_Net_Cost Off_Net_Cost timeline_of].
  fold p. fold T. fold L.
  split; [reflexivity |]. split; [reflexivity |]. split; [reflexivity |].
  split.
  - intros Hy HT400.
    assert (EL : L = 365%Z) by (subst L; rewrite Hy; reflexivity).
    rewrite EL, HT400. split; [| split].
    + vm_compute. reflexivity.
    + apply cumsum_map_ext. intros d Hd. apply in_range in Hd.
      unfold on_net_charged. rewrite refresh_one_year by assumption.
      fold p. destruct (Z.eqb_spec d 364), (Z.eqb_spec (d + 1) 365);
        reflexivity || lia.
    + apply cumsum_map_ext. intros d Hd. apply in_range in Hd.
      unfold off_net_charged. rewrite refresh_one_year by assumption.
      fold p. destruct (Z.eqb_spec d 364), (Z.eqb_spec (d + 1) 365);
        reflexivity || lia.
  - intros HTL. split; [| split].
    + apply filter_none. intros day Hday. apply in_range_from in Hday.
      apply Z.eqb_neq. rewrite Z.mod_small by lia. lia.
    + apply cumsum_map_ext. intros d Hd. apply in_range in Hd.
      unfold on_net_charged.
      now rewrite (refresh_beyond_horizon (L:=L) (n:=T)).
    + apply cumsum_map_ext. intros d Hd. apply in_range in Hd.
      unfold off_net_charged.
      now rewrite (refresh_beyond_horizon (L:=L) (n:=T)).
Qed.

Section Replay.

Context {num : Type} `{Arith num}.

Lemma row_at_cycle (self : OffNetSimulator num) (i m : nat) (r : Row num) :
  nth_error (user_data self) i = Some r ->
  row_at self (Z.of_nat (i + m * length (user_data self))) = r.
Proof.
  intros Hr. unfold row_at.
  assert (Hi : (i < length (user_data self))%nat)
    by (apply nth_error_Some; congruence).
  rewrite Nat2Z.inj_add, Nat2Z.inj_mul, Z.mod_add by lia.
  rewrite Z.mod_small, Nat2Z.id by lia.
  now apply nth_error_nth.
Qed.

End Replay.

(** C5.  When the horizon is longer than the (non-empty) dataset, the rows of
    Day [i + 1], [i + 1 + len], [i + 1 + 2 * len], ... within the horizon all
    show row [i] of the dataset: its [num_requests] under Sent Requests and
    its [num_users] under Active Users. *)
Theorem cyclic_replay
    {num : Type} `{Arith num} (self : OffNetSimulator num) (compute_aws : bool) :
  let p := params self in
  let len := length (user_data self) in
  user_data self <> [] ->
  hardware_life_cycle_years p <> 0%Z ->
  (Z.of_nat len < time_horizon_days p)%Z ->
  exists res,
    run_simulation self compute_aws = Ok res
    /\ forall (i m : nat) (r : Row num),
         nth_error (user_data self) i = Some r ->
         (Z.of_nat (i + m * len) < time_horizon_days p)%Z ->
         nth_error (Day (timeline res)) (i + m * len)
           = Some (Z.of_nat i + 1 + Z.of_nat m * Z.of_nat len)%Z
         /\ nth_error (Sent_Requests (timeline res)) (i + m * len)
            = Some (num_requests r)
         /\ nth_error (Active_Users (timeline res)) (i + m * len)
            = Some (num_users r).
Proof.
  intros p len Hdata Hyears HT.
  assert (HT1 : (1 <= time_horizon_days p)%Z) by lia.
  destruct (run_simulation_returns self compute_aws Hdata Hyears HT1)
    as (on & off & _ & _ & Hrun).
  eexists. split; [exact Hrun |].
  intros i m r Hr Hday.
  cbn [timeline results_of Day Sent_Requests Active_Users timeline_of].
  fold p.
  rewrite !nth_error_map, nth_error_range, nth_error_range_from by lia.
  cbn [option_map]. unfold daily_requests_at, daily_users_at.
  subst len. rewrite (row_at_cycle self i m Hr).
  repeat split. f_equal. lia.
Qed.

(** ** The Canvas recommendation *)

(** C6.  Whenever a Canvas-mode run returns, its recommendation is the
    off-net sentence if and only if the last Off-Net Cost is strictly below
    the last On-Net Cost; in every other case, equal totals included, it is
    the on-net sentence. *)
Theorem canvas_recommendation
    {num : Type} `{LtIrrefl num} (self : OffNetSimulator num)
    (res : SimulationResults num) :
  run_simulation self false = Ok res ->
  exists total_on_net total_off_net,
    iloc_last (On_Net_Cost (timeline res)) = Ok total_on_net
    /\ iloc_last (Off_Net_Cost (timeline res)) = Ok total_off_net
    /\ (final_recommendation res = Text off_net_text
        <-> ltb total_off_net total_on_net = true)
    /\ (ltb total_off_net total_on_net = false ->
        final_recommendation res = Text on_net_text)
    /\ (total_off_net = total_on_net ->
        final_recommendation res = Text on_net_text).
Proof.
  unfold run_simulation. intros Hrun.
  destruct (simulate_days self false) as [fr | e]; [| discriminate].
  cbn [bind] in Hrun. unfold finish in Hrun.
  destruct (DataFrame _ _ _ _ _ _) as [df | e]; [| discriminate].
  cbn [bind] in Hrun.
  destruct (iloc_last (On_Net_Cost df)) as [on | e] eqn:Hon; [| discriminate].
  destruct (iloc_last (Off_Net_Cost df)) as [off | e] eqn:Hoff; [| discriminate].
  cbn [bind] in Hrun. injection Hrun as <-.
  cbn [timeline final_recommendation].
  exists on, off. split; [exact Hon | split; [exact Hoff |]].
  assert (Hfalse : ltb off on = false ->
                   Text (num:=num) (if ltb off on then off_net_text else on_net_text)
                   = Text on_net_text) by (intros ->; reflexivity).
  split; [| split].
  - destruct (ltb off on); split; intros E; try reflexivity; discriminate.
  - exact Hfalse.
  - intros ->. apply Hfalse, ltb_irrefl.
Qed.

#[export] Instance float_lt_irrefl : LtIrrefl float.
Proof.
  intros x. cbn [ltb float_arith]. rewrite ltb_spec. unfold SFltb, SFcompare.
  destruct (Prim2SF x) as [s | s | | s m e];
    [now destruct s | now destruct s | reflexivity |].
  rewrite Z.compare_refl.
  change (PosDef.Pos.compare_cont Eq m m) with (Pos.compare m m).
  rewrite Pos.compare_refl. now destruct s.
Qed.

#[export] Instance Qc_lt_irrefl : LtIrrefl Qc.
Proof.
  intros x. cbn [ltb Qc_arith].
  now rewrite (proj1 (Qceq_alt x x) eq_refl).
Qed.

(** ** Two runs side by side *)

Section Agreement.

Context {num : Type} `{Arith num}.
Local Open Scope num_scope.

Lemma agree_bind {A B A' B' : Type} (R : A -> A' -> Prop) (Q : B -> B' -> Prop)
    (x : result A) (y : result A') (f : A -> result B) (g : A' -> result B') :
  agree R x y ->
  (forall a a', R a a' -> agree Q (f a) (g a')) ->
  agree Q (bind x f) (bind y g).
Proof.
  intros Hxy Hfg. destruct x, y; cbn in *; try contradiction; auto.
Qed.

Lemma agree_refl {A : Type} (x : result A) : agree eq x x.
Proof. destruct x; reflexivity. Qed.

Lemma for_each_agree {S S' A : Type} (R : S -> S' -> Prop)
    (f : S -> A -> result S) (g : S' -> A -> result S') (l : list A) :
  (forall s s' a, R s s' -> agree R (f s a) (g s' a)) ->
  forall s s', R s s' -> agree R (for_each f l s) (for_each g l s').
Proof.
  intros Hfg. induction l as [| a l IH]; intros s s' HR; cbn [for_each].
  - exact HR.
  - apply agree_bind with (R := R); auto.
Qed.

Lemma add_to_last_agree (x x' : num) (l l' : list num) :
  length l = length l' ->
  agree (fun r r' => length r = length r') (add_to_last x l) (add_to_last x' l').
Proof.
  intros E.
  destruct (add_to_last x l) as [r | e] eqn:E1,
           (add_to_last x' l') as [r' | e'] eqn:E2; cbn.
  - apply add_to_last_length in E1, E2. congruence.
  - apply add_to_last_raises in E2 as [-> _].
    destruct l; [discriminate E1 | discriminate E].
  - apply add_to_last_raises in E1 as [-> _].
    destruct l'; [discriminate E2 | discriminate E].
  - apply add_to_last_raises in E1 as [_ ->].
    apply add_to_last_raises in E2 as [_ ->]. reflexivity.
Qed.

Lemma iloc_last_agree {A : Type} (l l' : list A) :
  length l = length l' ->
  agree (fun _ _ => True) (iloc_last l) (iloc_last l').
Proof.
  intros E.
  destruct (iloc_last l) as [r | e] eqn:E1,
           (iloc_last l') as [r' | e'] eqn:E2; cbn; auto.
  - apply iloc_last_raises in E2 as [-> _].
    destruct l; [discriminate E1 | discriminate E].
  - apply iloc_last_raises in E1 as [-> _].
    destruct l'; [discriminate E2 | discriminate E].
  - apply iloc_last_raises in E1 as [_ ->].
    apply iloc_last_raises in E2 as [_ ->]. reflexivity.
Qed.

Lemma lifecycle_agree (L : Z) (fr fr' : Frame num) (day : Z) :
  same_but_on_net fr fr' ->
  agree (fun c c' => length (fst c) = length (fst c') /\ snd c = snd c')
        (lifecycle L fr day) (lifecycle L fr' day).
Proof.
  intros (Eself & Elen & Eoff & _). unfold lifecycle. rewrite Eself, Eoff.
  apply agree_bind with (R := eq); [apply agree_refl |].
  intros r ? <-. destruct (r =? 0)%Z; [| now split].
  eapply agree_bind; [apply add_to_last_agree, Elen |].
  intros on on' Hon. cbn beta.
  destruct (add_to_last _ (off_net_costs fr')); cbn; auto.
Qed.

Lemma day_costs_off_net (fr fr' : Frame num) (v : num) :
  self_ fr = self_ fr' ->
  snd (day_costs true fr v) = snd (day_costs false fr' v).
Proof.
  intros E. unfold day_costs. rewrite E.
  destruct (compute_aws_bandwidth (self_ fr')). reflexivity.
Qed.

Lemma loop_body_agree (gb : num) (L : Z) (fr fr' : Frame num) (day : Z) :
  same_but_on_net fr fr' ->
  agree same_but_on_net (loop_body true gb L fr day) (loop_body false gb L fr' day).
Proof.
  intros HR. pose proof HR as (Eself & Elen & Eoff & Ereq & Evol & Eusers).
  unfold loop_body. rewrite Eself.
  apply agree_bind with (R := eq); [apply agree_refl |]. intros i ? <-.
  apply agree_bind with (R := eq); [apply agree_refl |]. intros users ? <-.
  apply agree_bind with (R := eq); [apply agree_refl |]. intros requests ? <-.
  pose proof (day_costs_off_net fr fr' (requests * gb) Eself) as Ecost.
  destruct (day_costs true fr (requests * gb)) as [[bw on] off].
  destruct (day_costs false fr' (requests * gb)) as [[bw' on'] off'].
  cbn [snd] in Ecost. subst off'.
  eapply agree_bind; [apply lifecycle_agree, HR |].
  intros [c1 c2] [c1' c2'] [Hc1 Hc2]. cbn [fst snd] in Hc1, Hc2. subst c2'.
  cbn. unfold same_but_on_net. cbn.
  rewrite !length_app, Hc1, Ereq, Evol, Eusers. repeat split; auto.
Qed.

Lemma finish_agree (T_days : Z) (fr fr' : Frame num) :
  same_but_on_net fr fr' ->
  agree (fun r r' => same_shared_columns (timeline r) (timeline r'))
        (finish true T_days fr) (finish false T_days fr').
Proof.
  intros (Eself & Elen & Eoff & Ereq & Evol & Eusers). unfold finish.
  rewrite Eoff, Ereq, Evol, Eusers.
  apply agree_bind with
    (R := fun t t' => same_shared_columns t t'
                      /\ length (On_Net_Cost t) = length (On_Net_Cost t')).
  - unfold DataFrame.
    rewrite !length_cumsum, (length_slice_to T_days _ _ Elen).
    match goal with |- context [if ?b then _ else _] => destruct b end;
      cbn; unfold same_shared_columns; cbn; [| reflexivity].
    rewrite !length_cumsum. repeat split. now apply length_slice_to.
  - intros t t' [Hcols Hlen]. pose proof Hcols as (_ & Eoffc & _).
    pose proof (iloc_last_agree _ _ Hlen) as Hon. rewrite Eoffc.
    destruct (iloc_last (On_Net_Cost t)), (iloc_last (On_Net_Cost t'));
      cbn in Hon |- *; try contradiction; try assumption.
    destruct (iloc_last (Off_Net_Cost t')); cbn; [| reflexivity].
    exact Hcols.
Qed.

End Agreement.

(** C10.  Whatever the simulator's parameters and dataset, a run in AWS mode
    and a run in Canvas mode either both return, with the same Day, Off-Net
    Cost, Sent Requests, Sent Data Volume (GB) and Active Users columns, or
    both raise the same exception. *)
Theorem mode_independent_columns
    {num : Type} `{Arith num} (self : OffNetSimulator num) :
  match run_simulation self true, run_simulation self false with
  | Ok aws, Ok canvas =>
      Off_Net_Cost (timeline aws) = Off_Net_Cost (timeline canvas)
      /\ Sent_Requests (timeline aws) = Sent_Requests (timeline canvas)
      /\ Sent_Data_Volume_GB (timeline aws)
         = Sent_Data_Volume_GB (timeline canvas)
      /\ Active_Users (timeline aws) = Active_Users (timeline canvas)
  | Raise e, Raise e' => e = e'
  | _, _ => False
  end.
Proof.
  assert (Hrun :
    agree (fun r r' => same_shared_columns (timeline r) (timeline r'))
          (run_simulation self true) (run_simulation self false)).
  { unfold run_simulation, simulate_days.
    eapply agree_bind; [| intros fr fr'; apply finish_agree].
    apply for_each_agree; [intros; now apply loop_body_agree |].
    unfold same_but_on_net. repeat split. }
  destruct (run_simulation self true), (run_simulation self false);
    cbn in Hrun; try contradiction; try assumption.
  unfold same_shared_columns in Hrun. tauto.
Qed.

(** ** The bandwidth figure inside and outside the loop *)

Section Hoisting.

Context {num : Type} `{Arith num}.
Local Open Scope num_scope.

Lemma with_bandwidth_same (fr : Frame num) (bw : num) :
  bandwidth_gbps fr = bw -> with_bandwidth fr bw = fr.
Proof. intros <-. now destruct fr. Qed.

(** An iteration leaves [self] as it was and, in AWS mode, leaves the
    sub-procedure's first result in [required_bandwidth_gbps]. *)
Lemma loop_body_keeps_self (compute_aws : bool) (gb : num) (L : Z)
    (fr fr' : Frame num) (day : Z) :
  loop_body compute_aws gb L fr day = Ok fr' ->
  self_ fr' = self_ fr
  /\ (compute_aws = true ->
      bandwidth_gbps fr' = fst (compute_aws_bandwidth (self_ fr))).
Proof.
  unfold loop_body. intros E.
  destruct (py_mod day _) as [i |]; [| discriminate]. cbn [bind] in E.
  destruct (loc _ i num_users) as [users |]; [| discriminate].
  destruct (loc _ i num_requests) as [requests |]; [| discriminate].
  cbn [bind] in E.
  destruct (day_costs compute_aws fr (requests * gb)) as [[bw on] off] eqn:Ec.
  destruct (lifecycle L fr day) as [[c c'] |]; [| discriminate].
  injection E as <-. cbn [self_ bandwidth_gbps]. split; [reflexivity |].
  intros ->. unfold day_costs in Ec.
  destruct (compute_aws_bandwidth (self_ fr)). now injection Ec as <- _ _.
Qed.

Lemma for_each_keeps_self (compute_aws : bool) (gb : num) (L : Z)
    (l : list Z) (fr fr' : Frame num) :
  for_each (loop_body compute_aws gb L) l fr = Ok fr' -> self_ fr' = self_ fr.
Proof.
  revert fr. induction l as [| d l IH]; intros fr E; cbn [for_each] in E.
  - now injection E as <-.
  - destruct (loop_body compute_aws gb L fr d) as [fr1 |] eqn:E1;
      [| discriminate].
    cbn [bind] in E. apply IH in E. rewrite E.
    now apply loop_body_keeps_self in E1.
Qed.

Variable self : OffNetSimulator num.

Let aws : num * num := compute_aws_bandwidth self.

Lemma loop_body_hoisted_eq (gb : num) (L : Z) (fr : Frame num) (day : Z) :
  self_ fr = self ->
  loop_body_hoisted true aws gb L (with_bandwidth fr (fst aws)) day
  = loop_body true gb L fr day.
Proof.
  intros Hself. unfold loop_body_hoisted, loop_body.
  cbn [self_ with_bandwidth].
  destruct (py_mod day _) as [i |]; [| reflexivity]. cbn [bind].
  destruct (loc _ i num_users) as [users |]; [| reflexivity].
  destruct (loc _ i num_requests) as [requests |]; [| reflexivity].
  cbn [bind].
  change (lifecycle L (with_bandwidth fr (fst aws)) day)
    with (lifecycle L fr day).
  unfold day_costs_hoisted, day_costs.
  cbn [self_ with_bandwidth sent_requests sent_data_gb active_users
       bandwidth_gbps].
  rewrite Hself. fold aws. destruct aws as [bw cost]. cbn [fst snd].
  reflexivity.
Qed.

Lemma for_each_hoisted_eq (gb : num) (L : Z) (l : list Z) (fr : Frame num) :
  self_ fr = self -> bandwidth_gbps fr = fst aws ->
  for_each (loop_body_hoisted true aws gb L) l fr
  = for_each (loop_body true gb L) l fr.
Proof.
  revert fr. induction l as [| d l IH]; intros fr Hself Hbw; [reflexivity |].
  cbn [for_each].
  rewrite <- (with_bandwidth_same fr Hbw) at 1.
  rewrite loop_body_hoisted_eq by assumption.
  destruct (loop_body true gb L fr d) as [fr1 |] eqn:E1; [| reflexivity].
  cbn [bind]. apply loop_body_keeps_self in E1 as [E1 E2].
  apply IH; [congruence |]. rewrite E2, Hself; reflexivity.
Qed.

(** With no day to simulate the data frame is empty and reading its last
    row raises. *)
Lemma finish_nonpositive (compute_aws : bool) (T_days : Z) (fr : Frame num)
    (a b : num) :
  (T_days <= 0)%Z ->
  on_net_costs fr = [a] -> off_net_costs fr = [b] ->
  sent_requests fr = [] -> sent_data_gb fr = [] -> active_users fr = [] ->
  finish compute_aws T_days fr = Raise IndexError.
Proof.
  intros HT Eon Eoff Ereq Evol Eusers. unfold finish.
  rewrite Eon, Eoff, Ereq, Evol, Eusers.
  rewrite !slice_to_nonpositive by assumption.
  unfold range_from. replace (Z.to_nat (T_days + 1 - 1)) with 0%nat by lia.
  reflexivity.
Qed.

(** Evaluating the sub-procedure in every iteration or once before the loop
    gives the same run, on every input. *)
Lemma run_simulation_hoisted_eq :
  run_simulation_hoisted self true = run_simulation self true.
Proof.
  unfold run_simulation_hoisted, run_simulation, simulate_days. fold aws.
  set (T := time_horizon_days (params self)).
  set (gb := avg_request_size_kb (params self) / of_int 1048576).
  set (L := (hardware_life_cycle_years (params self) * 365)%Z).
  change {| self_ := self;
            on_net_costs := [upfront_hardware_cost_on_net (params self)];
            off_net_costs := [upfront_hardware_cost_off_net (params self)];
            sent_requests := []; sent_data_gb := []; active_users := [];
            bandwidth_gbps := fst aws |}
    with (with_bandwidth (initial_frame self) (fst aws)).
  destruct (range T) as [| d l] eqn:Erange.
  - assert (HT : (T <= 0)%Z).
    { apply (f_equal (@length _)) in Erange.
      rewrite length_range in Erange. cbn in Erange. lia. }
    cbn [for_each bind].
    erewrite !finish_nonpositive; try reflexivity; exact HT.
  - cbn [for_each]. rewrite loop_body_hoisted_eq by reflexivity.
    destruct (loop_body true gb L (initial_frame self) d) as [fr1 |] eqn:E1;
      [| reflexivity].
    cbn [bind]. apply loop_body_keeps_self in E1 as [E1 E2].
    rewrite for_each_hoisted_eq; [reflexivity | exact E1 |].
    now rewrite E2.
Qed.

End Hoisting.

(** C9.  In AWS mode the loop leaves the simulator object, and with it every
    input of the bandwidth sub-procedure, as it found it: after any number
    of iterations the sub-procedure still returns the pair it returns before
    the loop.  The run that evaluates it once before the loop and reuses the
    pair is the same run. *)
Theorem aws_bandwidth_constant_in_loop
    {num : Type} `{Arith num} (self : OffNetSimulator num) :
  let p := params self in
  let gb := (avg_request_size_kb p / of_int 1048576)%num in
  let L := (hardware_life_cycle_years p * 365)%Z in
  user_data self <> [] ->
  hardware_life_cycle_years p <> 0%Z ->
  (forall k : nat,
      exists fr,
        for_each (loop_body true gb L) (range (Z.of_nat k)) (initial_frame self)
        = Ok fr
        /\ self_ fr = self
        /\ compute_aws_bandwidth (self_ fr) = compute_aws_bandwidth self)
  /\ run_simulation self true = run_simulation_hoisted self true.
Proof.
  intros p gb L Hdata Hyears. split.
  - intros k. exists (frame_after self true L k).
    assert (HL : L <> 0%Z) by (subst L; lia).
    split; [apply (for_each_range self true Hdata HL) | now split].
  - symmetry. apply run_simulation_hoisted_eq.
Qed.

(** ** Normalization in exact arithmetic *)

Section Exact.

Local Open Scope Qc_scope.

Lemma Qc_of_int_nonzero (z : Z) : z <> 0%Z -> of_int (num:=Qc) z <> 0.
Proof.
  intros Hz E. cbn [of_int Qc_arith] in E.
  apply Q2Qc_eq_iff in E. unfold Qeq in E. cbn in E. lia.
Qed.

Lemma Qc_fold_scale (f : Qc) (l : list Qc) (a : Qc) :
  fold_left Qcplus (map (fun x => x * f) l) (a * f)
  = fold_left Qcplus l a * f.
Proof.
  revert a. induction l as [| x l IH]; intros a; [reflexivity |].
  cbn [map fold_left]. rewrite <- IH. f_equal. ring.
Qed.

Lemma Qc_dropna (l : list Qc) : dropna l = l.
Proof.
  unfold dropna. cbn [isnan Qc_arith negb].
  induction l as [| x l IH]; cbn [filter]; [| rewrite IH]; reflexivity.
Qed.

Lemma Qc_fold_add (l : list Qc) (a : Qc) :
  fold_left Qcplus l a = a + fold_left Qcplus l 0.
Proof.
  revert a. induction l as [| x l IH]; intros a; cbn [fold_left]; [ring |].
  rewrite (IH (a + x)), (IH (0 + x)). ring.
Qed.

Lemma Qc_fold_cons (x : Qc) (l : list Qc) :
  fold_left Qcplus (x :: l) 0 = x + fold_left Qcplus l 0.
Proof. cbn [fold_left]. rewrite Qc_fold_add. ring. Qed.

Lemma Qc_fold_app (l l' : list Qc) :
  fold_left Qcplus (l ++ l') 0
  = fold_left Qcplus l 0 + fold_left Qcplus l' 0.
Proof. rewrite fold_left_app. apply Qc_fold_add. Qed.

Lemma Qc_fold_split (n : nat) (l : list Qc) :
  fold_left Qcplus l 0
  = fold_left Qcplus (firstn n l) 0 + fold_left Qcplus (skipn n l) 0.
Proof. now rewrite <- Qc_fold_app, firstn_skipn. Qed.

Lemma Qc_fillna (l : list Qc) : fillna l = l.
Proof. unfold fillna. cbn [isnan Qc_arith]. apply map_id. Qed.

Lemma Qc_short_sum (a : list Qc) : short_sum a = fold_left Qcplus a 0.
Proof.
  destruct a as [| x a]; [reflexivity |].
  cbn [short_sum add Qc_arith]. now rewrite Qc_fold_cons, Qc_fold_add.
Qed.

Lemma Qc_add_columns (r b : list Qc) :
  length r = length b ->
  fold_left Qcplus (add_columns r b) 0
  = fold_left Qcplus r 0 + fold_left Qcplus b 0.
Proof.
  revert b. induction r as [| x r IH]; intros [| y b] Hlen;
    cbn [length] in Hlen; try discriminate Hlen.
  - cbn. ring.
  - change (add_columns (x :: r) (y :: b)) with ((x + y) :: add_columns r b).
    rewrite !Qc_fold_cons, IH by lia. ring.
Qed.

Lemma Qc_unrolled (k : nat) (r a : list Qc) :
  length r = 8%nat -> (8 * k <= length a)%nat ->
  length (fst (unrolled k r a)) = 8%nat
  /\ fold_left Qcplus (fst (unrolled k r a)) 0
     + fold_left Qcplus (snd (unrolled k r a)) 0
     = fold_left Qcplus r 0 + fold_left Qcplus a 0.
Proof.
  revert r a. induction k as [| k IH]; intros r a Hr Ha; cbn [unrolled].
  - now split.
  - assert (H8 : length (firstn 8 a) = 8%nat) by (rewrite length_firstn; lia).
    destruct (IH (add_columns r (firstn 8 a)) (skipn 8 a)) as [H1 H2].
    + unfold add_columns. rewrite length_map, length_combine. lia.
    + rewrite length_skipn. lia.
    + split; [exact H1 |].
      rewrite H2, Qc_add_columns, (Qc_fold_split 8 a) by lia. ring.
Qed.

Lemma Qc_block_sum (a : list Qc) :
  (8 <= length a)%nat -> block_sum a = fold_left Qcplus a 0.
Proof.
  intros Ha. unfold block_sum.
  destruct (Qc_unrolled (length a / 8 - 1) (firstn 8 a) (skipn 8 a))
    as [Hr Hsum].
  { rewrite length_firstn. lia. }
  { rewrite length_skipn.
    pose proof (Nat.Div0.mul_div_le (length a) 8). lia. }
  destruct (unrolled (length a / 8 - 1) (firstn 8 a) (skipn 8 a))
    as [r rest].
  cbn [fst snd] in Hr, Hsum. rewrite <- Qc_fold_split in Hsum.
  destruct r as [| r0 [| r1 [| r2 [| r3 [| r4 [| r5 [| r6 [| r7 [| r8 r]]]]]]]]];
    try discriminate Hr.
  rewrite Qc_fold_add, <- Hsum. rewrite !Qc_fold_cons.
  cbn [add Qc_arith fold_left]. ring.
Qed.

(** In exact arithmetic the pairwise sum is the sum. *)
Lemma Qc_pairwise_sum (fuel : nat) (a : list Qc) :
  (length a <= fuel)%nat -> pairwise_sum fuel a = fold_left Qcplus a 0.
Proof.
  revert a. induction fuel as [| fuel IH]; intros a Ha.
  - destruct a; [reflexivity | cbn [length] in Ha; lia].
  - cbn [pairwise_sum].
    destruct (length a <? 8)%nat eqn:H8; [apply Qc_short_sum |].
    apply Nat.ltb_ge in H8.
    destruct (length a <=? 128)%nat eqn:H128; [now apply Qc_block_sum |].
    apply Nat.leb_gt in H128.
    set (n2 := (length a / 2 - (length a / 2) mod 8)%nat).
    assert (Hn2 : (1 <= n2 < length a)%nat).
    { subst n2.
      pose proof (Nat.mod_upper_bound (length a / 2) 8 ltac:(discriminate)).
      pose proof (Nat.div_mod_eq (length a) 2).
      pose proof (Nat.mod_upper_bound (length a) 2 ltac:(discriminate)).
      lia. }
    rewrite !IH, (Qc_fold_split n2 a);
      [reflexivity | rewrite length_skipn; lia | rewrite length_firstn; lia].
Qed.

Lemma Qc_sum_fold (l : list Qc) : sum l = fold_left Qcplus l 0.
Proof.
  unfold sum. rewrite Qc_fillna. destruct l as [| x l]; [reflexivity |].
  now apply Qc_pairwise_sum.
Qed.

Lemma Qc_sum_scale (f : Qc) (l : list Qc) :
  sum (map (fun x => mul x f) l) = sum l * f.
Proof.
  rewrite !Qc_sum_fold. cbn [mul Qc_arith].
  rewrite <- Qc_fold_scale. f_equal. ring.
Qed.

Lemma Qc_mean_scale (f : Qc) (l : list Qc) :
  mean (map (fun x => mul x f) l) = mean l * f.
Proof.
  unfold mean. rewrite Qc_sum_scale, !Qc_dropna, length_map.
  cbn [div Qc_arith]. unfold Qcdiv. ring.
Qed.

Lemma Qc_ratio_scale (r u f : Qc) : f <> 0 -> (r * f) / (u * f) = r / u.
Proof.
  intros Hf. destruct (Qc_eq_dec u 0) as [-> | Hu].
  - unfold Qcdiv. replace (0 * f) with 0 by ring.
    change (/ 0) with 0. ring.
  - field. now split.
Qed.

End Exact.

(** C3.  In exact arithmetic, on a non-empty dataset whose mean user count is
    positive and for a positive target, [adjust_dataset] returns, having
    multiplied both entries of every row by
    [factor = avg_num_users / mean(num_users)]; the mean user count of the
    result is the target; and for every row the quotient of requests by
    users is what it was (stated as a quotient, with [Qc]'s [x / 0 = 0] for
    a row without users, and cross-multiplied). *)
Theorem normalization_invariant (self : OffNetSimulator Qc) :
  let target := avg_num_users (params self) in
  let factor := (of_int target / mean (map num_users (user_data self)))%num in
  user_data self <> [] ->
  (0 < mean (map num_users (user_data self)))%Qc ->
  (0 < target)%Z ->
  exists self',
    adjust_dataset self = Ok self'
    /\ params self' = params self
    /\ user_data self'
       = map (fun r => {| num_users := (num_users r * factor)%num;
                          num_requests := (num_requests r * factor)%num |})
             (user_data self)
    /\ mean (map num_users (user_data self')) = of_int target
    /\ forall (i : nat) (r : Row Qc),
         nth_error (user_data self) i = Some r ->
         exists r',
           nth_error (user_data self') i = Some r'
           /\ (num_requests r' / num_users r' = num_requests r / num_users r)%Qc
           /\ (num_requests r' * num_users r = num_requests r * num_users r')%Qc.
Proof.
  intros target factor Hdata Hmean Htarget.
  eexists. split; [reflexivity |]. cbn [params user_data].
  split; [reflexivity |]. split; [reflexivity |].
  fold target. fold factor.
  assert (Hm : mean (map num_users (user_data self)) <> 0%Qc).
  { intros E. apply (Qclt_not_eq _ _ Hmean). now symmetry. }
  assert (Ht : of_int (num:=Qc) target <> 0%Qc)
    by (apply Qc_of_int_nonzero; lia).
  assert (Hf : factor <> 0%Qc).
  { subst factor. cbn [div Qc_arith]. intros E. apply Ht.
    transitivity
      (of_int target / mean (map num_users (user_data self))
       * mean (map num_users (user_data self)))%Qc;
      [field; exact Hm | rewrite E; ring]. }
  split.
  - rewrite map_map. cbn [num_users].
    rewrite <- (map_map num_users (fun x => mul x factor)), Qc_mean_scale.
    subst factor. cbn [div Qc_arith]. field. exact Hm.
  - intros i r Hr. eexists. split.
    + rewrite nth_error_map, Hr. reflexivity.
    + cbn [num_users num_requests mul Qc_arith]. split.
      * now apply Qc_ratio_scale.
      * ring.
Qed.

(** ** Inputs the simulator does not validate *)

(** C8 (as amended).  With a horizon of zero or fewer days the loop runs no
    iteration and leaves the locals as initialised, and the data frame is
    built with no row; the run then raises [IndexError], from reading the
    last row of that frame, and returns no results. *)
Theorem nonpositive_horizon_raises
    {num : Type} `{Arith num} (self : OffNetSimulator num) (compute_aws : bool) :
  let T_days := time_horizon_days (params self) in
  let fr := initial_frame self in
  (T_days <= 0)%Z ->
  simulate_days self compute_aws = Ok fr
  /\ DataFrame (range_from 1 (T_days + 1))
       (cumsum (slice_to T_days (on_net_costs fr)))
       (cumsum (slice_to T_days (off_net_costs fr)))
       (sent_requests fr) (sent_data_gb fr) (active_users fr)
     = Ok {| Day := []; On_Net_Cost := []; Off_Net_Cost := [];
             Sent_Requests := []; Sent_Data_Volume_GB := [];
             Active_Users := [] |}
  /\ run_simulation self compute_aws = Raise IndexError.
Proof.
  intros T_days fr HT.
  assert (Hloop : simulate_days self compute_aws = Ok (initial_frame self)).
  { unfold simulate_days. now rewrite range_nonpositive. }
  split; [exact Hloop |]. split.
  { subst fr. cbn [initial_frame on_net_costs off_net_costs sent_requests
                   sent_data_gb active_users].
    rewrite !slice_to_nonpositive by assumption.
    unfold range_from. replace (Z.to_nat (T_days + 1 - 1)) with 0%nat by lia.
    reflexivity. }
  unfold run_simulation. rewrite Hloop. cbn [bind].
  now apply finish_nonpositive with
    (a := upfront_hardware_cost_on_net (params self))
    (b := upfront_hardware_cost_off_net (params self)).
Qed.

(** ** The AWS figures of a run that returns *)

Section Stated.

Context {num : Type} `{Arith num}.
Local Open Scope num_scope.

(** What does hold of the AWS figures of a run that returns: the monthly
    link cost is the required bandwidth times the cost per Gbps, and the
    daily link cost charged in the loop is that product over 30. *)
Lemma aws_link_costs (self : OffNetSimulator num) (res : SimulationResults num) :
  run_simulation self true = Ok res ->
  user_data self <> [] ->
  hardware_life_cycle_years (params self) <> 0%Z ->
  (1 <= time_horizon_days (params self))%Z ->
  required_bandwidth_gbps res = fst (compute_aws_bandwidth self)
  /\ aws_transfer_link_cost res
     = required_bandwidth_gbps res * transfer_link_cost_per_gbps (params self)
  /\ snd (compute_aws_bandwidth self) = aws_transfer_link_cost res / of_int 30.
Proof.
  intros Hrun Hdata Hyears HT.
  destruct (run_simulation_returns self true Hdata Hyears HT)
    as (on & off & _ & _ & E).
  rewrite E in Hrun. injection Hrun as <-.
  cbn [required_bandwidth_gbps aws_transfer_link_cost results_of].
  repeat split.
Qed.

End Stated.

(** ** Runs in binary64 *)

Local Open Scope float_scope.

Example sample_is_normalized :
  init (sample_params 2 5 3000 10000 20000 0 0) sample_data
  = Ok (sample 2 5 3000 10000 20000).
Proof. reflexivity. Qed.

(** Nine entries are added as numpy adds them: eight accumulators as a
    tree, then the ninth.  Added left to right they would give 1e16. *)
Example sum_is_pairwise :
  sum [1e16; 1; 1; 1; 1; 1; 1; 1; 1] = 10000000000000008
  /\ fold_left PrimFloat.add [1e16; 1; 1; 1; 1; 1; 1; 1; 1] 0 = 1e16.
Proof. split; reflexivity. Qed.

(** The first [int] that does not convert is [2 ** 1024 - 2 ** 970]. *)
Example largest_int_that_converts :
  float_fits (2 ^ 1024 - 2 ^ 970 - 1) = true
  /\ float_fits (2 ^ 1024 - 2 ^ 970) = false
  /\ to_float (num:=float) (2 ^ 1024) = Raise OverflowError.
Proof. repeat split; vm_compute; reflexivity. Qed.

Example aws_sample_is_normalized :
  init (params aws_sample) (user_data aws_sample) = Ok aws_sample.
Proof. reflexivity. Qed.

(** C1 (the code at a failing input).  Canvas mode, two days, daily on-net
    costs 100.125 and 100.25, upfront on-net cost 10000: the two rows show
    10000 and 10100.125, where the upfront cost plus the daily costs up to
    and including the row's day are 10100.125 and 10200.375.  Each row lags
    one day behind and the last day's cost is in no row; the off-net column
    does the same. *)
Theorem cumulative_cost_lags_one_day :
  let self := sample 2 5 3000 10000 20000 in
  exists res,
    run_simulation self false = Ok res
    /\ Day (timeline res) = [1; 2]%Z
    /\ map (on_net_daily_cost self false) (range 2) = [100.125; 100.25]
    /\ map (off_net_daily_cost self) (range 2) = [0.0625; 0.125]
    /\ On_Net_Cost (timeline res) = [10000; 10100.125]
    /\ Off_Net_Cost (timeline res) = [20000; 20000.0625]
    /\ map (spec_cumulative_cost 10000 (on_net_daily_cost self false))
           (Day (timeline res))
       = [10100.125; 10200.375]
    /\ map (spec_cumulative_cost 20000 (off_net_daily_cost self))
           (Day (timeline res))
       = [20000.0625; 20000.1875].
Proof.
  cbv zeta. eexists. split; [vm_compute; reflexivity |].
  repeat split; vm_compute; reflexivity.
Qed.

(** C2 (the code at a failing input).  1024 requests of 1 MB per second at
    an SLA of 100 percent are 1 GB per second by the stated formula;
    [compute_aws_bandwidth] returns 1/1024 of it, having divided the request
    size by 1024 once more, and the run reports that figure and a monthly
    link cost of 30 instead of 30720. *)
Theorem aws_bandwidth_divides_by_1024_again :
  spec_required_bandwidth aws_sample = 1
  /\ compute_aws_bandwidth aws_sample = (0.0009765625, 1)
  /\ exists res,
       run_simulation aws_sample true = Ok res
       /\ required_bandwidth_gbps res = 0.0009765625
       /\ aws_transfer_link_cost res = 30
       /\ spec_required_bandwidth aws_sample
          * transfer_link_cost_per_gbps (params aws_sample) = 30720.
Proof.
  split; [vm_compute; reflexivity |]. split; [vm_compute; reflexivity |].
  eexists. split; [vm_compute; reflexivity |].
  repeat split; vm_compute; reflexivity.
Qed.

(** Dividing by zero, and multiplying by what comes out of it, in
    binary64. *)
Lemma div_by_zero_not_finite (x y : float) :
  PrimFloat.eqb y 0 = true -> not_finite (x / y) = true.
Proof.
  intros Hy. rewrite eqb_spec in Hy. unfold not_finite. rewrite div_spec.
  change (Prim2SF 0) with (S754_zero false) in Hy.
  destruct (Prim2SF y) as [s | s | | s m e];
    try discriminate Hy; try (destruct s; discriminate Hy).
  destruct (Prim2SF x); reflexivity.
Qed.

Lemma mul_not_finite (x f : float) :
  not_finite f = true -> not_finite (x * f) = true.
Proof.
  unfold not_finite. rewrite mul_spec. intros Hf.
  destruct (Prim2SF f); try discriminate Hf; destruct (Prim2SF x); reflexivity.
Qed.

(** C7 (as amended).  [adjust_dataset] validates nothing.  The one
    exception it raises is [OverflowError], exactly when [avg_num_users] is
    an [int] too large to convert, whatever the dataset.  Otherwise it
    returns, also on an empty dataset and on one whose mean user count is
    zero: the rows come back multiplied by [avg_num_users / mean], as many
    as they were (none of an empty dataset), and in those two cases every
    entry of every row is a NaN or an infinity. *)
Theorem adjust_dataset_validates_nothing (self : OffNetSimulator float) :
  let data := user_data self in
  let target := avg_num_users (params self) in
  let current_avg_users := mean (map num_users data) in
  (forall e : exn,
      adjust_dataset self = Raise e
      <-> e = OverflowError /\ float_fits target = false)
  /\ (float_fits target = true ->
      data = [] \/ PrimFloat.eqb current_avg_users 0 = true ->
      exists self',
        adjust_dataset self = Ok self'
        /\ params self' = params self
        /\ user_data self'
           = scale_rows (float_of_int target / current_avg_users) data
        /\ length (user_data self') = length data
        /\ Forall (fun r => not_finite (num_users r) = true
                            /\ not_finite (num_requests r) = true)
                  (user_data self')).
Proof.
  intros data target current_avg_users. split.
  - intros e. unfold adjust_dataset, to_float. cbn [fits float_arith].
    fold target. destruct (float_fits target); cbn [bind].
    + split; [discriminate | intros [_ Hf]; discriminate Hf].
    + split; [intros [= <-]; now split | intros [-> _]; reflexivity].
  - intros Hfits Hdeg. unfold adjust_dataset, to_float.
    cbn [fits float_arith]. fold target. rewrite Hfits. cbn [bind].
    eexists. split; [reflexivity |]. cbn [params user_data]. fold data.
    split; [reflexivity |]. split; [reflexivity |].
    split; [apply length_map |].
    destruct Hdeg as [-> | Hzero]; [constructor |].
    apply Forall_forall. intros r Hr.
    apply in_map_iff in Hr as (r0 & <- & _).
    cbn [num_users num_requests mul div of_int float_arith].
    fold current_avg_users.
    split; now apply mul_not_finite, div_by_zero_not_finite.
Qed.

(** C7 (counterexample).  Normalizing an empty dataset, or one whose users
    are all zero, returns: the empty dataset as it is, and the other one
    with NaN users and infinite or NaN requests. *)
Lemma adjust_dataset_accepts_degenerate :
  let p := sample_params 2 5 3000 10000 20000 0 0 in
  let idle := [ {| num_users := 0; num_requests := 5 |};
                {| num_users := 0; num_requests := 0 |} ] in
  mean (map num_users idle) = 0
  /\ adjust_dataset {| params := p; user_data := [] |}
     = Ok {| params := p; user_data := [] |}
  /\ adjust_dataset {| params := p; user_data := idle |}
     = Ok {| params := p;
             user_data := [ {| num_users := nan; num_requests := infinity |};
                            {| num_users := nan; num_requests := nan |} ] |}.
Proof. repeat split. Qed.

(** C8 (counterexample).  With a horizon of zero days nothing stops the run
    before the loop: the loop statement completes, the data frame is built,
    with no row, and the exception is the [IndexError] of reading its last
    row. *)
Lemma zero_horizon_fails_after_loop :
  let self := sample 0 5 3000 10000 20000 in
  simulate_days self false = Ok (initial_frame self)
  /\ DataFrame (range_from 1 (0 + 1))
       (cumsum (slice_to 0 (on_net_costs (initial_frame self))))
       (cumsum (slice_to 0 (off_net_costs (initial_frame self))))
       (sent_requests (initial_frame self)) (sent_data_gb (initial_frame self))
       (active_users (initial_frame self))
     = Ok {| Day := []; On_Net_Cost := []; Off_Net_Cost := [];
             Sent_Requests := []; Sent_Data_Volume_GB := [];
             Active_Users := [] |}
  /\ iloc_last (@nil float) = Raise IndexError
  /\ run_simulation self false = Raise IndexError.
Proof. repeat split. Qed.

(** ** The theorems at concrete inputs *)

(** C4 at a lifecycle of one year and a horizon of 400 days. *)
Lemma lifecycle_refresh_schedule_witness :
  let self := sample 400 1 3000 10000 20000 in
  (user_data self <> []
   /\ hardware_life_cycle_years (params self) <> 0%Z
   /\ (1 <= time_horizon_days (params self))%Z)
  /\ exists res,
       run_simulation self false = Ok res
       /\ filter (fun day => (day mod 365 =? 0)%Z) (Day (timeline res))
          = [365%Z].
Proof.
  cbv zeta.
  assert (H1 : user_data (sample 400 1 3000 10000 20000) <> [])
    by discriminate.
  assert (H2 : hardware_life_cycle_years
                 (params (sample 400 1 3000 10000 20000)) <> 0%Z)
    by discriminate.
  assert (H3 : (1 <= time_horizon_days
                       (params (sample 400 1 3000 10000 20000)))%Z)
    by (cbn; lia).
  split; [now repeat split |].
  destruct (lifecycle_refresh_schedule
              (sample 400 1 3000 10000 20000) false H1 H2 H3)
    as (res & Hrun & _ & _ & _ & Hyear & _).
  exists res. split; [exact Hrun |].
  now apply Hyear.
Defined.

(** C5 at a horizon of seven days over the three sample rows: row 1 is shown
    again on Day 5. *)
Lemma cyclic_replay_witness :
  let self := sample 7 5 3000 10000 20000 in
  (user_data self <> []
   /\ hardware_life_cycle_years (params self) <> 0%Z
   /\ (Z.of_nat (length (user_data self)) < time_horizon_days (params self))%Z)
  /\ exists res,
       run_simulation self false = Ok res
       /\ nth_error (Day (timeline res)) 4 = Some 5%Z
       /\ nth_error (Sent_Requests (timeline res)) 4 = Some 2048
       /\ nth_error (Active_Users (timeline res)) 4 = Some 200.
Proof.
  cbv zeta.
  assert (H1 : user_data (sample 7 5 3000 10000 20000) <> []) by discriminate.
  assert (H2 : hardware_life_cycle_years
                 (params (sample 7 5 3000 10000 20000)) <> 0%Z)
    by discriminate.
  assert (H3 : (Z.of_nat (length (user_data (sample 7 5 3000 10000 20000)))
                < time_horizon_days (params (sample 7 5 3000 10000 20000)))%Z)
    by (cbn; lia).
  split; [now repeat split |].
  destruct (cyclic_replay (sample 7 5 3000 10000 20000) false H1 H2 H3)
    as (res & Hrun & Hrows).
  exists res. split; [exact Hrun |].
  apply (Hrows 1%nat 1%nat {| num_users := 200; num_requests := 2048 |});
    [reflexivity | cbn; lia].
Defined.

(** C6 at that run: 0.1875 < 0.375, and the off-net sentence. *)
Lemma canvas_recommendation_witness :
  run_simulation (sample 3 5 0 0 0) false = Ok free_hardware_results
  /\ exists total_on_net total_off_net,
       iloc_last (On_Net_Cost (timeline free_hardware_results))
       = Ok total_on_net
       /\ iloc_last (Off_Net_Cost (timeline free_hardware_results))
          = Ok total_off_net
       /\ (final_recommendation free_hardware_results = Text off_net_text
           <-> ltb total_off_net total_on_net = true).
Proof.
  assert (Hrun : run_simulation (sample 3 5 0 0 0) false
                 = Ok free_hardware_results) by reflexivity.
  split; [exact Hrun |].
  destruct (canvas_recommendation (sample 3 5 0 0 0) Hrun)
    as (on & off & Hon & Hoff & Hiff & _).
  exists on, off. split; [exact Hon | split; [exact Hoff | exact Hiff]].
Defined.

(** C8 at a horizon of zero days. *)
Lemma nonpositive_horizon_raises_witness :
  (time_horizon_days (params (sample 0 5 3000 10000 20000)) <= 0)%Z
  /\ run_simulation (sample 0 5 3000 10000 20000) true = Raise IndexError.
Proof.
  assert (H0 : (time_horizon_days (params (sample 0 5 3000 10000 20000)) <= 0)%Z)
    by (cbn; lia).
  split; [exact H0 |].
  exact (proj2 (proj2 (nonpositive_horizon_raises
                         (sample 0 5 3000 10000 20000) true H0))).
Defined.

(** C9 at the AWS sample. *)
Lemma aws_bandwidth_constant_in_loop_witness :
  (user_data aws_sample <> []
   /\ hardware_life_cycle_years (params aws_sample) <> 0%Z)
  /\ run_simulation aws_sample true = run_simulation_hoisted aws_sample true.
Proof.
  assert (H1 : user_data aws_sample <> []) by discriminate.
  assert (H2 : hardware_life_cycle_years (params aws_sample) <> 0%Z)
    by discriminate.
  split; [now split |].
  exact (proj2 (aws_bandwidth_constant_in_loop aws_sample H1 H2)).
Defined.

(** C7 at the two days without users. *)
Lemma adjust_dataset_validates_nothing_witness :
  (float_fits (avg_num_users (params idle_sample)) = true
   /\ PrimFloat.eqb (mean (map num_users (user_data idle_sample))) 0 = true)
  /\ exists self',
       adjust_dataset idle_sample = Ok self'
       /\ length (user_data self') = 2%nat
       /\ Forall (fun r => not_finite (num_users r) = true
                           /\ not_finite (num_requests r) = true)
                 (user_data self').
Proof.
  assert (H1 : float_fits (avg_num_users (params idle_sample)) = true)
    by reflexivity.
  assert (H2 : PrimFloat.eqb (mean (map num_users (user_data idle_sample))) 0
               = true) by reflexivity.
  split; [now split |].
  destruct (proj2 (adjust_dataset_validates_nothing idle_sample) H1
                  (or_intror H2))
    as (self' & Hrun & _ & _ & Hlen & Hall).
  exists self'. now repeat split.
Defined.

(** C3 at that dataset: the mean becomes 300. *)
Lemma normalization_invariant_witness :
  (user_data exact_sample <> []
   /\ (0 < mean (map num_users (user_data exact_sample)))%Qc
   /\ (0 < avg_num_users (params exact_sample))%Z)
  /\ exists self',
       adjust_dataset exact_sample = Ok self'
       /\ mean (map num_users (user_data self')) = of_int 300.
Proof.
  assert (H1 : user_data exact_sample <> []) by discriminate.
  assert (H2 : (0 < mean (map num_users (user_data exact_sample)))%Qc)
    by reflexivity.
  assert (H3 : (0 < avg_num_users (params exact_sample))%Z) by reflexivity.
  split; [now repeat split |].
  destruct (normalization_invariant exact_sample H1 H2 H3)
    as (self' & Hrun & _ & _ & Hmean & _).
  exists self'. now split.
Defined.

(** * Further properties of [simulation.py] *)

(** ** How a run ends *)

Lemma range_head (n : Z) :
  (1 <= n)%Z -> exists l, range n = 0%Z :: l.
Proof.
  intros Hn. unfold range.
  destruct (Z.to_nat n) as [| k] eqn:E; [lia |].
  cbn [seq map]. eauto.
Qed.

Section Outcome.

Context {num : Type} `{Arith num}.
Local Open Scope num_scope.

Variable self : OffNetSimulator num.
Variable compute_aws : bool.

Let p := params self.
Let T := time_horizon_days p.

(** The first iteration divides by the number of rows. *)
Lemma simulate_days_no_rows :
  (1 <= T)%Z -> user_data self = [] ->
  simulate_days self compute_aws = Raise ZeroDivisionError.
Proof.
  intros HT Hdata. unfold simulate_days. fold p. fold T.
  destruct (range_head HT) as [l ->].
  cbn [for_each]. unfold loop_body at 1.
  cbn [self_ initial_frame]. rewrite Hdata. reflexivity.
Qed.

(** With rows, the first iteration gets as far as the lifecycle test. *)
Lemma simulate_days_no_lifecycle :
  (1 <= T)%Z -> user_data self <> [] ->
  hardware_life_cycle_years p = 0%Z ->
  simulate_days self compute_aws = Raise ZeroDivisionError.
Proof.
  intros HT Hdata Hyears. unfold simulate_days. fold p. fold T.
  destruct (range_head HT) as [l ->].
  cbn [for_each]. unfold loop_body at 1.
  cbn [self_ initial_frame].
  rewrite py_mod_nonzero
    by (destruct (user_data self); [contradiction | cbn [length]; lia]).
  cbn [bind].
  rewrite !(loc_in_range _ _ {| num_users := of_int 0; num_requests := of_int 0 |})
    by apply (day_index_in_range self Hdata).
  cbn [bind].
  destruct (day_costs _ _ _) as [[bw on] off].
  unfold lifecycle. rewrite Hyears. reflexivity.
Qed.

(** The three ways a run can end, by its inputs. *)
Lemma run_simulation_cases :
  ((T <= 0)%Z /\ run_simulation self compute_aws = Raise IndexError)
  \/ ((1 <= T)%Z /\ (user_data self = [] \/ hardware_life_cycle_years p = 0%Z)
      /\ run_simulation self compute_aws = Raise ZeroDivisionError)
  \/ ((1 <= T)%Z /\ user_data self <> [] /\ hardware_life_cycle_years p <> 0%Z
      /\ exists total_on_net total_off_net,
           iloc_last (On_Net_Cost (timeline_of self compute_aws))
           = Ok total_on_net
           /\ iloc_last (Off_Net_Cost (timeline_of self compute_aws))
              = Ok total_off_net
           /\ run_simulation self compute_aws
              = Ok (results_of self compute_aws total_on_net total_off_net)).
Proof.
  destruct (Z_le_gt_dec T 0) as [HT | HT].
  - left. split; [exact HT |].
    unfold run_simulation, simulate_days. fold p. fold T.
    rewrite range_nonpositive by exact HT. cbn [for_each bind].
    now apply finish_nonpositive with
      (a := upfront_hardware_cost_on_net p)
      (b := upfront_hardware_cost_off_net p).
  - assert (HT1 : (1 <= T)%Z) by lia. right.
    destruct (user_data self) as [| r data] eqn:Hdata.
    { left. split; [exact HT1 | split; [now left |]].
      unfold run_simulation.
      now rewrite (simulate_days_no_rows HT1 Hdata). }
    assert (Hne : user_data self <> []) by (rewrite Hdata; discriminate).
    destruct (Z.eq_dec (hardware_life_cycle_years p) 0) as [Hy | Hy].
    { left. split; [exact HT1 | split; [now right |]].
      unfold run_simulation.
      now rewrite (simulate_days_no_lifecycle HT1 Hne Hy). }
    right. split; [exact HT1 |]. split; [discriminate |].
    split; [exact Hy |].
    apply (run_simulation_returns self compute_aws Hne Hy HT1).
Qed.

(** A run that returns had a positive horizon, rows and a lifecycle, and
    returned the closed form. *)
Lemma run_simulation_inv (res : SimulationResults num) :
  run_simulation self compute_aws = Ok res ->
  (1 <= T)%Z /\ user_data self <> [] /\ hardware_life_cycle_years p <> 0%Z
  /\ exists total_on_net total_off_net,
       iloc_last (On_Net_Cost (timeline_of self compute_aws)) = Ok total_on_net
       /\ iloc_last (Off_Net_Cost (timeline_of self compute_aws))
          = Ok total_off_net
       /\ res = results_of self compute_aws total_on_net total_off_net.
Proof.
  intros Hrun.
  destruct run_simulation_cases
    as [[_ E] | [(_ & _ & E) | (HT & Hdata & Hy & on & off & Hon & Hoff & E)]];
    try congruence.
  repeat (split; [assumption |]).
  exists on, off. repeat (split; [assumption |]). congruence.
Qed.

End Outcome.

(** X1.  A run returns exactly when the horizon is at least one day, the
    dataset has a row and the lifecycle is not zero years.  It raises
    [IndexError] exactly when the horizon is zero or negative, and
    [ZeroDivisionError] exactly when the horizon is positive and the dataset
    is empty or the lifecycle is zero years.  It raises nothing else. *)
Theorem run_simulation_outcome
    {num : Type} `{Arith num} (self : OffNetSimulator num) (compute_aws : bool) :
  let p := params self in
  let T := time_horizon_days p in
  ((exists res, run_simulation self compute_aws = Ok res)
   <-> (1 <= T)%Z /\ user_data self <> []
       /\ hardware_life_cycle_years p <> 0%Z)
  /\ (run_simulation self compute_aws = Raise IndexError <-> (T <= 0)%Z)
  /\ (run_simulation self compute_aws = Raise ZeroDivisionError
      <-> (1 <= T)%Z
          /\ (user_data self = [] \/ hardware_life_cycle_years p = 0%Z))
  /\ run_simulation self compute_aws <> Raise KeyError
  /\ run_simulation self compute_aws <> Raise ValueError.
Proof.
  intros p T.
  destruct (run_simulation_cases self compute_aws)
    as [[HT E] | [(HT & Hbad & E) | (HT & Hdata & Hy & on & off & _ & _ & E)]];
    fold p in HT, E; fold T in HT; rewrite E; try fold p in Hbad;
    try fold p in Hy;
    repeat match goal with |- _ /\ _ => split | |- _ <-> _ => split end;
    intros;
    repeat match goal with
           | Hx : exists _, _ |- _ => destruct Hx
           | Hx : _ /\ _ |- _ => destruct Hx
           | Hx : _ \/ _ |- _ => destruct Hx
           end;
    try discriminate; try lia; try contradiction; try congruence;
    try (split; [assumption |]); try tauto; eauto.
Qed.

(** ** The timeline of a run that returns *)

Section Shape.

Context {num : Type} `{Arith num}.
Local Open Scope num_scope.

Lemma one_mod_lifecycle (years : Z) :
  years <> 0%Z -> (1 mod (years * 365) <> 0)%Z.
Proof.
  intros Hy E. apply Z.mod_divide in E; [| lia].
  apply Z.divide_1_r in E. lia.
Qed.

Lemma firstn_cumsum_from (n : nat) (acc : num) (l : list num) :
  firstn n (cumsum_from acc l) = cumsum_from acc (firstn n l).
Proof.
  revert acc l. induction n as [| n IH]; intros acc [| a l]; cbn; auto.
  now rewrite IH.
Qed.

Lemma firstn_cumsum (n : nat) (l : list num) :
  firstn n (cumsum l) = cumsum (firstn n l).
Proof.
  destruct n as [| n], l as [| a l]; cbn; auto.
  now rewrite firstn_cumsum_from.
Qed.

Lemma firstn_seq_min (n start len : nat) :
  firstn n (seq start len) = seq start (Nat.min n len).
Proof.
  revert start len. induction n as [| n IH]; intros start [| len]; cbn; auto.
  now rewrite IH.
Qed.

Lemma firstn_range (n m : Z) :
  (n <= m)%Z -> firstn (Z.to_nat n) (range m) = range n.
Proof.
  intros Hnm. unfold range. rewrite firstn_map, firstn_seq_min.
  now rewrite Nat.min_l by lia.
Qed.

Lemma firstn_range_from (a n m : Z) :
  (n <= m)%Z ->
  firstn (Z.to_nat (n - a)) (range_from a m) = range_from a n.
Proof.
  intros Hnm. unfold range_from. rewrite firstn_map, firstn_seq_min.
  now rewrite Nat.min_l by lia.
Qed.

End Shape.

(** X2.  The timeline of a run that returns has one row per day of the
    horizon, in every column, and its Day column counts 1, 2, ..., T. *)
Theorem timeline_has_one_row_per_day
    {num : Type} `{Arith num} (self : OffNetSimulator num) (compute_aws : bool)
    (res : SimulationResults num) :
  let T := time_horizon_days (params self) in
  let t := timeline res in
  run_simulation self compute_aws = Ok res ->
  (1 <= T)%Z
  /\ length (Day t) = Z.to_nat T
  /\ length (On_Net_Cost t) = Z.to_nat T
  /\ length (Off_Net_Cost t) = Z.to_nat T
  /\ length (Sent_Requests t) = Z.to_nat T
  /\ length (Sent_Data_Volume_GB t) = Z.to_nat T
  /\ length (Active_Users t) = Z.to_nat T
  /\ forall i : nat,
       (i < Z.to_nat T)%nat -> nth_error (Day t) i = Some (Z.of_nat i + 1)%Z.
Proof.
  intros T t Hrun. subst t.
  apply run_simulation_inv in Hrun
    as (HT & _ & _ & on & off & _ & _ & ->).
  fold T in HT. split; [exact HT |].
  cbn [timeline results_of timeline_of Day On_Net_Cost Off_Net_Cost
       Sent_Requests Sent_Data_Volume_GB Active_Users].
  fold T.
  rewrite !length_cumsum, !length_map, length_range, length_range_from.
  replace (T + 1 - 1)%Z with T by lia.
  repeat (split; [reflexivity |]).
  intros i Hi. rewrite nth_error_range_from by lia. f_equal. lia.
Qed.

(** X3.  In a run that returns, the row of Day 1 shows the two upfront
    hardware costs and nothing else, whatever the traffic of that day and
    the mode. *)
Theorem first_row_is_the_upfront_cost
    {num : Type} `{Arith num} (self : OffNetSimulator num) (compute_aws : bool)
    (res : SimulationResults num) :
  run_simulation self compute_aws = Ok res ->
  nth_error (On_Net_Cost (timeline res)) 0
  = Some (upfront_hardware_cost_on_net (params self))
  /\ nth_error (Off_Net_Cost (timeline res)) 0
     = Some (upfront_hardware_cost_off_net (params self)).
Proof.
  intros Hrun.
  apply run_simulation_inv in Hrun
    as (HT & _ & Hy & on & off & _ & _ & ->).
  cbn [timeline results_of timeline_of On_Net_Cost Off_Net_Cost].
  destruct (range_head HT) as [l ->]. cbn [map cumsum nth_error].
  unfold on_net_charged, off_net_charged, refresh.
  replace (0 + 1)%Z with 1%Z by lia.
  destruct (Z.eqb_spec (1 mod (hardware_life_cycle_years (params self) * 365)) 0)
    as [E | _]; [now apply one_mod_lifecycle in E |].
  now split.
Qed.

(** X4.  In a run that returns, every row's Sent Data Volume (GB) is that
    row's Sent Requests times [avg_request_size_kb / 1_048_576]. *)
Theorem data_volume_follows_requests
    {num : Type} `{Arith num} (self : OffNetSimulator num) (compute_aws : bool)
    (res : SimulationResults num) :
  run_simulation self compute_aws = Ok res ->
  Sent_Data_Volume_GB (timeline res)
  = map (fun requests =>
           (requests * (avg_request_size_kb (params self) / of_int 1048576))%num)
        (Sent_Requests (timeline res)).
Proof.
  intros Hrun.
  apply run_simulation_inv in Hrun as (_ & _ & _ & on & off & _ & _ & ->).
  cbn [timeline results_of timeline_of Sent_Data_Volume_GB Sent_Requests].
  now rewrite map_map.
Qed.

(** X5.  What a run that returns reports beside the timeline.  In Canvas
    mode both AWS figures are [0.0] and the recommendation is one of the two
    fixed sentences.  In AWS mode the required bandwidth is the first result
    of [compute_aws_bandwidth], the monthly link cost is that bandwidth
    times [transfer_link_cost_per_gbps], and the recommendation prints these
    two numbers. *)
Theorem reported_figures_by_mode
    {num : Type} `{Arith num} (self : OffNetSimulator num) (compute_aws : bool)
    (res : SimulationResults num) :
  run_simulation self compute_aws = Ok res ->
  if compute_aws then
    required_bandwidth_gbps res = fst (compute_aws_bandwidth self)
    /\ aws_transfer_link_cost res
       = (required_bandwidth_gbps res
          * transfer_link_cost_per_gbps (params self))%num
    /\ final_recommendation res
       = Bandwidth_text (required_bandwidth_gbps res)
                        (aws_transfer_link_cost res)
  else
    required_bandwidth_gbps res = of_int 0
    /\ aws_transfer_link_cost res = of_int 0
    /\ (final_recommendation res = Text off_net_text
        \/ final_recommendation res = Text on_net_text).
Proof.
  intros Hrun.
  apply run_simulation_inv in Hrun as (_ & _ & _ & on & off & _ & _ & ->).
  destruct compute_aws;
    cbn [required_bandwidth_gbps aws_transfer_link_cost final_recommendation
         results_of].
  - repeat split.
  - repeat split. destruct (ltb off on); [now left | now right].
Qed.

(** X6.  Lengthening the horizon leaves the earlier rows as they are: over
    the same dataset and with the same other parameters, the timeline of a
    [T]-day run is the first [T] rows of the timeline of any longer run. *)
Theorem longer_horizon_extends_timeline
    {num : Type} `{Arith num} (self : OffNetSimulator num) (compute_aws : bool)
    (T T' : Z) :
  (1 <= T <= T')%Z ->
  user_data self <> [] ->
  hardware_life_cycle_years (params self) <> 0%Z ->
  exists res res',
    run_simulation (with_horizon self T) compute_aws = Ok res
    /\ run_simulation (with_horizon self T') compute_aws = Ok res'
    /\ Day (timeline res) = firstn (Z.to_nat T) (Day (timeline res'))
    /\ On_Net_Cost (timeline res)
       = firstn (Z.to_nat T) (On_Net_Cost (timeline res'))
    /\ Off_Net_Cost (timeline res)
       = firstn (Z.to_nat T) (Off_Net_Cost (timeline res'))
    /\ Sent_Requests (timeline res)
       = firstn (Z.to_nat T) (Sent_Requests (timeline res'))
    /\ Sent_Data_Volume_GB (timeline res)
       = firstn (Z.to_nat T) (Sent_Data_Volume_GB (timeline res'))
    /\ Active_Users (timeline res)
       = firstn (Z.to_nat T) (Active_Users (timeline res')).
Proof.
  intros [HT HTT'] Hdata Hy.
  destruct (run_simulation_returns (with_horizon self T) compute_aws)
    as (on & off & _ & _ & Hrun); [assumption | assumption | cbn; lia |].
  destruct (run_simulation_returns (with_horizon self T') compute_aws)
    as (on' & off' & _ & _ & Hrun'); [assumption | assumption | cbn; lia |].
  eexists. eexists. split; [exact Hrun |]. split; [exact Hrun' |].
  cbn [timeline results_of timeline_of Day On_Net_Cost Off_Net_Cost
       Sent_Requests Sent_Data_Volume_GB Active_Users].
  cbn [with_horizon params time_horizon_days hardware_life_cycle_years].
  rewrite !firstn_cumsum, !firstn_map, (firstn_range HTT').
  replace (Z.to_nat T) with (Z.to_nat (T + 1 - 1)) at 1 by lia.
  rewrite firstn_range_from by lia.
  repeat split.
Qed.

(** ** Normalization and what follows it, in exact arithmetic *)

Lemma adjust_dataset_scale_rows
    {num : Type} `{Arith num} (self : OffNetSimulator num) :
  fits (avg_num_users (params self)) = true ->
  adjust_dataset self
  = Ok {| params := params self;
          user_data :=
            scale_rows (of_int (avg_num_users (params self))
                        / mean (map num_users (user_data self)))%num
                       (user_data self) |}.
Proof. intros Hfits. unfold adjust_dataset, to_float. now rewrite Hfits. Qed.

Section Exact_normalization.

Local Open Scope Qc_scope.

Lemma Qc_mean_users_scaled (f : Qc) (data : list (Row Qc)) :
  mean (map num_users (scale_rows f data)) = mean (map num_users data) * f.
Proof.
  unfold scale_rows. rewrite map_map. cbn [num_users].
  now rewrite <- (map_map num_users (fun x => mul x f)), Qc_mean_scale.
Qed.

Lemma Qc_sum_requests_scaled (f : Qc) (data : list (Row Qc)) :
  sum (map num_requests (scale_rows f data))
  = sum (map num_requests data) * f.
Proof.
  unfold scale_rows. rewrite map_map. cbn [num_requests].
  now rewrite <- (map_map num_requests (fun x => mul x f)), Qc_sum_scale.
Qed.

Lemma Qc_scale_rows_twice (f g : Qc) (data : list (Row Qc)) :
  scale_rows g (scale_rows f data) = scale_rows (f * g) data.
Proof.
  unfold scale_rows. rewrite map_map. apply map_ext. intros r.
  cbn [num_users num_requests mul Qc_arith]. f_equal; ring.
Qed.

End Exact_normalization.

(** X7.  In exact arithmetic, normalizing a dataset that was already
    normalized forgets the earlier target: over a non-empty dataset with a
    positive mean user count, normalizing to a positive target and then to
    a second one gives the rows that normalizing to the second one directly
    gives.  With twice the same parameters the second normalization changes
    nothing. *)
Theorem renormalizing_forgets_the_first_target
    (p1 p2 : SimulationParameters Qc) (data : list (Row Qc)) :
  data <> [] ->
  (0 < mean (map num_users data))%Qc ->
  (0 < avg_num_users p1)%Z ->
  exists once twice direct,
    init p1 data = Ok once
    /\ init p2 (user_data once) = Ok twice
    /\ init p2 data = Ok direct
    /\ user_data twice = user_data direct
    /\ init p1 (user_data once) = Ok once.
Proof.
  intros Hdata Hmean Htarget.
  assert (Hm : mean (map num_users data) <> 0%Qc).
  { intros E. apply (Qclt_not_eq _ _ Hmean). now symmetry. }
  assert (Ht : of_int (num:=Qc) (avg_num_users p1) <> 0%Qc)
    by (apply Qc_of_int_nonzero; lia).
  set (f1 := (of_int (avg_num_users p1) / mean (map num_users data))%num).
  assert (Hagain : forall p : SimulationParameters Qc,
    init p (scale_rows f1 data)
    = Ok {| params := p;
            user_data :=
              scale_rows (of_int (avg_num_users p)
                          / mean (map num_users data))%num data |}).
  { intros p. unfold init. rewrite adjust_dataset_scale_rows by reflexivity.
    cbn [params user_data].
    rewrite Qc_mean_users_scaled, Qc_scale_rows_twice.
    do 3 f_equal. subst f1. cbn [div Qc_arith]. field. auto. }
  exists {| params := p1; user_data := scale_rows f1 data |}.
  eexists. eexists.
  split; [reflexivity |]. cbn [user_data].
  split; [apply Hagain |]. split; [reflexivity |].
  split; [reflexivity |]. apply Hagain.
Qed.

(** X8.  In exact arithmetic, over a dataset whose mean user count is not
    zero, normalization multiplies both results of [compute_aws_bandwidth]
    by the normalization factor [avg_num_users / mean(num_users)]. *)
Theorem bandwidth_scales_with_normalization (self : OffNetSimulator Qc) :
  let factor :=
    (of_int (avg_num_users (params self))
     / mean (map num_users (user_data self)))%num in
  mean (map num_users (user_data self)) <> 0%Qc ->
  exists self',
    adjust_dataset self = Ok self'
    /\ fst (compute_aws_bandwidth self')
       = (fst (compute_aws_bandwidth self) * factor)%Qc
    /\ snd (compute_aws_bandwidth self')
       = (snd (compute_aws_bandwidth self) * factor)%Qc.
Proof.
  intros factor _. eexists.
  split; [now apply adjust_dataset_scale_rows |].
  unfold compute_aws_bandwidth. cbn [fst snd params user_data].
  fold factor. rewrite Qc_sum_requests_scaled.
  cbn [mul div Qc_arith]. unfold Qcdiv. split; ring.
Qed.

(** ** Row after row *)

Section Increments.

Context {num : Type} `{Arith num}.
Local Open Scope num_scope.

Lemma nth_error_cumsum_from_S (acc : num) (l : list num) (i : nat) (a b : num) :
  nth_error (cumsum_from acc l) i = Some a ->
  nth_error (cumsum_from acc l) (S i) = Some b ->
  exists e, nth_error l (S i) = Some e /\ b = a + e.
Proof.
  revert acc l. induction i as [| i IH]; intros acc [| x l]; cbn;
    try discriminate.
  - destruct l as [| y l]; cbn; [discriminate |].
    intros [= <-] [= <-]. eauto.
  - intros Ha Hb. apply (IH _ _ Ha Hb).
Qed.

(** Each running sum is the one before it plus the next item. *)
Lemma nth_error_cumsum_S (l : list num) (i : nat) (a b : num) :
  nth_error (cumsum l) i = Some a ->
  nth_error (cumsum l) (S i) = Some b ->
  exists e, nth_error l (S i) = Some e /\ b = a + e.
Proof.
  destruct l as [| x l]; [destruct i; discriminate |].
  cbn [cumsum]. destruct i as [| i]; cbn [nth_error].
  - destruct l as [| y l]; cbn; [discriminate |].
    intros [= <-] [= <-]. eauto.
  - apply nth_error_cumsum_from_S.
Qed.

Lemma item_succ (self : OffNetSimulator num) (compute_aws : bool) (i : nat) :
  on_net_item self compute_aws (Z.of_nat (S i))
  = on_net_daily_cost self compute_aws (Z.of_nat i)
  /\ off_net_item self (Z.of_nat (S i)) = off_net_daily_cost self (Z.of_nat i).
Proof.
  unfold on_net_item, off_net_item.
  destruct (Z.eqb_spec (Z.of_nat (S i)) 0) as [E | _]; [lia |].
  replace (Z.of_nat (S i) - 1)%Z with (Z.of_nat i) by lia. now split.
Qed.

End Increments.

(** X9.  In a run that returns, each row after the first adds to the row
    before it the daily cost of the day before: the row of Day [i + 2] is
    the row of Day [i + 1] plus the daily cost of day [i + 1], and plus the
    upfront hardware cost when [(i + 2) mod (years * 365) = 0].  The cost of
    a day therefore first shows in the row of the following day. *)
Theorem each_row_adds_the_previous_day
    {num : Type} `{Arith num} (self : OffNetSimulator num) (compute_aws : bool)
    (res : SimulationResults num) (i : nat) (on on' off off' : num) :
  let p := params self in
  let L := (hardware_life_cycle_years p * 365)%Z in
  let day := Z.of_nat i in
  run_simulation self compute_aws = Ok res ->
  nth_error (On_Net_Cost (timeline res)) i = Some on ->
  nth_error (On_Net_Cost (timeline res)) (S i) = Some on' ->
  nth_error (Off_Net_Cost (timeline res)) i = Some off ->
  nth_error (Off_Net_Cost (timeline res)) (S i) = Some off' ->
  on' = (on + (if ((day + 2) mod L =? 0)%Z
               then on_net_daily_cost self compute_aws day
                    + upfront_hardware_cost_on_net p
               else on_net_daily_cost self compute_aws day))%num
  /\ off' = (off + (if ((day + 2) mod L =? 0)%Z
                    then off_net_daily_cost self day
                         + upfront_hardware_cost_off_net p
                    else off_net_daily_cost self day))%num.
Proof.
  intros p L day Hrun Hon Hon' Hoff Hoff'.
  apply run_simulation_inv in Hrun as (HT & _ & _ & t1 & t2 & _ & _ & ->).
  cbn [timeline results_of timeline_of On_Net_Cost Off_Net_Cost]
    in Hon, Hon', Hoff, Hoff'.
  fold p in Hon, Hon', Hoff, Hoff'. fold L in Hon, Hon', Hoff, Hoff'.
  destruct (nth_error_cumsum_S _ _ Hon Hon') as (e & He & ->).
  destruct (nth_error_cumsum_S _ _ Hoff Hoff') as (e' & He' & ->).
  assert (Hi : (S i < Z.to_nat (time_horizon_days p))%nat).
  { assert (Hlen : (S i < length (map (on_net_charged self compute_aws L)
                                        (range (time_horizon_days p))))%nat)
      by (apply nth_error_Some; congruence).
    now rewrite length_map, length_range in Hlen. }
  rewrite nth_error_map, nth_error_range in He, He' by exact Hi.
  cbn [option_map] in He, He'. injection He as <-. injection He' as <-.
  unfold on_net_charged, off_net_charged, refresh. fold p.
  change (Z.pos (Pos.of_succ_nat i)) with (Z.of_nat (S i)).
  destruct (item_succ self compute_aws i) as [-> ->]. subst day.
  replace (Z.of_nat (S i) + 1)%Z with (Z.of_nat i + 2)%Z by lia.
  now split.
Qed.

(** ** Cumulative costs in exact arithmetic *)

Section Exact_costs.

Local Open Scope Qc_scope.

Lemma Qc_sum_nil : sum (@nil Qc) = 0.
Proof. reflexivity. Qed.

Lemma Qc_sum_app (l l' : list Qc) : sum (l ++ l') = sum l + sum l'.
Proof. rewrite !Qc_sum_fold. apply Qc_fold_app. Qed.

Lemma Qc_sum_one (x : Qc) : sum [x] = x.
Proof. rewrite Qc_sum_fold, Qc_fold_cons. cbn [fold_left]. ring. Qed.

Lemma Qc_of_int_add (a b : Z) :
  of_int (num:=Qc) (a + b) = of_int a + of_int b.
Proof.
  cbn [of_int Qc_arith]. apply Qc_is_canon.
  cbn [this Qcplus Q2Qc]. rewrite !Qred_correct.
  unfold Qeq. cbn. ring.
Qed.

Lemma Qc_cumsum_from_nth (acc : Qc) (l : list Qc) (i : nat) :
  (i < length l)%nat ->
  nth_error (cumsum_from acc l) i = Some (acc + sum (firstn (S i) l)).
Proof.
  revert acc l. induction i as [| i IH]; intros acc [| x l] Hi;
    cbn [length] in Hi; try lia.
  - cbn [cumsum_from nth_error firstn]. now rewrite Qc_sum_one.
  - cbn [cumsum_from nth_error]. rewrite IH by lia.
    change (firstn (S (S i)) (x :: l)) with ([x] ++ firstn (S i) l).
    rewrite Qc_sum_app, Qc_sum_one. cbn [add Qc_arith]. f_equal. ring.
Qed.

(** In exact arithmetic a running sum is the sum of the items so far. *)
Lemma Qc_cumsum_nth (l : list Qc) (i : nat) :
  (i < length l)%nat ->
  nth_error (cumsum l) i = Some (sum (firstn (S i) l)).
Proof.
  destruct l as [| x l]; cbn [length]; [lia |]. intros Hi.
  destruct i as [| i]; cbn [cumsum nth_error].
  - cbn [firstn]. now rewrite Qc_sum_one.
  - rewrite Qc_cumsum_from_nth by lia.
    change (firstn (S (S i)) (x :: l)) with ([x] ++ firstn (S i) l).
    now rewrite Qc_sum_app, Qc_sum_one.
Qed.

Variable self : OffNetSimulator Qc.
Variable compute_aws : bool.
Variable L : Z.

Let p := params self.

Lemma refresh_count_S (k : nat) :
  refresh_count L (Z.of_nat (S k))
  = (refresh_count L (Z.of_nat k)
     + (if refresh L (Z.of_nat k) then 1 else 0))%Z.
Proof.
  unfold refresh_count. rewrite range_S, filter_app, length_app.
  cbn [filter]. destruct (refresh L (Z.of_nat k)); cbn [length]; lia.
Qed.

(** The items of the first [k] days: the seed and the daily costs of all but
    the last of them. *)
Lemma Qc_sum_items (k : nat) :
  sum (map (on_net_item self compute_aws) (range (Z.of_nat (S k))))
  = upfront_hardware_cost_on_net p
    + sum (map (on_net_daily_cost self compute_aws) (range (Z.of_nat k)))
  /\ sum (map (off_net_item self) (range (Z.of_nat (S k))))
     = upfront_hardware_cost_off_net p
       + sum (map (off_net_daily_cost self) (range (Z.of_nat k))).
Proof.
  induction k as [| k [IHon IHoff]].
  - change (range (Z.of_nat 1)) with [0%Z].
    change (range (Z.of_nat 0)) with (@nil Z). cbn [map].
    rewrite !Qc_sum_one, Qc_sum_nil. unfold on_net_item, off_net_item.
    cbn [Z.eqb]. fold p. split; ring.
  - rewrite (range_S (S k)), !map_app, !Qc_sum_app, IHon, IHoff.
    rewrite (range_S k), !map_app, !Qc_sum_app. cbn [map].
    rewrite !Qc_sum_one.
    destruct (item_succ self compute_aws k) as [-> ->]. split; ring.
Qed.

(** The items as charged: the items, and one more upfront cost per refresh. *)
Lemma Qc_sum_charged (k : nat) :
  sum (map (on_net_charged self compute_aws L) (range (Z.of_nat k)))
  = sum (map (on_net_item self compute_aws) (range (Z.of_nat k)))
    + upfront_hardware_cost_on_net p * of_int (refresh_count L (Z.of_nat k))
  /\ sum (map (off_net_charged self L) (range (Z.of_nat k)))
     = sum (map (off_net_item self) (range (Z.of_nat k)))
       + upfront_hardware_cost_off_net p
         * of_int (refresh_count L (Z.of_nat k)).
Proof.
  induction k as [| k [IHon IHoff]].
  - change (range (Z.of_nat 0)) with (@nil Z). cbn [map].
    rewrite !Qc_sum_nil. change (refresh_count L (Z.of_nat 0)) with 0%Z.
    change (of_int (num:=Qc) 0) with 0. split; ring.
  - rewrite range_S, !map_app, !Qc_sum_app, IHon, IHoff, refresh_count_S.
    cbn [map]. rewrite !Qc_sum_one, Qc_of_int_add.
    unfold on_net_charged, off_net_charged. fold p.
    destruct (refresh L (Z.of_nat k)); cbn [add Qc_arith].
    + change (of_int (num:=Qc) 1) with 1. split; ring.
    + change (of_int (num:=Qc) 0) with 0. split; ring.
Qed.

End Exact_costs.

Lemma refresh_count_div (L : Z) (k : nat) :
  (0 < L)%Z -> refresh_count L (Z.of_nat k) = (Z.of_nat k / L)%Z.
Proof.
  intros HL. induction k as [| k IH].
  - reflexivity.
  - rewrite refresh_count_S, IH. unfold refresh.
    replace (Z.of_nat (S k)) with (Z.of_nat k + 1)%Z by lia.
    pose proof (Z.div_mod (Z.of_nat k) L ltac:(lia)) as Hk.
    pose proof (Z.mod_pos_bound (Z.of_nat k) L HL) as Hr.
    destruct (Z.eq_dec (Z.of_nat k mod L + 1) L) as [E | E].
    + assert (Hmod : ((Z.of_nat k + 1) mod L = 0)%Z).
      { symmetry. apply (Z.mod_unique _ _ (Z.of_nat k / L + 1)); lia. }
      rewrite Hmod. cbn [Z.eqb].
      apply (Z.div_unique _ _ _ 0); lia.
    + assert (Hmod : ((Z.of_nat k + 1) mod L = Z.of_nat k mod L + 1)%Z).
      { symmetry. apply (Z.mod_unique _ _ (Z.of_nat k / L)); lia. }
      rewrite Hmod.
      destruct (Z.eqb_spec (Z.of_nat k mod L + 1) 0); [lia |].
      apply (Z.div_unique _ _ _ (Z.of_nat k mod L + 1)); lia.
Qed.

(** X10.  In exact arithmetic, in a run that returns, the row of Day [k]
    shows the upfront hardware cost, once for day 0 and once more for every
    lifecycle refresh among days 1 to [k], plus the daily costs of days 1 to
    [k - 1]: the cost of day [k] itself is not in it.  With a positive
    lifecycle of [L] days the refreshes among days 1 to [k] are [k / L]. *)
Theorem exact_cumulative_cost
    (self : OffNetSimulator Qc) (compute_aws : bool)
    (res : SimulationResults Qc) (k : Z) :
  let p := params self in
  let L := (hardware_life_cycle_years p * 365)%Z in
  run_simulation self compute_aws = Ok res ->
  (1 <= k <= time_horizon_days p)%Z ->
  nth_error (On_Net_Cost (timeline res)) (Z.to_nat (k - 1))
  = Some (upfront_hardware_cost_on_net p * of_int (1 + refresh_count L k)
          + sum (map (on_net_daily_cost self compute_aws) (range (k - 1))))%Qc
  /\ nth_error (Off_Net_Cost (timeline res)) (Z.to_nat (k - 1))
     = Some (upfront_hardware_cost_off_net p * of_int (1 + refresh_count L k)
             + sum (map (off_net_daily_cost self) (range (k - 1))))%Qc
  /\ ((0 < L)%Z -> refresh_count L k = (k / L)%Z).
Proof.
  intros p L Hrun Hk.
  apply run_simulation_inv in Hrun as (HT & _ & _ & t1 & t2 & _ & _ & ->).
  cbn [timeline results_of timeline_of On_Net_Cost Off_Net_Cost].
  fold p. fold L.
  assert (Ek : k = Z.of_nat (S (Z.to_nat (k - 1)))) by lia.
  set (n := Z.to_nat (k - 1)) in *. clearbody n. subst k.
  replace (Z.of_nat (S n) - 1)%Z with (Z.of_nat n) by lia.
  rewrite !Qc_cumsum_nth by (rewrite length_map, length_range; lia).
  rewrite !firstn_map.
  replace (S n) with (Z.to_nat (Z.of_nat (S n))) at 1 3 by lia.
  rewrite (firstn_range (n:=Z.of_nat (S n)) (m:=time_horizon_days p)) by lia.
  destruct (Qc_sum_charged self compute_aws L (S n)) as [-> ->].
  destruct (Qc_sum_items self compute_aws n) as [-> ->].
  fold p. rewrite Qc_of_int_add.
  change (of_int (num:=Qc) 1) with 1%Qc.
  split; [f_equal; ring | split; [f_equal; ring |]].
  intros HL. now apply refresh_count_div.
Qed.

Section Exact_monotone.

Local Open Scope Qc_scope.

Lemma Qc_add_nonneg (x y : Qc) : 0 <= x -> 0 <= y -> 0 <= x + y.
Proof.
  intros Hx Hy. rewrite <- (Qcplus_0_l 0). now apply Qcplus_le_compat.
Qed.

Lemma Qc_mul_nonneg (x y : Qc) : 0 <= x -> 0 <= y -> 0 <= x * y.
Proof.
  intros Hx Hy. replace 0 with (0 * y) by ring.
  now apply Qcmult_le_compat_r.
Qed.

Lemma Qc_inv_nonneg (x : Qc) : 0 <= x -> 0 <= / x.
Proof.
  unfold Qcle. cbn [this Qcinv Q2Qc]. intros Hx.
  rewrite !Qred_correct. apply Qinv_le_0_compat. exact Hx.
Qed.

Lemma Qc_div_nonneg (x y : Qc) : 0 <= x -> 0 <= y -> 0 <= x / y.
Proof.
  intros Hx Hy. unfold Qcdiv. apply Qc_mul_nonneg; [exact Hx |].
  now apply Qc_inv_nonneg.
Qed.

Lemma Qc_of_int_nonneg (z : Z) : (0 <= z)%Z -> 0 <= of_int (num:=Qc) z.
Proof.
  intros Hz. unfold Qcle. cbn [of_int Qc_arith this Q2Qc].
  rewrite !Qred_correct. unfold Qle. cbn. lia.
Qed.

Lemma Qc_le_add_nonneg (a e : Qc) : 0 <= e -> a <= a + e.
Proof.
  intros He. rewrite <- (Qcplus_0_r a) at 1.
  apply Qcplus_le_compat; [apply Qcle_refl | exact He].
Qed.

Lemma Qc_sum_nonneg (l : list Qc) : Forall (fun x => 0 <= x) l -> 0 <= sum l.
Proof.
  induction l as [| x l IH]; intros Hl.
  - rewrite Qc_sum_nil. apply Qcle_refl.
  - change (x :: l) with ([x] ++ l). rewrite Qc_sum_app, Qc_sum_one.
    inversion Hl; subst. apply Qc_add_nonneg; auto.
Qed.

Variable self : OffNetSimulator Qc.
Variable compute_aws : bool.

Hypothesis inputs : nonnegative_inputs self.

Lemma requests_nonneg (d : Z) : 0 <= daily_requests_at self d.
Proof.
  destruct inputs as [_ Hrows]. unfold daily_requests_at, row_at.
  destruct (nth_in_or_default
              (Z.to_nat (d mod Z.of_nat (length (user_data self))))
              (user_data self)
              {| num_users := of_int 0; num_requests := of_int 0 |})
    as [Hin | ->].
  - now apply (proj1 (Forall_forall _ _) Hrows).
  - cbn [num_requests]. now apply Qc_of_int_nonneg.
Qed.

Lemma daily_costs_nonneg (d : Z) :
  0 <= on_net_daily_cost self compute_aws d
  /\ 0 <= off_net_daily_cost self d.
Proof.
  destruct inputs as [(Hkb & Hoff & Hon & Hhoff & Hhon & _ & _ & Hlink & Hsla)
                        Hrows].
  pose proof (requests_nonneg d) as Hreq.
  assert (Hsum : 0 <= sum (map num_requests (user_data self))).
  { apply Qc_sum_nonneg, Forall_map. exact Hrows. }
  unfold on_net_daily_cost, off_net_daily_cost, daily_data_volume_at,
    compute_aws_bandwidth.
  cbn [snd add mul div Qc_arith].
  split; [destruct compute_aws |];
    repeat first
      [ assumption
      | apply Qc_add_nonneg
      | apply Qc_mul_nonneg
      | apply Qc_div_nonneg
      | apply Qc_inv_nonneg
      | apply Qc_of_int_nonneg; lia ].
Qed.

Lemma charged_nonneg (L : Z) (i : nat) :
  0 <= on_net_charged self compute_aws L (Z.of_nat (S i))
  /\ 0 <= off_net_charged self L (Z.of_nat (S i)).
Proof.
  destruct inputs as [(_ & _ & _ & _ & _ & Hupoff & Hupon & _) _].
  destruct (daily_costs_nonneg (Z.of_nat i)) as [Hon Hoff].
  unfold on_net_charged, off_net_charged.
  destruct (item_succ self compute_aws i) as [-> ->].
  destruct (refresh L (Z.of_nat (S i))); cbn [add Qc_arith]; split;
    try assumption; now apply Qc_add_nonneg.
Qed.

End Exact_monotone.

(** X11.  In exact arithmetic, when no price, request size, SLA percentage
    or request count is negative, neither cumulative cost column of a run
    that returns ever decreases from one row to the next. *)
Theorem cumulative_costs_never_decrease
    (self : OffNetSimulator Qc) (compute_aws : bool)
    (res : SimulationResults Qc) :
  nonnegative_inputs self ->
  run_simulation self compute_aws = Ok res ->
  nondecreasing (On_Net_Cost (timeline res))
  /\ nondecreasing (Off_Net_Cost (timeline res)).
Proof.
  intros Hin Hrun.
  apply run_simulation_inv in Hrun as (HT & _ & _ & t1 & t2 & _ & _ & ->).
  cbn [timeline results_of timeline_of On_Net_Cost Off_Net_Cost].
  set (T := time_horizon_days (params self)) in *.
  set (L := (hardware_life_cycle_years (params self) * 365)%Z).
  split; intros i a b Ha Hb;
    destruct (nth_error_cumsum_S _ _ Ha Hb) as (e & He & ->);
    apply Qc_le_add_nonneg.
  - assert (Hi : (S i < length (map (on_net_charged self compute_aws L)
                                   (range T)))%nat)
      by (apply nth_error_Some; congruence).
    rewrite length_map, length_range in Hi.
    rewrite nth_error_map, nth_error_range in He by exact Hi.
    injection He as <-. apply (charged_nonneg compute_aws Hin L i).
  - assert (Hi : (S i < length (map (off_net_charged self L) (range T)))%nat)
      by (apply nth_error_Some; congruence).
    rewrite length_map, length_range in Hi.
    rewrite nth_error_map, nth_error_range in He by exact Hi.
    injection He as <-. apply (charged_nonneg compute_aws Hin L i).
Qed.

(** * Properties of the monthly simulator *)

Section Monthly_run.

Context {num : Type} `{Arith num} `{ArithMonthly num}.

Lemma find_range_first (f : Z -> bool) (n : nat) :
  match find f (range (Z.of_nat n)) with
  | Some d =>
      (0 <= d < Z.of_nat n)%Z /\ f d = true
      /\ forall d', (0 <= d' < d)%Z -> f d' = false
  | None => forall d', (0 <= d' < Z.of_nat n)%Z -> f d' = false
  end.
Proof.
  induction n as [| n IH].
  - cbn. intros d' Hd'. lia.
  - rewrite range_S.
    assert (Happ : forall l k,
      find f (l ++ [k])
      = match find f l with
        | Some x => Some x
        | None => if f k then Some k else None
        end).
    { induction l as [| x l IHl]; intros k; cbn [app find].
      - now destruct (f k).
      - destruct (f x); [reflexivity | apply IHl]. }
    rewrite Happ. destruct (find f (range (Z.of_nat n))) as [d |].
    + destruct IH as (Hd & Hfd & Hbefore). repeat split; auto; lia.
    + destruct (f (Z.of_nat n)) eqn:Hfn.
      * repeat split; auto; lia.
      * intros d' Hd'. destruct (Z.eq_dec d' (Z.of_nat n)) as [-> | Hne];
          [exact Hfn | apply IH; lia].
Qed.

Lemma combine_map_map {A B C : Type} (f : A -> B) (g : A -> C) (l : list A) :
  combine (map f l) (map g l) = map (fun a => (f a, g a)) l.
Proof. induction l as [| a l IH]; cbn; [| rewrite IH]; reflexivity. Qed.

Lemma select_map_map {A B : Type} (f : A -> bool) (g : A -> B) (l : list A) :
  Monthly.select (map f l) (map g l) = map g (filter f l).
Proof.
  unfold Monthly.select. rewrite combine_map_map.
  induction l as [| a l IH]; cbn; [reflexivity |].
  destruct (f a); cbn; now rewrite IH.
Qed.

Lemma existsb_map_id {A : Type} (f : A -> bool) (l : list A) :
  existsb (fun b => b) (map f l) = existsb f l.
Proof. induction l as [| a l IH]; cbn; [| rewrite IH]; reflexivity. Qed.

Lemma iloc_first_filter {A B : Type} (f : A -> bool) (g : A -> B) (l : list A) :
  iloc_first (map g (filter f l))
  = match find f l with
    | Some a => Ok (g a)
    | None => Raise IndexError
    end.
Proof.
  induction l as [| a l IH]; cbn; [reflexivity |].
  destruct (f a); cbn; [reflexivity | exact IH].
Qed.

Lemma existsb_find {A : Type} (f : A -> bool) (l : list A) :
  existsb f l = match find f l with Some _ => true | None => false end.
Proof.
  induction l as [| a l IH]; cbn; [reflexivity |].
  destruct (f a); cbn; [reflexivity | exact IH].
Qed.

Lemma range_from_1 (T : Z) :
  range_from 1 (T + 1) = map (fun d => (d + 1)%Z) (range T).
Proof.
  unfold range_from, range. rewrite map_map.
  replace (T + 1 - 1)%Z with T by lia. apply map_ext. intros i. lia.
Qed.

Variable self : Monthly.OffNetSimulator num.

Let T := Monthly.time_horizon_months (Monthly.params self).

(** The costs of every month before [k] are computed. *)
Let computed (k : Z) : Prop :=
  forall m, (0 <= m < k)%Z -> exists c, Monthly.month_costs self m = Ok c.

Lemma costs_at_ok (m : Z) (c : num * num) :
  Monthly.month_costs self m = Ok c -> Monthly.costs_at self m = c.
Proof. unfold Monthly.costs_at. now intros ->. Qed.

Lemma below_costs_at (m : Z) :
  (exists c, Monthly.month_costs self m = Ok c) ->
  Monthly.below self m
  = ltb (sub (fst (Monthly.costs_at self m)) (snd (Monthly.costs_at self m)))
        (of_int 0).
Proof.
  intros [[on off] Hc]. unfold Monthly.below, Monthly.costs_at.
  now rewrite Hc.
Qed.

(** Line 147 is the one statement of an iteration that can raise. *)
Lemma month_costs_raises (m : Z) (e : exn) :
  Monthly.month_costs self m = Raise e
  <-> Monthly.current_users self m = Raise e.
Proof.
  unfold Monthly.month_costs.
  destruct (Monthly.current_users self m); cbn [bind]; split; congruence.
Qed.

Lemma current_users_raises (m : Z) (e : exn) :
  let p := Monthly.params self in
  let base := (of_int 1 + Monthly.monthly_user_growth_rate p)%num in
  Monthly.current_users self m = Raise e
  <-> pow base m = Raise e
      \/ ((exists growth, pow base m = Ok growth)
          /\ fits (Monthly.base_user_count p) = false
          /\ e = OverflowError).
Proof.
  intros p base. unfold Monthly.current_users, to_float.
  fold p. fold base.
  destruct (pow base m) as [growth | e']; cbn [bind].
  - destruct (fits (Monthly.base_user_count p)); cbn [bind]; split.
    + discriminate.
    + intros [Hpow | (_ & Hfits & _)]; discriminate.
    + intros [= <-]. right. repeat split. now exists growth.
    + intros [Hpow | (_ & _ & ->)]; [discriminate | reflexivity].
  - split; [intros [= <-]; now left |].
    intros [Hpow | ((growth & Hpow) & _)]; [exact Hpow | discriminate].
Qed.

Lemma monthly_loop_ok (k : nat) :
  computed (Z.of_nat k) ->
  for_each (Monthly.loop_body self) (range (Z.of_nat k)) ([], [])
  = Ok (map (fun m => fst (Monthly.costs_at self m)) (range (Z.of_nat k)),
        map (fun m => snd (Monthly.costs_at self m)) (range (Z.of_nat k))).
Proof.
  induction k as [| k IH]; intros Hall; [reflexivity |].
  rewrite range_S, for_each_app, IH by (intros m Hm; apply Hall; lia).
  cbn [bind for_each].
  destruct (Hall (Z.of_nat k) ltac:(lia)) as [[on off] Hc].
  unfold Monthly.loop_body. rewrite Hc. cbn [bind fst snd].
  rewrite !map_app. cbn [map]. now erewrite costs_at_ok by exact Hc.
Qed.

Lemma monthly_loop_raises (k : nat) (d : Z) (e : exn) :
  (0 <= d < Z.of_nat k)%Z -> computed d ->
  Monthly.month_costs self d = Raise e ->
  for_each (Monthly.loop_body self) (range (Z.of_nat k)) ([], []) = Raise e.
Proof.
  induction k as [| k IH]; intros Hd Hall He; [lia |].
  rewrite range_S, for_each_app.
  destruct (Z.eq_dec d (Z.of_nat k)) as [-> | Hne].
  - rewrite monthly_loop_ok by exact Hall. cbn [bind for_each].
    unfold Monthly.loop_body. now rewrite He.
  - rewrite IH; [reflexivity | lia | exact Hall | exact He].
Qed.

(** Either every month before [k] is computed or there is a first one that
    is not. *)
Lemma monthly_months_cases (k : nat) :
  computed (Z.of_nat k)
  \/ exists d e,
       (0 <= d < Z.of_nat k)%Z /\ computed d
       /\ Monthly.month_costs self d = Raise e.
Proof.
  induction k as [| k IH]; [left; intros m Hm; lia |].
  destruct IH as [Hall | (d & e & Hd & Hbefore & He)].
  - destruct (Monthly.month_costs self (Z.of_nat k)) as [c | e] eqn:Hc.
    + left. intros m Hm.
      destruct (Z.eq_dec m (Z.of_nat k)) as [-> | Hne];
        [now exists c | apply Hall; lia].
    + right. exists (Z.of_nat k), e. repeat split; try lia; assumption.
  - right. exists d, e. repeat split; try lia; assumption.
Qed.

(** What the monthly run returns when every month is computed. *)
Lemma monthly_run_returns :
  computed T ->
  Monthly.run_simulation self
  = Ok {| Monthly.timeline :=
            {| Monthly.Month := range_from 1 (T + 1);
               Monthly.On_Net_Cost :=
                 map (fun m => fst (Monthly.costs_at self m)) (range T);
               Monthly.Off_Net_Cost :=
                 map (fun m => snd (Monthly.costs_at self m)) (range T) |};
          Monthly.break_even_month :=
            option_map (fun d => (d + 1)%Z)
                       (find (Monthly.below self) (range T));
          Monthly.final_recommendation :=
            match find (Monthly.below self) (range T) with
            | Some d => Monthly.cheaper_text (d + 1)
            | None => Monthly.never_text
            end |}.
Proof.
  intros Hall. unfold Monthly.run_simulation. fold T.
  assert (Hloop :
    for_each (Monthly.loop_body self) (range T) ([], [])
    = Ok (map (fun m => fst (Monthly.costs_at self m)) (range T),
          map (fun m => snd (Monthly.costs_at self m)) (range T))).
  { destruct (Z_le_gt_dec T 0) as [HT | HT].
    - now rewrite range_nonpositive.
    - rewrite <- (Z2Nat.id T) by lia. apply monthly_loop_ok.
      now rewrite Z2Nat.id by lia. }
  rewrite Hloop. cbn [bind]. unfold Monthly.DataFrame.
  rewrite !length_map, length_range, length_range_from.
  replace (T + 1 - 1)%Z with T by lia. rewrite Nat.eqb_refl.
  cbn [andb bind Monthly.On_Net_Cost Monthly.Off_Net_Cost Monthly.Month].
  unfold Monthly.column_sub. rewrite combine_map_map, !map_map. cbn [fst snd].
  rewrite (map_ext_in _ (Monthly.below self))
    by (intros m Hm; symmetry; apply below_costs_at, Hall;
        apply in_map_iff in Hm as (i & <- & Hi); apply in_seq in Hi; lia).
  rewrite existsb_map_id, existsb_find, range_from_1, select_map_map,
    iloc_first_filter.
  destruct (find (Monthly.below self) (range T)) as [d |]; reflexivity.
Qed.

(** The run raises what the first month that is not computed raises. *)
Lemma monthly_run_raises (d : Z) (e : exn) :
  (0 <= d < T)%Z -> computed d ->
  Monthly.month_costs self d = Raise e ->
  Monthly.run_simulation self = Raise e.
Proof.
  intros Hd Hall He. unfold Monthly.run_simulation. fold T.
  rewrite <- (Z2Nat.id T) by lia.
  rewrite (@monthly_loop_raises (Z.to_nat T) d e); [reflexivity | lia | | ];
    assumption.
Qed.

Lemma monthly_run_inv (res : Monthly.SimulationResults num) :
  Monthly.run_simulation self = Ok res -> computed T.
Proof.
  intros Hrun. destruct (Z_le_gt_dec T 0) as [HT | HT];
    [intros m Hm; lia |].
  destruct (monthly_months_cases (Z.to_nat T))
    as [Hall | (d & e & Hd & Hbefore & He)];
    rewrite Z2Nat.id in * by lia; [exact Hall |].
  rewrite (monthly_run_raises Hd Hbefore He) in Hrun. discriminate Hrun.
Qed.

End Monthly_run.

(** X12.  How the monthly run ends.  Nothing but line 147 can raise: the
    power, or the conversion of [base_user_count].  The run returns exactly
    when the costs of every month of the horizon are computed, and otherwise
    raises what the first month that fails raises.  A run that returns has
    one row per month of the horizon, numbered from 1, each row holding that
    month's own two costs, not a running total; with a horizon of zero or
    fewer months it returns a timeline without rows and no break-even
    month. *)
Theorem monthly_run_outcome
    {num : Type} `{Arith num} `{ArithMonthly num}
    (self : Monthly.OffNetSimulator num) :
  let p := Monthly.params self in
  let T := Monthly.time_horizon_months p in
  let run := Monthly.run_simulation self in
  let base := (of_int 1 + Monthly.monthly_user_growth_rate p)%num in
  let computed (k : Z) :=
    forall m, (0 <= m < k)%Z -> exists c, Monthly.month_costs self m = Ok c in
  ((exists res, run = Ok res) <-> computed T)
  /\ (forall e : exn,
        run = Raise e
        <-> exists d, (0 <= d < T)%Z /\ computed d
                      /\ Monthly.month_costs self d = Raise e)
  /\ (forall (m : Z) (e : exn),
        Monthly.month_costs self m = Raise e
        <-> pow base m = Raise e
            \/ ((exists growth, pow base m = Ok growth)
                /\ fits (Monthly.base_user_count p) = false
                /\ e = OverflowError))
  /\ (forall res,
        run = Ok res ->
        length (Monthly.Month (Monthly.timeline res)) = Z.to_nat T
        /\ length (Monthly.On_Net_Cost (Monthly.timeline res)) = Z.to_nat T
        /\ length (Monthly.Off_Net_Cost (Monthly.timeline res)) = Z.to_nat T
        /\ forall i : nat,
             (i < Z.to_nat T)%nat ->
             exists on off,
               Monthly.month_costs self (Z.of_nat i) = Ok (on, off)
               /\ nth_error (Monthly.Month (Monthly.timeline res)) i
                  = Some (Z.of_nat i + 1)%Z
               /\ nth_error (Monthly.On_Net_Cost (Monthly.timeline res)) i
                  = Some on
               /\ nth_error (Monthly.Off_Net_Cost (Monthly.timeline res)) i
                  = Some off)
  /\ ((T <= 0)%Z ->
      run = Ok {| Monthly.timeline :=
                    {| Monthly.Month := []; Monthly.On_Net_Cost := [];
                       Monthly.Off_Net_Cost := [] |};
                  Monthly.break_even_month := None;
                  Monthly.final_recommendation := Monthly.never_text |}).
Proof.
  intros p T run base computed. subst run.
  assert (Hcases : computed T
                   \/ exists d e, (0 <= d < T)%Z /\ computed d
                                  /\ Monthly.month_costs self d = Raise e).
  { destruct (Z_le_gt_dec T 0) as [HT | HT]; [left; intros m Hm; lia |].
    destruct (monthly_months_cases self (Z.to_nat T)) as [Hall | Hfail];
      rewrite Z2Nat.id in * by lia; [now left | now right]. }
  split; [| split; [| split; [| split]]].
  - split; [intros [res Hrun]; exact (monthly_run_inv self Hrun) |].
    intros Hall. eexists. now apply monthly_run_returns.
  - intros e. split.
    + intros Hrun. destruct Hcases as [Hall | (d & e' & Hd & Hbefore & He)].
      * rewrite (monthly_run_returns self Hall) in Hrun. discriminate Hrun.
      * rewrite (monthly_run_raises self Hd Hbefore He) in Hrun.
        injection Hrun as <-. now exists d.
    + intros (d & Hd & Hbefore & He).
      exact (monthly_run_raises self Hd Hbefore He).
  - intros m e. rewrite month_costs_raises. apply current_users_raises.
  - intros res Hrun. pose proof (monthly_run_inv self Hrun) as Hall.
    rewrite (monthly_run_returns self Hall) in Hrun. injection Hrun as <-.
    cbn [Monthly.timeline Monthly.Month Monthly.On_Net_Cost
         Monthly.Off_Net_Cost].
    fold p. fold T. rewrite !length_map, length_range, length_range_from.
    replace (T + 1 - 1)%Z with T by lia.
    repeat (split; [reflexivity |]).
    intros i Hi.
    assert (HiT : (0 <= Z.of_nat i < T)%Z) by lia.
    destruct (Hall (Z.of_nat i) HiT) as [[on off] Hc].
    exists on, off. split; [exact Hc |].
    rewrite !nth_error_map, nth_error_range, nth_error_range_from by lia.
    cbn [option_map]. erewrite costs_at_ok by exact Hc. cbn [fst snd].
    repeat split. f_equal. lia.
  - intros HT.
    assert (Hall : forall m, (0 <= m < T)%Z ->
                   exists c, Monthly.month_costs self m = Ok c)
      by (intros m Hm; lia).
    rewrite (monthly_run_returns self Hall).
    fold p. fold T. unfold range_from.
    rewrite range_nonpositive by exact HT.
    replace (Z.to_nat (T + 1 - 1)) with 0%nat by lia. reflexivity.
Qed.

(** X13.  The break-even month the monthly run reports is the first month
    whose on-net cost minus off-net cost is below zero, and the sentence
    names that month; when no month of the horizon is, it reports no month
    and the fixed sentence. *)
Theorem break_even_is_the_first_month_below
    {num : Type} `{Arith num} `{ArithMonthly num}
    (self : Monthly.OffNetSimulator num) (res : Monthly.SimulationResults num) :
  let T := Monthly.time_horizon_months (Monthly.params self) in
  Monthly.run_simulation self = Ok res ->
  match Monthly.break_even_month res with
  | Some m =>
      (1 <= m <= T)%Z
      /\ Monthly.below self (m - 1) = true
      /\ (forall m', (1 <= m' < m)%Z -> Monthly.below self (m' - 1) = false)
      /\ Monthly.final_recommendation res = Monthly.cheaper_text m
  | None =>
      (forall m', (1 <= m' <= T)%Z -> Monthly.below self (m' - 1) = false)
      /\ Monthly.final_recommendation res = Monthly.never_text
  end.
Proof.
  intros T Hrun. pose proof (monthly_run_inv self Hrun) as Hall.
  rewrite (monthly_run_returns self Hall) in Hrun. injection Hrun as <-.
  fold T.
  cbn [Monthly.break_even_month Monthly.final_recommendation].
  destruct (Z_le_gt_dec T 0) as [HT | HT].
  - rewrite range_nonpositive by exact HT. cbn. split; [| reflexivity].
    intros m' Hm'. lia.
  - pose proof (find_range_first (Monthly.below self) (Z.to_nat T)) as Hfind.
    rewrite Z2Nat.id in Hfind by lia.
    destruct (find (Monthly.below self) (range T)) as [d |]; cbn [option_map].
    + destruct Hfind as (Hd & Hbd & Hbefore).
      replace (d + 1 - 1)%Z with d by lia.
      repeat split; try lia; auto.
      intros m' Hm'. apply Hbefore. lia.
    + split; [| reflexivity]. intros m' Hm'. apply Hfind. lia.
Qed.

(** * Properties of the simulator of [v1Offnets.py] *)

Section V1_run.

Context {num : Type} `{Arith num} `{ArithRound num}.
Local Open Scope num_scope.

Lemma round_column_cases (l : list num) :
  (exists l', round_column l = Ok l' /\ length l' = length l
              /\ forall (i : nat) (x : num),
                   nth_error l i = Some x ->
                   exists n, round_int x = Some n /\ nth_error l' i = Some n)
  \/ (round_column l = Raise ValueError
      /\ exists x, In x l /\ round_int x = None).
Proof.
  unfold round_column.
  destruct (forallb _ l) eqn:Hall.
  - left. eexists. split; [reflexivity |]. split; [apply length_map |].
    intros i x Hx. rewrite forallb_forall in Hall.
    specialize (Hall x (nth_error_In _ _ Hx)).
    destruct (round_int x) as [n |] eqn:Hn; [| discriminate].
    exists n. split; [reflexivity |].
    rewrite nth_error_map, Hx. cbn [option_map]. now rewrite Hn.
  - right. split; [reflexivity |].
    assert (Hex : existsb (fun x => negb match round_int x with
                                         | Some _ => true
                                         | None => false
                                         end) l = true).
    { clear -Hall. induction l as [| x l IH]; cbn in *; [discriminate |].
      destruct (round_int x); cbn in *; auto. }
    apply existsb_exists in Hex as (x & Hx & Hr).
    exists x. split; [exact Hx |]. now destruct (round_int x).
Qed.

Lemma round_column_ok (l : list num) (l' : list Z) :
  round_column l = Ok l' -> forall x, In x l -> round_int x <> None.
Proof.
  unfold round_column. destruct (forallb _ l) eqn:Hall; [| discriminate].
  intros _ x Hx. rewrite forallb_forall in Hall. specialize (Hall x Hx).
  destruct (round_int x); [discriminate | discriminate Hall].
Qed.

Variable self : V1.OffNetSimulator num.
Variable compute_aws : bool.

Let p := V1.params self.
Let T := V1.time_horizon_days p.
Let gb : num := V1.avg_request_size_kb p / of_int 1048576.

Lemma v1_loop_body_no_rows (fr : V1.Frame num) (day : Z) :
  V1.user_data self = [] ->
  V1.loop_body compute_aws self gb fr day = Raise ZeroDivisionError.
Proof. intros Hdata. unfold V1.loop_body. now rewrite Hdata. Qed.

Lemma v1_loop_body_frame_after (k : nat) :
  V1.user_data self <> [] ->
  V1.loop_body compute_aws self gb
    (V1.frame_after compute_aws self (Z.of_nat k)) (Z.of_nat k)
  = Ok (V1.frame_after compute_aws self (Z.of_nat (S k))).
Proof.
  intros Hdata. unfold V1.loop_body.
  assert (Hlen : (0 < Z.of_nat (length (V1.user_data self)))%Z)
    by (destruct (V1.user_data self); [contradiction | cbn [length]; lia]).
  rewrite py_mod_nonzero by lia. cbn [bind].
  rewrite !(loc_in_range _ _ {| num_users := of_int 0; num_requests := of_int 0 |})
    by (apply Z.mod_pos_bound; lia).
  cbn [bind]. fold (V1.row_at self (Z.of_nat k)).
  change (num_requests (V1.row_at self (Z.of_nat k)) * gb)
    with (V1.daily_data_volume_at self (Z.of_nat k)).
  assert (Eon : V1.on_net_daily_cost compute_aws self (Z.of_nat k)
                = fst (V1.day_costs compute_aws self
                         (V1.daily_data_volume_at self (Z.of_nat k))))
    by reflexivity.
  assert (Eoff : V1.off_net_daily_cost compute_aws self (Z.of_nat k)
                 = snd (V1.day_costs compute_aws self
                          (V1.daily_data_volume_at self (Z.of_nat k))))
    by reflexivity.
  destruct (V1.day_costs compute_aws self
              (V1.daily_data_volume_at self (Z.of_nat k)))
    as [on off].
  cbn [fst snd] in Eon, Eoff. f_equal. unfold V1.frame_after.
  cbn [V1.on_net_costs V1.off_net_costs V1.sent_requests V1.sent_data_gb
       V1.active_users].
  rewrite range_S, !map_app. cbn [map]. now rewrite Eon, Eoff.
Qed.

Lemma v1_for_each_range (k : nat) :
  V1.user_data self <> [] ->
  for_each (V1.loop_body compute_aws self gb) (range (Z.of_nat k)) (V1.initial_frame (num:=num))
  = Ok (V1.frame_after compute_aws self (Z.of_nat k)).
Proof.
  intros Hdata. induction k as [| k IH]; [reflexivity |].
  rewrite range_S, for_each_app, IH. cbn [bind for_each].
  now rewrite v1_loop_body_frame_after.
Qed.

End V1_run.

Section V1_outcome.

Context {num : Type} `{Arith num} `{ArithRound num}.
Local Open Scope num_scope.

Variable self : V1.OffNetSimulator num.
Variable compute_aws : bool.

Let p := V1.params self.
Let T := V1.time_horizon_days p.
Let c_on := cumsum (map (V1.on_net_daily_cost compute_aws self) (range T)).
Let c_off := cumsum (map (V1.off_net_daily_cost compute_aws self) (range T)).
Let c_requests := map (fun d => num_requests (V1.row_at self d)) (range T).
Let c_volume := map (V1.daily_data_volume_at self) (range T).
Let c_users := map (fun d => num_users (V1.row_at self d)) (range T).

(** The four ways a run of the earlier simulator can end. *)
Lemma v1_run_cases :
  ((T <= 0)%Z /\ V1.run_simulation self compute_aws = Raise IndexError)
  \/ ((1 <= T)%Z /\ V1.user_data self = []
      /\ V1.run_simulation self compute_aws = Raise ZeroDivisionError)
  \/ ((1 <= T)%Z /\ V1.user_data self <> []
      /\ V1.run_simulation self compute_aws = Raise ValueError
      /\ exists x,
           round_int x = None
           /\ In x (c_on ++ c_off ++ c_requests ++ c_volume ++ c_users))
  \/ ((1 <= T)%Z /\ V1.user_data self <> []
      /\ exists on off requests volume users total_on_net total_off_net,
           round_column c_on = Ok on
           /\ round_column c_off = Ok off
           /\ round_column c_requests = Ok requests
           /\ round_column c_volume = Ok volume
           /\ round_column c_users = Ok users
           /\ iloc_last on = Ok total_on_net
           /\ iloc_last off = Ok total_off_net
           /\ V1.run_simulation self compute_aws
              = Ok {| V1.timeline :=
                        {| V1.Day := range_from 1 (T + 1);
                           V1.On_Net_Cost := on;
                           V1.Off_Net_Cost := off;
                           V1.Sent_Requests := requests;
                           V1.Sent_Data_Volume_GB := volume;
                           V1.Active_Users := users |};
                      V1.final_recommendation :=
                        if compute_aws
                        then Bandwidth_text
                               (fst (V1.compute_aws_bandwidth self))
                               (snd (V1.compute_aws_bandwidth self) * of_int 30)
                        else Text (if (total_off_net <? total_on_net)%Z
                                   then V1.off_net_text else V1.on_net_text);
                      V1.aws_transfer_link_cost :=
                        if compute_aws
                        then snd (V1.compute_aws_bandwidth self) * of_int 30
                        else of_int 0;
                      V1.required_bandwidth_gbps :=
                        if compute_aws
                        then fst (V1.compute_aws_bandwidth self)
                        else of_int 0 |}).
Proof.
  unfold V1.run_simulation.
  change (V1.time_horizon_days (V1.params self)) with T.
  destruct (Z_le_gt_dec T 0) as [HT | HT].
  { left. split; [exact HT |].
    rewrite range_nonpositive by exact HT. cbn [for_each bind].
    unfold V1.rounded_frame, range_from.
    replace (Z.to_nat (T + 1 - 1)) with 0%nat by lia. reflexivity. }
  assert (HT1 : (1 <= T)%Z) by lia. right.
  destruct (V1.user_data self) as [| r0 data] eqn:Hdata.
  { left. split; [exact HT1 |]. split; [reflexivity |].
    destruct (range_head HT1) as [l ->]. cbn [for_each].
    now rewrite v1_loop_body_no_rows. }
  assert (Hne : V1.user_data self <> []) by (rewrite Hdata; discriminate).
  rewrite <- Hdata. clear Hdata r0 data. right.
  pose proof (v1_for_each_range self compute_aws (Z.to_nat T) Hne) as Hloop.
  rewrite Z2Nat.id in Hloop by lia. rewrite Hloop. clear Hloop.
  cbn [bind V1.frame_after V1.on_net_costs V1.off_net_costs V1.sent_requests
       V1.sent_data_gb V1.active_users].
  fold c_on. fold c_off. fold c_requests. fold c_volume. fold c_users.
  unfold V1.rounded_frame.
  replace (length c_on) with (length (range_from 1 (T + 1)))
    by (subst c_on; rewrite length_cumsum, length_map, length_range,
          length_range_from; f_equal; lia).
  replace (length c_off) with (length (range_from 1 (T + 1)))
    by (subst c_off; rewrite length_cumsum, length_map, length_range,
          length_range_from; f_equal; lia).
  replace (length c_requests) with (length (range_from 1 (T + 1)))
    by (subst c_requests; rewrite length_map, length_range,
          length_range_from; f_equal; lia).
  replace (length c_volume) with (length (range_from 1 (T + 1)))
    by (subst c_volume; rewrite length_map, length_range,
          length_range_from; f_equal; lia).
  replace (length c_users) with (length (range_from 1 (T + 1)))
    by (subst c_users; rewrite length_map, length_range,
          length_range_from; f_equal; lia).
  rewrite Nat.eqb_refl. cbn [andb].
  assert (Hfail : forall c, (exists x, In x c /\ round_int x = None) ->
                  incl c (c_on ++ c_off ++ c_requests ++ c_volume ++ c_users) ->
                  exists x, round_int x = None
                    /\ In x (c_on ++ c_off ++ c_requests ++ c_volume ++ c_users)).
  { intros c (x & Hx & Hr) Hincl. exists x. split; [exact Hr | now apply Hincl]. }
  destruct (round_column_cases c_on) as [(on & -> & Hlon & _) | [-> Hbad]];
    cbn [bind];
    [| left; repeat (split; [assumption || reflexivity |]);
       apply (Hfail _ Hbad); intros x Hx; rewrite !in_app_iff; tauto].
  destruct (round_column_cases c_off) as [(off & -> & Hloff & _) | [-> Hbad]];
    cbn [bind];
    [| left; repeat (split; [assumption || reflexivity |]);
       apply (Hfail _ Hbad); intros x Hx; rewrite !in_app_iff; tauto].
  destruct (round_column_cases c_requests) as [(req & -> & _) | [-> Hbad]];
    cbn [bind];
    [| left; repeat (split; [assumption || reflexivity |]);
       apply (Hfail _ Hbad); intros x Hx; rewrite !in_app_iff; tauto].
  destruct (round_column_cases c_volume) as [(vol & -> & _) | [-> Hbad]];
    cbn [bind];
    [| left; repeat (split; [assumption || reflexivity |]);
       apply (Hfail _ Hbad); intros x Hx; rewrite !in_app_iff; tauto].
  destruct (round_column_cases c_users) as [(users & -> & _) | [-> Hbad]];
    cbn [bind];
    [| left; repeat (split; [assumption || reflexivity |]);
       apply (Hfail _ Hbad); intros x Hx; rewrite !in_app_iff; tauto].
  right. split; [exact HT1 |]. split; [exact Hne |].
  cbn [V1.On_Net_Cost V1.Off_Net_Cost].
  destruct (@iloc_last_nonempty _ on) as [total_on Hon].
  { intros ->. subst c_on.
    rewrite length_cumsum, length_map, length_range in Hlon. cbn in Hlon. lia. }
  destruct (@iloc_last_nonempty _ off) as [total_off Hoff].
  { intros ->. subst c_off.
    rewrite length_cumsum, length_map, length_range in Hloff. cbn in Hloff. lia. }
  exists on, off, req, vol, users, total_on, total_off.
  repeat (split; [reflexivity || assumption |]).
  rewrite Hon, Hoff. cbn [bind].
  destruct compute_aws; [| reflexivity].
  now destruct (V1.compute_aws_bandwidth self).
Qed.

End V1_outcome.

(** X14.  How a run of the earlier simulator ends.  It raises [IndexError]
    exactly when the horizon is zero or negative and [ZeroDivisionError]
    exactly when the horizon is positive and the dataset empty; there being
    no lifecycle, nothing else divides.  With a positive horizon and a
    dataset with rows it raises [ValueError] exactly when a cell of the
    timeline before rounding (a running sum of the daily costs, or a day's
    requests, data volume or users) cannot be cast to an integer, and
    returns exactly when every such cell can.  It raises nothing else. *)
Theorem v1_run_outcome
    {num : Type} `{Arith num} `{ArithRound num}
    (self : V1.OffNetSimulator num) (compute_aws : bool) :
  let T := V1.time_horizon_days (V1.params self) in
  let run := V1.run_simulation self compute_aws in
  let cells :=
    cumsum (map (V1.on_net_daily_cost compute_aws self) (range T))
    ++ cumsum (map (V1.off_net_daily_cost compute_aws self) (range T))
    ++ map (fun d => num_requests (V1.row_at self d)) (range T)
    ++ map (V1.daily_data_volume_at self) (range T)
    ++ map (fun d => num_users (V1.row_at self d)) (range T) in
  (run = Raise IndexError <-> (T <= 0)%Z)
  /\ (run = Raise ZeroDivisionError <-> (1 <= T)%Z /\ V1.user_data self = [])
  /\ (run = Raise ValueError
      <-> (1 <= T)%Z /\ V1.user_data self <> []
          /\ exists x : num, In x cells /\ round_int x = None)
  /\ ((exists res, run = Ok res)
      <-> (1 <= T)%Z /\ V1.user_data self <> []
          /\ forall x : num, In x cells -> round_int x <> None)
  /\ run <> Raise KeyError
  /\ run <> Raise OverflowError.
Proof.
  intros T run cells. subst run.
  destruct (v1_run_cases self compute_aws)
    as [[HT E] | [(HT & Hd & E) | [(HT & Hd & E & x & Hx & Hin)
       | (HT & Hd & on & off & req & vol & users & t1 & t2 & Hon & Hoff & Hreq
          & Hvol & Husers & _ & _ & E)]]];
    fold T in HT; rewrite E.
  - repeat split; intros;
      repeat match goal with
             | Hx : exists _, _ |- _ => destruct Hx
             | Hx : _ /\ _ |- _ => destruct Hx
             end;
      try discriminate; try lia; try assumption.
  - repeat split; intros;
      repeat match goal with
             | Hx : exists _, _ |- _ => destruct Hx
             | Hx : _ /\ _ |- _ => destruct Hx
             end;
      try discriminate; try lia; try assumption; try contradiction.
  - fold T in Hin. fold cells in Hin.
    repeat split; intros;
      repeat match goal with
             | Hx : exists _, _ |- _ => destruct Hx
             | Hx : _ /\ _ |- _ => destruct Hx
             end;
      try discriminate; try lia; try assumption; try contradiction.
    + now exists x.
    + exfalso.
      match goal with
      | Hc : forall _, In _ _ -> _ |- _ => exact (Hc x Hin Hx)
      end.
  - assert (Hcells : forall y : num, In y cells -> round_int y <> None).
    { intros y Hy. subst cells. rewrite !in_app_iff in Hy.
      destruct Hy as [Hy | [Hy | [Hy | [Hy | Hy]]]];
        eauto using round_column_ok. }
    repeat split; intros;
      repeat match goal with
             | Hx : exists _, _ |- _ => destruct Hx
             | Hx : _ /\ _ |- _ => destruct Hx
             end;
      try discriminate; try lia; try assumption; try contradiction.
    + exfalso.
      match goal with
      | Hn : round_int ?y = None, Hy : In ?y cells |- _ =>
          exact (Hcells y Hy Hn)
      end.
    + now apply Hcells.
    + eexists. reflexivity.
Qed.

(** X15.  The timeline of a run of the earlier simulator that returns: the
    Day column counts 1 to T, and every other column is, cell by cell
    rounded to an integer, the running sum of the daily on-net or off-net
    costs, or the day's requests, data volume or users.  The running sums
    start with the first day's own cost: the row of Day [k] includes the
    cost of day [k]. *)
Theorem v1_timeline_is_the_rounded_running_sum
    {num : Type} `{Arith num} `{ArithRound num}
    (self : V1.OffNetSimulator num) (compute_aws : bool)
    (res : V1.SimulationResults num) :
  let T := V1.time_horizon_days (V1.params self) in
  let t := V1.timeline res in
  V1.run_simulation self compute_aws = Ok res ->
  V1.Day t = range_from 1 (T + 1)
  /\ round_column
       (cumsum (map (V1.on_net_daily_cost compute_aws self) (range T)))
     = Ok (V1.On_Net_Cost t)
  /\ round_column
       (cumsum (map (V1.off_net_daily_cost compute_aws self) (range T)))
     = Ok (V1.Off_Net_Cost t)
  /\ round_column (map (fun d => num_requests (V1.row_at self d)) (range T))
     = Ok (V1.Sent_Requests t)
  /\ round_column (map (V1.daily_data_volume_at self) (range T))
     = Ok (V1.Sent_Data_Volume_GB t)
  /\ round_column (map (fun d => num_users (V1.row_at self d)) (range T))
     = Ok (V1.Active_Users t)
  /\ exists n m,
       round_int (V1.on_net_daily_cost compute_aws self 0) = Some n
       /\ nth_error (V1.On_Net_Cost t) 0 = Some n
       /\ round_int (V1.off_net_daily_cost compute_aws self 0) = Some m
       /\ nth_error (V1.Off_Net_Cost t) 0 = Some m.
Proof.
  intros T t Hrun. subst t.
  destruct (v1_run_cases self compute_aws)
    as [[_ E] | [(_ & _ & E) | [(_ & _ & E & _)
       | (HT & Hd & on & off & req & vol & users & t1 & t2 & Hon & Hoff & Hreq
          & Hvol & Husers & _ & _ & E)]]];
    try congruence.
  rewrite E in Hrun. injection Hrun as <-.
  cbn [V1.timeline V1.Day V1.On_Net_Cost V1.Off_Net_Cost V1.Sent_Requests
       V1.Sent_Data_Volume_GB V1.Active_Users].
  fold T in Hon, Hoff, Hreq, Hvol, Husers, HT |- *.
  repeat (split; [assumption || reflexivity |]).
  destruct (range_head HT) as [l Hl].
  destruct (round_column_cases
              (cumsum (map (V1.on_net_daily_cost compute_aws self) (range T))))
    as [(on' & Hon' & _ & Hcells) | [Hbad _]]; [| congruence].
  destruct (round_column_cases
              (cumsum (map (V1.off_net_daily_cost compute_aws self) (range T))))
    as [(off' & Hoff' & _ & Hcells') | [Hbad _]]; [| congruence].
  assert (on' = on) by congruence. assert (off' = off) by congruence.
  subst on' off'.
  destruct (Hcells 0%nat (V1.on_net_daily_cost compute_aws self 0))
    as (n & Hn & Hn'); [now rewrite Hl |].
  destruct (Hcells' 0%nat (V1.off_net_daily_cost compute_aws self 0))
    as (m & Hm & Hm'); [now rewrite Hl |].
  exists n, m. auto.
Qed.

(** X16.  What a run of the earlier simulator that returns recommends.  In
    Canvas mode it compares the two last cumulative costs after rounding
    them to integers, the off-net sentence standing only when the rounded
    off-net total is strictly below the rounded on-net total, and both AWS
    figures are [0.0].  In AWS mode the required bandwidth is the first
    result of [compute_aws_bandwidth] and the monthly link cost is its
    second result, the daily cost, times 30. *)
Theorem v1_recommendation
    {num : Type} `{Arith num} `{ArithRound num}
    (self : V1.OffNetSimulator num) (compute_aws : bool)
    (res : V1.SimulationResults num) :
  V1.run_simulation self compute_aws = Ok res ->
  exists total_on_net total_off_net : Z,
    iloc_last (V1.On_Net_Cost (V1.timeline res)) = Ok total_on_net
    /\ iloc_last (V1.Off_Net_Cost (V1.timeline res)) = Ok total_off_net
    /\ if compute_aws then
         V1.required_bandwidth_gbps res = fst (V1.compute_aws_bandwidth self)
         /\ V1.aws_transfer_link_cost res
            = (snd (V1.compute_aws_bandwidth self) * of_int 30)%num
         /\ V1.final_recommendation res
            = Bandwidth_text (V1.required_bandwidth_gbps res)
                             (V1.aws_transfer_link_cost res)
       else
         V1.required_bandwidth_gbps res = of_int 0
         /\ V1.aws_transfer_link_cost res = of_int 0
         /\ V1.final_recommendation res
            = Text (if (total_off_net <? total_on_net)%Z
                    then V1.off_net_text else V1.on_net_text).
Proof.
  intros Hrun.
  destruct (v1_run_cases self compute_aws)
    as [[_ E] | [(_ & _ & E) | [(_ & _ & E & _)
       | (HT & Hd & on & off & req & vol & users & t1 & t2 & _ & _ & _ & _ & _
          & Ht1 & Ht2 & E)]]];
    try congruence.
  rewrite E in Hrun. injection Hrun as <-.
  cbn [V1.timeline V1.On_Net_Cost V1.Off_Net_Cost V1.required_bandwidth_gbps
       V1.aws_transfer_link_cost V1.final_recommendation].
  exists t1, t2. split; [exact Ht1 |]. split; [exact Ht2 |].
  destruct compute_aws; repeat split.
Qed.

(** ** The two day simulators side by side *)

Section Versions.

Context {num : Type} `{Arith num}.

Variable old : V1.OffNetSimulator num.
Variable compute_aws : bool.

Lemma upgrade_row_at (d : Z) : row_at (upgrade old) d = V1.row_at old d.
Proof. reflexivity. Qed.

Lemma upgrade_volume (d : Z) :
  daily_data_volume_at (upgrade old) d = V1.daily_data_volume_at old d.
Proof. reflexivity. Qed.

Lemma upgrade_daily_costs (d : Z) :
  on_net_daily_cost (upgrade old) compute_aws d
  = V1.on_net_daily_cost compute_aws old d
  /\ off_net_daily_cost (upgrade old) d
     = V1.off_net_daily_cost compute_aws old d.
Proof.
  unfold on_net_daily_cost, off_net_daily_cost, V1.on_net_daily_cost,
    V1.off_net_daily_cost, V1.day_costs.
  destruct compute_aws.
  - unfold compute_aws_bandwidth, V1.compute_aws_bandwidth. now split.
  - now split.
Qed.

End Versions.

(** X17.  Over the same parameters and dataset, with the fields that are new
    in [models.py] at their defaults, the later simulator returns whenever
    the earlier one does, with the same Day column, and the earlier
    simulator's Sent Requests, Sent Data Volume (GB) and Active Users
    columns are the later one's, rounded. *)
Theorem v1_traffic_columns_are_the_later_ones_rounded
    {num : Type} `{Arith num} `{ArithRound num}
    (old : V1.OffNetSimulator num) (compute_aws : bool)
    (res1 : V1.SimulationResults num) :
  V1.run_simulation old compute_aws = Ok res1 ->
  exists res,
    run_simulation (upgrade old) compute_aws = Ok res
    /\ Day (timeline res) = V1.Day (V1.timeline res1)
    /\ round_column (Sent_Requests (timeline res))
       = Ok (V1.Sent_Requests (V1.timeline res1))
    /\ round_column (Sent_Data_Volume_GB (timeline res))
       = Ok (V1.Sent_Data_Volume_GB (V1.timeline res1))
    /\ round_column (Active_Users (timeline res))
       = Ok (V1.Active_Users (V1.timeline res1)).
Proof.
  intros Hrun.
  destruct (v1_run_cases old compute_aws)
    as [[_ E] | [(_ & _ & E) | [(_ & _ & E & _)
       | (HT & Hd & on & off & req & vol & users & t1 & t2 & _ & _ & Hreq
          & Hvol & Husers & _ & _ & E)]]];
    try congruence.
  rewrite E in Hrun. injection Hrun as <-.
  destruct (run_simulation_returns (upgrade old) compute_aws)
    as (total_on & total_off & _ & _ & Hnew);
    [exact Hd | discriminate | exact HT |].
  eexists. split; [exact Hnew |].
  cbn [timeline results_of timeline_of Day Sent_Requests Sent_Data_Volume_GB
       Active_Users V1.timeline V1.Day V1.Sent_Requests
       V1.Sent_Data_Volume_GB V1.Active_Users].
  split; [reflexivity |]. split; [exact Hreq |]. split; [exact Hvol |].
  exact Husers.
Qed.

Section Exact_versions.

Local Open Scope Qc_scope.

Variable old : V1.OffNetSimulator Qc.
Variable compute_aws : bool.

(** With no upfront cost the items of the later simulator's cost lists over
    the first [k + 1] days sum to the daily costs of the first [k]. *)
Lemma upgrade_sum_charged (L : Z) (k : nat) :
  sum (map (on_net_charged (upgrade old) compute_aws L) (range (Z.of_nat (S k))))
  = sum (map (V1.on_net_daily_cost compute_aws old) (range (Z.of_nat k)))
  /\ sum (map (off_net_charged (upgrade old) L) (range (Z.of_nat (S k))))
     = sum (map (V1.off_net_daily_cost compute_aws old) (range (Z.of_nat k))).
Proof.
  destruct (Qc_sum_charged (upgrade old) compute_aws L (S k)) as [-> ->].
  destruct (Qc_sum_items (upgrade old) compute_aws k) as [-> ->].
  cbn [params upgrade upfront_hardware_cost_on_net
       upfront_hardware_cost_off_net].
  change (of_int (num:=Qc) 0) with 0.
  rewrite (map_ext _ _ (fun d => proj1 (upgrade_daily_costs old compute_aws d))).
  rewrite (map_ext _ _ (fun d => proj2 (upgrade_daily_costs old compute_aws d))).
  change (fun d : Z => V1.on_net_daily_cost compute_aws old d)
    with (V1.on_net_daily_cost compute_aws old).
  change (fun d : Z => V1.off_net_daily_cost compute_aws old d)
    with (V1.off_net_daily_cost compute_aws old).
  cbn [add mul Qc_arith]. split; ring.
Qed.

End Exact_versions.

(** X18.  In exact arithmetic, over the same parameters and dataset with no
    upfront cost, the cost columns of the later simulator are those of the
    earlier one before rounding, one row late: its row of Day [k + 1] holds
    what the earlier simulator rounds into its row of Day [k], and its row
    of Day 1 holds zero. *)
Theorem later_cost_columns_are_one_row_late
    (old : V1.OffNetSimulator Qc) (compute_aws : bool)
    (res1 : V1.SimulationResults Qc) :
  V1.run_simulation old compute_aws = Ok res1 ->
  exists res,
    run_simulation (upgrade old) compute_aws = Ok res
    /\ nth_error (On_Net_Cost (timeline res)) 0 = Some (of_int 0)
    /\ nth_error (Off_Net_Cost (timeline res)) 0 = Some (of_int 0)
    /\ forall (k : nat) (on off : Qc),
         nth_error (On_Net_Cost (timeline res)) (S k) = Some on ->
         nth_error (Off_Net_Cost (timeline res)) (S k) = Some off ->
         exists n m : Z,
           round_int on = Some n
           /\ nth_error (V1.On_Net_Cost (V1.timeline res1)) k = Some n
           /\ round_int off = Some m
           /\ nth_error (V1.Off_Net_Cost (V1.timeline res1)) k = Some m.
Proof.
  intros Hrun.
  destruct (v1_run_cases old compute_aws)
    as [[_ E] | [(_ & _ & E) | [(_ & _ & E & _)
       | (HT & Hd & on1 & off1 & req & vol & users & t1 & t2 & Hon1 & Hoff1
          & _ & _ & _ & _ & _ & E)]]];
    try congruence.
  rewrite E in Hrun. injection Hrun as <-.
  set (T := V1.time_horizon_days (V1.params old)) in *.
  pose proof (run_simulation_returns (upgrade old) compute_aws Hd
                ltac:(discriminate) HT)
    as (total_on & total_off & _ & _ & Hnew).
  eexists. split; [exact Hnew |].
  cbn [timeline results_of timeline_of On_Net_Cost Off_Net_Cost V1.timeline
       V1.On_Net_Cost V1.Off_Net_Cost].
  change (time_horizon_days (params (upgrade old))) with T.
  set (L := (hardware_life_cycle_years (params (upgrade old)) * 365)%Z).
  destruct (range_head HT) as [l Hl].
  split; [now rewrite Hl |]. split; [now rewrite Hl |].
  intros k on off Hon Hoff.
  assert (Hk : (S k < Z.to_nat T)%nat).
  { assert (Hlen : (S k < length (cumsum (map (on_net_charged (upgrade old)
                                                 compute_aws L) (range T))))%nat)
      by (apply nth_error_Some; congruence).
    now rewrite length_cumsum, length_map, length_range in Hlen. }
  rewrite Qc_cumsum_nth in Hon, Hoff
    by (rewrite length_map, length_range; lia).
  rewrite firstn_map in Hon, Hoff.
  replace (S (S k)) with (Z.to_nat (Z.of_nat (S (S k)))) in Hon, Hoff by lia.
  rewrite (firstn_range (n:=Z.of_nat (S (S k))) (m:=T)) in Hon, Hoff by lia.
  destruct (upgrade_sum_charged old compute_aws L (S k)) as [Eon Eoff].
  rewrite Eon in Hon. rewrite Eoff in Hoff.
  destruct (round_column_cases
              (cumsum (map (V1.on_net_daily_cost compute_aws old) (range T))))
    as [(on' & Hon' & _ & Hcells) | [Hbad _]]; [| congruence].
  destruct (round_column_cases
              (cumsum (map (V1.off_net_daily_cost compute_aws old) (range T))))
    as [(off' & Hoff' & _ & Hcells') | [Hbad _]]; [| congruence].
  assert (on' = on1) by congruence. assert (off' = off1) by congruence.
  subst on' off'.
  assert (Hold : forall f : Z -> Qc,
            nth_error (cumsum (map f (range T))) k
            = Some (sum (map f (range (Z.of_nat (S k)))))).
  { intros f. rewrite Qc_cumsum_nth by (rewrite length_map, length_range; lia).
    rewrite firstn_map.
    replace (S k) with (Z.to_nat (Z.of_nat (S k))) at 1 by lia.
    now rewrite (firstn_range (n:=Z.of_nat (S k)) (m:=T)) by lia. }
  destruct (Hcells k _ (Hold _)) as (n & Hn & Hn').
  destruct (Hcells' k _ (Hold _)) as (m & Hm & Hm').
  injection Hon as <-. injection Hoff as <-.
  exists n, m. auto.
Qed.

(** ** The break-even month in exact arithmetic *)

Section Exact_comparison.

Local Open Scope Qc_scope.

Lemma Qc_ltb_lt (x y : Qc) : ltb x y = true <-> x < y.
Proof.
  cbn [ltb Qc_arith]. rewrite Qclt_alt.
  destruct (x ?= y); split; congruence.
Qed.

Lemma Qc_below_iff (a b : Qc) :
  ltb (sub a b) (of_int 0) = true <-> a < b.
Proof.
  rewrite Qc_ltb_lt. cbn [sub of_int Qc_arith Qc_arith_monthly].
  change (Q2Qc (inject_Z 0)) with 0.
  rewrite (Qclt_minus_iff (a - b) 0), (Qclt_minus_iff a b).
  replace (0 + - (a - b)) with (b + - a) by ring. reflexivity.
Qed.

(** In exact arithmetic the costs of every month are computed. *)
Lemma Qc_month_costs_ok (self : Monthly.OffNetSimulator Qc) (m : Z) :
  (0 <= m)%Z -> exists c, Monthly.month_costs self m = Ok c.
Proof.
  intros Hm. unfold Monthly.month_costs, Monthly.current_users, to_float.
  cbn [pow Qc_arith_monthly fits Qc_arith].
  destruct (m <? 0)%Z eqn:E; [apply Z.ltb_lt in E; lia |].
  cbn [bind]. eexists. reflexivity.
Qed.

End Exact_comparison.

(** X19.  In exact arithmetic, the month the monthly run names as the one
    from which off-net becomes cheaper is the first month in which the
    on-net cost is strictly below the off-net cost: it is a month of the
    horizon, its row has the lower on-net cost, and in every row before it
    the off-net cost is at most the on-net cost.  When the run names no
    month, the off-net cost is at most the on-net cost in every row. *)
Theorem break_even_month_has_the_lower_on_net_cost
    (self : Monthly.OffNetSimulator Qc) (res : Monthly.SimulationResults Qc) :
  let T := Monthly.time_horizon_months (Monthly.params self) in
  let on_net := Monthly.On_Net_Cost (Monthly.timeline res) in
  let off_net := Monthly.Off_Net_Cost (Monthly.timeline res) in
  Monthly.run_simulation self = Ok res ->
  match Monthly.break_even_month res with
  | Some m =>
      (1 <= m <= T)%Z
      /\ (exists on off : Qc,
            nth_error on_net (Z.to_nat (m - 1)) = Some on
            /\ nth_error off_net (Z.to_nat (m - 1)) = Some off
            /\ (on < off)%Qc)
      /\ forall (i : nat) (on off : Qc),
           (i < Z.to_nat (m - 1))%nat ->
           nth_error on_net i = Some on ->
           nth_error off_net i = Some off ->
           (off <= on)%Qc
  | None =>
      forall (i : nat) (on off : Qc),
        nth_error on_net i = Some on ->
        nth_error off_net i = Some off ->
        (off <= on)%Qc
  end.
Proof.
  intros T on_net off_net Hrun. subst on_net off_net.
  assert (Hall : forall m, (0 <= m < T)%Z ->
                 exists c, Monthly.month_costs self m = Ok c)
    by (intros m Hm; apply Qc_month_costs_ok; lia).
  rewrite (monthly_run_returns self Hall) in Hrun. injection Hrun as <-.
  cbn [Monthly.break_even_month Monthly.timeline Monthly.On_Net_Cost
       Monthly.Off_Net_Cost].
  fold T.
  assert (Hrow : forall (i : nat) (on off : Qc),
    nth_error (map (fun m => fst (Monthly.costs_at self m)) (range T)) i
    = Some on ->
    nth_error (map (fun m => snd (Monthly.costs_at self m)) (range T)) i
    = Some off ->
    (i < Z.to_nat T)%nat
    /\ (Monthly.below self (Z.of_nat i) = true <-> (on < off)%Qc)).
  { intros i on off Hon Hoff.
    assert (Hi : (i < Z.to_nat T)%nat).
    { pose proof (proj1 (nth_error_Some _ i)
                          ltac:(rewrite Hon; discriminate)) as Hlen.
      now rewrite length_map, length_range in Hlen. }
    split; [exact Hi |].
    rewrite nth_error_map, nth_error_range in Hon, Hoff by exact Hi.
    cbn [option_map] in Hon, Hoff. injection Hon as <-. injection Hoff as <-.
    rewrite below_costs_at by (apply Hall; lia). apply Qc_below_iff. }
  destruct (Z_le_gt_dec T 0) as [HT | HT].
  { rewrite range_nonpositive by exact HT. cbn [find option_map map].
    intros [| i] on off Hon; discriminate Hon. }
  pose proof (find_range_first (Monthly.below self) (Z.to_nat T)) as Hfirst.
  rewrite Z2Nat.id in Hfirst by lia.
  destruct (find (Monthly.below self) (range T)) as [d |]; cbn [option_map].
  - destruct Hfirst as (Hd & Hbelow & Hbefore).
    replace (d + 1 - 1)%Z with d by lia.
    split; [lia |]. split.
    + exists (fst (Monthly.costs_at self d)), (snd (Monthly.costs_at self d)).
      assert (Hon : nth_error
                      (map (fun m => fst (Monthly.costs_at self m)) (range T))
                      (Z.to_nat d)
                    = Some (fst (Monthly.costs_at self d)))
        by (rewrite nth_error_map, nth_error_range by lia;
            now rewrite Z2Nat.id by lia).
      assert (Hoff : nth_error
                       (map (fun m => snd (Monthly.costs_at self m)) (range T))
                       (Z.to_nat d)
                     = Some (snd (Monthly.costs_at self d)))
        by (rewrite nth_error_map, nth_error_range by lia;
            now rewrite Z2Nat.id by lia).
      split; [exact Hon |]. split; [exact Hoff |].
      apply (Hrow _ _ _ Hon Hoff). now rewrite Z2Nat.id by lia.
    + intros i on off Hi Hon Hoff.
      destruct (Hrow i on off Hon Hoff) as [_ Hiff].
      apply Qcnot_lt_le. intros Hlt. apply Hiff in Hlt.
      apply (eq_true_false_abs _ Hlt). apply Hbefore. lia.
  - intros i on off Hon Hoff.
    destruct (Hrow i on off Hon Hoff) as [Hi Hiff].
    apply Qcnot_lt_le. intros Hlt. apply Hiff in Hlt.
    apply (eq_true_false_abs _ Hlt). apply Hfirst. lia.
Qed.

(** * The further properties at concrete inputs *)

(** Closes the case of a sample run that would have raised. *)
Ltac sample_returns E := exfalso; vm_compute in E; discriminate E.

(** X2 at the three sample days. *)
Lemma timeline_has_one_row_per_day_witness :
  exists res,
    run_simulation (sample 3 5 3000 10000 20000) false = Ok res
    /\ length (Day (timeline res)) = 3%nat
    /\ length (On_Net_Cost (timeline res)) = 3%nat.
Proof.
  destruct (run_simulation (sample 3 5 3000 10000 20000) false)
    as [res | e] eqn:E; [| sample_returns E].
  exists res. split; [reflexivity |].
  destruct (timeline_has_one_row_per_day _ _ E) as (_ & Hd & Hon & _).
  split; [exact Hd | exact Hon].
Defined.

(** X3 at the three sample days. *)
Lemma first_row_is_the_upfront_cost_witness :
  exists res,
    run_simulation (sample 3 5 3000 10000 20000) true = Ok res
    /\ nth_error (On_Net_Cost (timeline res)) 0 = Some 10000
    /\ nth_error (Off_Net_Cost (timeline res)) 0 = Some 20000.
Proof.
  destruct (run_simulation (sample 3 5 3000 10000 20000) true)
    as [res | e] eqn:E; [| sample_returns E].
  exists res. split; [reflexivity |].
  exact (first_row_is_the_upfront_cost _ _ E).
Defined.

(** X4 at the three sample days. *)
Lemma data_volume_follows_requests_witness :
  exists res,
    run_simulation (sample 3 5 3000 10000 20000) false = Ok res
    /\ Sent_Data_Volume_GB (timeline res)
       = map (fun requests => requests * (1024 / 1048576))
             (Sent_Requests (timeline res)).
Proof.
  destruct (run_simulation (sample 3 5 3000 10000 20000) false)
    as [res | e] eqn:E; [| sample_returns E].
  exists res. split; [reflexivity |].
  exact (data_volume_follows_requests _ _ E).
Defined.

(** X5 at the AWS sample. *)
Lemma reported_figures_by_mode_witness :
  exists res,
    run_simulation aws_sample true = Ok res
    /\ required_bandwidth_gbps res = fst (compute_aws_bandwidth aws_sample)
    /\ aws_transfer_link_cost res = required_bandwidth_gbps res * 30720.
Proof.
  destruct (run_simulation aws_sample true) as [res | e] eqn:E;
    [| sample_returns E].
  exists res. split; [reflexivity |].
  destruct (reported_figures_by_mode _ _ E) as (Hbw & Hcost & _).
  split; [exact Hbw | exact Hcost].
Defined.

(** X6 from two days to three. *)
Lemma longer_horizon_extends_timeline_witness :
  let self := sample 3 5 3000 10000 20000 in
  ((1 <= 2 <= 3)%Z /\ user_data self <> []
   /\ hardware_life_cycle_years (params self) <> 0%Z)
  /\ exists res res',
       run_simulation (with_horizon self 2) false = Ok res
       /\ run_simulation (with_horizon self 3) false = Ok res'
       /\ On_Net_Cost (timeline res) = firstn 2 (On_Net_Cost (timeline res')).
Proof.
  cbv zeta.
  assert (H1 : (1 <= 2 <= 3)%Z) by lia.
  assert (H2 : user_data (sample 3 5 3000 10000 20000) <> []) by discriminate.
  assert (H3 : hardware_life_cycle_years
                 (params (sample 3 5 3000 10000 20000)) <> 0%Z)
    by discriminate.
  split; [now repeat split |].
  destruct (longer_horizon_extends_timeline
              (sample 3 5 3000 10000 20000) false H1 H2 H3)
    as (res & res' & Hrun & Hrun' & _ & Hon & _).
  exists res, res'. now repeat split.
Defined.

(** X7 at the exact sample, normalized twice to 300 users. *)
Lemma renormalizing_forgets_the_first_target_witness :
  let p := params exact_sample in
  let data := user_data exact_sample in
  (data <> [] /\ (0 < mean (map num_users data))%Qc
   /\ (0 < avg_num_users p)%Z)
  /\ exists once, init p data = Ok once /\ init p (user_data once) = Ok once.
Proof.
  cbv zeta.
  assert (H1 : user_data exact_sample <> []) by discriminate.
  assert (H2 : (0 < mean (map num_users (user_data exact_sample)))%Qc)
    by reflexivity.
  assert (H3 : (0 < avg_num_users (params exact_sample))%Z) by reflexivity.
  split; [now repeat split |].
  destruct (renormalizing_forgets_the_first_target
              (params exact_sample) (params exact_sample) H1 H2 H3)
    as (once & twice & direct & Honce & _ & _ & _ & Hagain).
  exists once. now split.
Defined.

(** X9 at the first two rows of the three sample days. *)
Lemma each_row_adds_the_previous_day_witness :
  exists res on on' off off',
    run_simulation (sample 3 5 3000 10000 20000) false = Ok res
    /\ nth_error (On_Net_Cost (timeline res)) 0 = Some on
    /\ nth_error (On_Net_Cost (timeline res)) 1 = Some on'
    /\ nth_error (Off_Net_Cost (timeline res)) 0 = Some off
    /\ nth_error (Off_Net_Cost (timeline res)) 1 = Some off'
    /\ on' = on + on_net_daily_cost (sample 3 5 3000 10000 20000) false 0
    /\ off' = off + off_net_daily_cost (sample 3 5 3000 10000 20000) 0.
Proof.
  destruct (run_simulation (sample 3 5 3000 10000 20000) false)
    as [res | e] eqn:E; [| sample_returns E].
  assert (Hres : Ok res = Ok
            {| timeline :=
                 {| Day := [1; 2; 3]%Z;
                    On_Net_Cost := [10000; 10100.125; 10200.375];
                    Off_Net_Cost := [20000; 20000.0625; 20000.1875];
                    Sent_Requests := [1024; 2048; 1536];
                    Sent_Data_Volume_GB := [1; 2; 1.5];
                    Active_Users := [100; 200; 150] |};
               final_recommendation := Text on_net_text;
               aws_transfer_link_cost := 0;
               required_bandwidth_gbps := 0 |})
    by (rewrite <- E; reflexivity).
  exists res, 10000, 10100.125, 20000, 20000.0625.
  assert (H0 : nth_error (On_Net_Cost (timeline res)) 0 = Some 10000)
    by (injection Hres as ->; reflexivity).
  assert (H1 : nth_error (On_Net_Cost (timeline res)) 1 = Some 10100.125)
    by (injection Hres as ->; reflexivity).
  assert (H2 : nth_error (Off_Net_Cost (timeline res)) 0 = Some 20000)
    by (injection Hres as ->; reflexivity).
  assert (H3 : nth_error (Off_Net_Cost (timeline res)) 1 = Some 20000.0625)
    by (injection Hres as ->; reflexivity).
  split; [reflexivity |]. repeat (split; [assumption |]).
  exact (each_row_adds_the_previous_day _ _ 0 E H0 H1 H2 H3).
Defined.

(** X10 at the second row of the exact sample. *)
Lemma exact_cumulative_cost_witness :
  exists res,
    run_simulation exact_sample false = Ok res
    /\ (1 <= 2 <= time_horizon_days (params exact_sample))%Z
    /\ nth_error (On_Net_Cost (timeline res)) 1
       = Some (upfront_hardware_cost_on_net (params exact_sample)
               * of_int (1 + refresh_count (5 * 365) 2)
               + sum (map (on_net_daily_cost exact_sample false) (range 1)))%Qc.
Proof.
  destruct (run_simulation exact_sample false) as [res | e] eqn:E;
    [| sample_returns E].
  assert (Hk : (1 <= 2 <= time_horizon_days (params exact_sample))%Z)
    by (cbn; lia).
  exists res. split; [reflexivity |]. split; [exact Hk |].
  exact (proj1 (@exact_cumulative_cost exact_sample false res 2%Z E Hk)).
Defined.

(** X11 at the exact sample. *)
Lemma cumulative_costs_never_decrease_witness :
  nonnegative_inputs exact_sample
  /\ exists res,
       run_simulation exact_sample true = Ok res
       /\ nondecreasing (On_Net_Cost (timeline res)).
Proof.
  assert (Hin : nonnegative_inputs exact_sample).
  { split.
    - repeat split; intros Hgt; discriminate Hgt.
    - repeat constructor; intros Hgt; discriminate Hgt. }
  split; [exact Hin |].
  destruct (run_simulation exact_sample true) as [res | e] eqn:E;
    [| sample_returns E].
  exists res. split; [reflexivity |].
  exact (proj1 (@cumulative_costs_never_decrease exact_sample true res Hin E)).
Defined.

(** X12 at the monthly sample: twelve rows. *)
Lemma monthly_run_outcome_witness :
  exists res,
    Monthly.run_simulation monthly_sample = Ok res
    /\ length (Monthly.Month (Monthly.timeline res)) = 12%nat.
Proof.
  destruct (Monthly.run_simulation monthly_sample) as [res | e] eqn:E;
    [| sample_returns E].
  exists res. split; [reflexivity |].
  exact (proj1 (proj1 (proj2 (proj2 (proj2
                 (monthly_run_outcome monthly_sample)))) res E)).
Defined.

(** X14 at the dataset without users: the timeline has a cell that is not
    finite, and the run raises [ValueError]. *)
Lemma v1_run_outcome_witness :
  let self := v1_idle_sample in
  let T := V1.time_horizon_days (V1.params self) in
  V1.run_simulation self false = Raise ValueError
  /\ exists x : float,
       In x (cumsum (map (V1.on_net_daily_cost false self) (range T))
             ++ cumsum (map (V1.off_net_daily_cost false self) (range T))
             ++ map (fun d => num_requests (V1.row_at self d)) (range T)
             ++ map (V1.daily_data_volume_at self) (range T)
             ++ map (fun d => num_users (V1.row_at self d)) (range T))
       /\ round_int x = None.
Proof.
  cbv zeta.
  assert (E : V1.run_simulation v1_idle_sample false = Raise ValueError)
    by (vm_compute; reflexivity).
  split; [exact E |].
  destruct (proj1 (proj1 (proj2 (proj2 (v1_run_outcome v1_idle_sample false))))
                  E) as (_ & _ & x & Hin & Hx).
  exists x. split; [exact Hin | exact Hx].
Defined.

(** X13 at the monthly sample: month 9. *)
Lemma break_even_is_the_first_month_below_witness :
  exists res,
    Monthly.run_simulation monthly_sample = Ok res
    /\ Monthly.break_even_month res = Some 9%Z
    /\ Monthly.below monthly_sample 8 = true
    /\ Monthly.final_recommendation res
       = "Off-net solution becomes cheaper starting month 9"%string.
Proof.
  destruct (Monthly.run_simulation monthly_sample) as [res | e] eqn:E;
    [| sample_returns E].
  assert (Hm : Monthly.break_even_month res = Some 9%Z).
  { assert (Hres : option_map Monthly.break_even_month
                     (match Monthly.run_simulation monthly_sample with
                      | Ok r => Some r
                      | Raise _ => None
                      end) = Some (Some 9%Z)) by (vm_compute; reflexivity).
    rewrite E in Hres. now injection Hres. }
  exists res. split; [reflexivity |]. split; [exact Hm |].
  pose proof (break_even_is_the_first_month_below monthly_sample E) as Hfirst.
  cbv zeta in Hfirst. rewrite Hm in Hfirst.
  destruct Hfirst as (_ & Hbelow & _ & Htext).
  split; [exact Hbelow | exact Htext].
Defined.

(** X19 at the monthly sample: in month 9 on-net costs less. *)
Lemma break_even_month_has_the_lower_on_net_cost_witness :
  exists res on off,
    Monthly.run_simulation monthly_sample = Ok res
    /\ Monthly.break_even_month res = Some 9%Z
    /\ nth_error (Monthly.On_Net_Cost (Monthly.timeline res)) 8 = Some on
    /\ nth_error (Monthly.Off_Net_Cost (Monthly.timeline res)) 8 = Some off
    /\ (on < off)%Qc.
Proof.
  destruct (Monthly.run_simulation monthly_sample) as [res | e] eqn:E;
    [| sample_returns E].
  assert (Hm : Monthly.break_even_month res = Some 9%Z).
  { assert (Hres : option_map Monthly.break_even_month
                     (match Monthly.run_simulation monthly_sample with
                      | Ok r => Some r
                      | Raise _ => None
                      end) = Some (Some 9%Z)) by (vm_compute; reflexivity).
    rewrite E in Hres. now injection Hres. }
  pose proof (@break_even_month_has_the_lower_on_net_cost monthly_sample res E)
    as Hlower.
  cbv zeta in Hlower. rewrite Hm in Hlower.
  destruct Hlower as (_ & (on & off & Hon & Hoff & Hlt) & _).
  exists res, on, off. now repeat split.
Defined.

(** X15 at the float sample of the earlier simulator: the first row is the
    first day's cost, 100.125, rounded. *)
Lemma v1_timeline_is_the_rounded_running_sum_witness :
  exists res,
    V1.run_simulation v1_sample false = Ok res
    /\ V1.Day (V1.timeline res) = [1; 2; 3]%Z
    /\ round_column
         (cumsum (map (V1.on_net_daily_cost false v1_sample) (range 3)))
       = Ok (V1.On_Net_Cost (V1.timeline res)).
Proof.
  destruct (V1.run_simulation v1_sample false) as [res | e] eqn:E;
    [| sample_returns E].
  exists res. split; [reflexivity |].
  destruct (v1_timeline_is_the_rounded_running_sum v1_sample false E)
    as (Hday & Hon & _).
  split; [exact Hday | exact Hon].
Defined.

(** X16 at the float sample of the earlier simulator. *)
Lemma v1_recommendation_witness :
  exists res total_on_net total_off_net,
    V1.run_simulation v1_sample false = Ok res
    /\ iloc_last (V1.On_Net_Cost (V1.timeline res)) = Ok total_on_net
    /\ iloc_last (V1.Off_Net_Cost (V1.timeline res)) = Ok total_off_net
    /\ V1.final_recommendation res
       = Text (if (total_off_net <? total_on_net)%Z
               then V1.off_net_text else V1.on_net_text).
Proof.
  destruct (V1.run_simulation v1_sample false) as [res | e] eqn:E;
    [| sample_returns E].
  destruct (v1_recommendation v1_sample false E)
    as (t1 & t2 & H1 & H2 & _ & _ & Htext).
  exists res, t1, t2. now repeat split.
Defined.

(** X17 at the float sample of the earlier simulator. *)
Lemma v1_traffic_columns_are_the_later_ones_rounded_witness :
  exists res1 res,
    V1.run_simulation v1_sample false = Ok res1
    /\ run_simulation (upgrade v1_sample) false = Ok res
    /\ round_column (Sent_Data_Volume_GB (timeline res))
       = Ok (V1.Sent_Data_Volume_GB (V1.timeline res1)).
Proof.
  destruct (V1.run_simulation v1_sample false) as [res1 | e] eqn:E;
    [| sample_returns E].
  destruct (v1_traffic_columns_are_the_later_ones_rounded v1_sample false E)
    as (res & Hrun & _ & _ & Hvol & _).
  exists res1, res. now repeat split.
Defined.

(** X18 at the exact sample of the earlier simulator. *)
Lemma later_cost_columns_are_one_row_late_witness :
  exists res1 res,
    V1.run_simulation v1_exact_sample false = Ok res1
    /\ run_simulation (upgrade v1_exact_sample) false = Ok res
    /\ nth_error (On_Net_Cost (timeline res)) 0 = Some (of_int 0).
Proof.
  destruct (V1.run_simulation v1_exact_sample false) as [res1 | e] eqn:E;
    [| sample_returns E].
  destruct (later_cost_columns_are_one_row_late v1_exact_sample false E)
    as (res & Hrun & Hfirst & _).
  exists res1, res. now repeat split.
Defined.

(** X8 at the exact sample with an SLA of 50 percent: normalizing 150 users
    to 300 doubles the bandwidth, from 5/226492416 to 5/113246208. *)
Lemma bandwidth_scales_with_normalization_witness :
  mean (map num_users (user_data exact_aws_sample)) <> 0%Qc
  /\ fst (compute_aws_bandwidth exact_aws_sample) = Q2Qc (5 # 226492416)
  /\ exists self',
       adjust_dataset exact_aws_sample = Ok self'
       /\ fst (compute_aws_bandwidth self') = Q2Qc (5 # 113246208).
Proof.
  assert (Hm : mean (map num_users (user_data exact_aws_sample)) <> 0%Qc)
    by discriminate.
  split; [exact Hm |].
  split; [apply Qc_is_canon; reflexivity |].
  destruct (bandwidth_scales_with_normalization exact_aws_sample Hm)
    as (self' & Hrun & Hbw & _).
  exists self'. split; [exact Hrun |]. rewrite Hbw.
  apply Qc_is_canon. reflexivity.
Defined.
